(** * DCot: appointment booking, slot resolution and doctor rating aggregate

    A shallow embedding of the Express/Mongoose back end:
    - the Mongoose schemas of appointments, doctors and feedback with their
      indexes and validators ([backend/models/]);
    - the appointment router ([/api/appointments]): booking, cancelling,
      completing and the available-slots query;
    - the feedback router ([backend/routes/feedback.js]): submission, update
      and deletion with the doctor's running mean;
    - of the doctor router ([backend/routes/doctor.js]) the availability
      update and the doctor's appointment list;
    - of the admin router ([backend/routes/admin.js]) approval,
      (de)activation and deletion of accounts and the statistics;
    - the retry wrapper of the API client.

    Collections are lists of documents in natural (insertion) order, handlers
    are functions from a store to a response and a new store.  JavaScript
    numbers that carry fractions (the doctor's mean rating) are IEEE-754
    binary64 values, integers that stay far below 2^53 (counters, epoch
    milliseconds, ratings 1..5) are [Z].  A string is the sequence of bytes
    of its UTF-8 form. *)

From Stdlib Require Import ZArith List String Ascii Bool Lia Floats Uint63.
From Stdlib Require Import Permutation Sorted.
From Stdlib Require OrdersEx.
Import ListNotations.

Set Warnings "-inexact-float".

Open Scope string_scope.
Open Scope list_scope.
Open Scope Z_scope.

(** ** Basic data *)

Definition ObjectId := Z.

(** A JavaScript [Date] that is valid: milliseconds since the epoch.  The
    runs of this file are those of a server whose time zone is UTC, where a
    calendar day is a block of [msPerDay] milliseconds starting at a
    multiple of [msPerDay]; the slot resolver is also given for a server in
    any zone, [ResolveSlotsIn]. *)
Definition Date := Z.
Definition msPerDay : Z := 86400000.

Module Zone.
(** The time zone of the server process, as far as the handlers use it
    through [toLocaleDateString] and [setDate(getDate() + 1)]: the offset of
    local time from UTC at an instant, in milliseconds, and the instant that
    a local time is read as.  The zone data itself belongs to the run-time
    system, not to the repository. *)
Record t := {
  offsetAt : Date -> Z;
  fromLocal : Z -> Date
}.

(** The local time, as milliseconds of the local clock, of an instant. *)
Definition toLocal (zone : t) (d : Date) : Z := d + offsetAt zone d.

(** A zone that is always [offset] milliseconds ahead of UTC. *)
Definition fixed (offset : Z) : t :=
  {| offsetAt := fun _ => offset; fromLocal := fun l => l - offset |}.

Definition utc : t := fixed 0.
End Zone.

Module Role.
Inductive t := patient | doctor | admin.
Definition eqb (a b : t) : bool :=
  match a, b with
  | patient, patient | doctor, doctor | admin, admin => true
  | _, _ => false
  end.
End Role.

Inductive Status := pending | confirmed | completed | cancelled.

Definition Status_eqb (a b : Status) : bool :=
  match a, b with
  | pending, pending | confirmed, confirmed
  | completed, completed | cancelled, cancelled => true
  | _, _ => false
  end.

(** The string stored for a status, as it appears in the template
    [`Cannot cancel ${appointment.status} appointment`]. *)
Definition Status_toString (s : Status) : string :=
  match s with
  | pending => "pending"
  | confirmed => "confirmed"
  | completed => "completed"
  | cancelled => "cancelled"
  end.

Inductive Day :=
  Monday | Tuesday | Wednesday | Thursday | Friday | Saturday | Sunday.

Definition Day_eqb (a b : Day) : bool :=
  match a, b with
  | Monday, Monday | Tuesday, Tuesday | Wednesday, Wednesday
  | Thursday, Thursday | Friday, Friday | Saturday, Saturday
  | Sunday, Sunday => true
  | _, _ => false
  end.

(** ** Strings: Mongoose's [trim: true] setter and JavaScript truthiness *)

(** A string is the sequence of bytes of its UTF-8 form.  [byteValue c] is
    the value of a byte. *)
Definition byteValue (c : ascii) : nat := nat_of_ascii c.

(** The white space and line terminators of [String.prototype.trim] that
    take one byte: TAB, LF, VT, FF, CR and SP. *)
Definition isSpace (c : ascii) : bool :=
  let n := byteValue c in
  (Nat.eqb n 32 || (Nat.leb 9 n && Nat.leb n 13))%bool.

(** Those that take two bytes: U+00A0 (C2 A0). *)
Definition isSpace2 (c1 c2 : ascii) : bool :=
  (Nat.eqb (byteValue c1) 194 && Nat.eqb (byteValue c2) 160)%bool.

(** Those that take three bytes: U+1680 (E1 9A 80), U+2000..U+200A
    (E2 80 80..8A), U+2028 and U+2029 (E2 80 A8, A9), U+202F (E2 80 AF),
    U+205F (E2 81 9F), U+3000 (E3 80 80) and U+FEFF (EF BB BF). *)
Definition isSpace3 (c1 c2 c3 : ascii) : bool :=
  let a := byteValue c1 in
  let b := byteValue c2 in
  let c := byteValue c3 in
  ((Nat.eqb a 225 && Nat.eqb b 154 && Nat.eqb c 128)
   || (Nat.eqb a 226 && Nat.eqb b 128
       && ((Nat.leb 128 c && Nat.leb c 138)
           || Nat.eqb c 168 || Nat.eqb c 169 || Nat.eqb c 175))
   || (Nat.eqb a 226 && Nat.eqb b 129 && Nat.eqb c 159)
   || (Nat.eqb a 227 && Nat.eqb b 128 && Nat.eqb c 128)
   || (Nat.eqb a 239 && Nat.eqb b 187 && Nat.eqb c 191))%bool.

(** Dropping the white space a string starts with.  With [back] the string
    is read from its end, so the bytes of a character come last byte
    first. *)
Fixpoint dropSpaces (back : bool) (s : string) : string :=
  match s with
  | EmptyString => EmptyString
  | String c1 rest1 =>
      if isSpace c1 then dropSpaces back rest1
      else
        match rest1 with
        | EmptyString => s
        | String c2 rest2 =>
            if (if back then isSpace2 c2 c1 else isSpace2 c1 c2)
            then dropSpaces back rest2
            else
              match rest2 with
              | EmptyString => s
              | String c3 rest3 =>
                  if (if back then isSpace3 c3 c2 c1 else isSpace3 c1 c2 c3)
                  then dropSpaces back rest3
                  else s
              end
        end
  end.

Fixpoint rev_string (s acc : string) : string :=
  match s with
  | String c rest => rev_string rest (String c acc)
  | EmptyString => acc
  end.

Definition trim (s : string) : string :=
  rev_string (dropSpaces true (rev_string (dropSpaces false s) "")) "".

(** [s.length]: the number of UTF-16 byteValue units of the string.  A byte
    that starts a character of up to three bytes counts one, a byte that
    starts a character of four bytes counts two (a surrogate pair), a
    continuation byte counts nothing. *)
Fixpoint jsLength (s : string) : nat :=
  match s with
  | EmptyString => O
  | String c rest =>
      let n := byteValue c in
      ((if Nat.leb 240 n then 2
        else if (Nat.leb 128 n && negb (Nat.leb 192 n))%bool then 0
        else 1) + jsLength rest)%nat
  end.

(** [if (notes)]: a string is truthy when it is present and not empty. *)
Definition truthy (s : option string) : bool :=
  match s with
  | Some EmptyString | None => false
  | Some _ => true
  end.

(** ** Documents *)

Module User.
(** Modelled from the spec: [models/User.js] is not among the sources; the
    fields are those the routes read from [req.user] and from a populated
    reference ([_id], [name], [email], [role], [isApproved], [isActive]). *)
Record t := {
  _id : ObjectId;
  name : string;
  email : string;
  role : Role.t;
  isApproved : bool;
  isActive : bool
}.

Definition findById (users : list t) (id : ObjectId) : option t :=
  find (fun u => _id u =? id) users.
End User.

Module TimeSlotEntry.
(** [timeSlotSchema]: one entry of a doctor's weekly availability. *)
Record t := {
  day : Day;
  startTime : string;
  endTime : string;
  isAvailable : bool
}.
End TimeSlotEntry.

Module Doctor.
(** [doctorSchema], without the descriptive fields (specialization,
    qualification, experience, fee, bio, photo, location) that no booking
    or rating decision reads. *)
Record t := {
  userId : ObjectId;
  availability : list TimeSlotEntry.t;
  rating : float;
  totalRatings : Z;
  totalAppointments : Z
}.

(** [Doctor.findOne({ userId })] *)
Definition findOne (doctors : list t) (uid : ObjectId) : option t :=
  find (fun d => userId d =? uid) doctors.

(** The validators of the [rating] path: [min: 0, max: 5]. *)
Definition validRating (r : float) : bool :=
  (PrimFloat.leb 0 r && PrimFloat.leb r 5)%bool.

(** Writing a document back replaces the stored document it was read from
    ([userId] is [unique]). *)
Fixpoint replace (doctors : list t) (d : t) : list t :=
  match doctors with
  | [] => []
  | x :: rest =>
      if userId x =? userId d then d :: rest else x :: replace rest d
  end.
End Doctor.

Module TimeSlot.
Record t := { startTime : string; endTime : string }.
End TimeSlot.

Module Appointment.
(** [appointmentSchema]; [timestamps] are left out. *)
Record t := {
  _id : ObjectId;
  patientId : ObjectId;
  doctorId : ObjectId;
  appointmentDate : Date;
  timeSlot : TimeSlot.t;
  status : Status;
  symptoms : option string;
  notes : option string;
  prescription : string;
  cancelReason : option string
}.

(** [status: { $in: ['pending', 'confirmed'] }] *)
Definition active (a : t) : bool :=
  match status a with
  | pending | confirmed => true
  | completed | cancelled => false
  end.

(** The fields of the compound unique index
    [{ doctorId: 1, appointmentDate: 1, 'timeSlot.startTime': 1 }]. *)
Definition atKey (d : ObjectId) (date : Date) (start : string) (a : t)
  : bool :=
  ((doctorId a =? d) && (appointmentDate a =? date)
   && String.eqb (TimeSlot.startTime (timeSlot a)) start)%bool.

Definition findById (l : list t) (id : ObjectId) : option t :=
  find (fun a => _id a =? id) l.

(** The query of the booking handler:
    [findOne({ doctorId, appointmentDate, 'timeSlot.startTime',
               status: { $in: ['pending', 'confirmed'] } })] *)
Definition findActiveAt (l : list t) (d : ObjectId) (date : Date)
    (start : string) : option t :=
  find (fun a => (atKey d date start a && active a)%bool) l.

(** Inserting a document: the unique index rejects it with error 11000
    ([None]) when a stored document, of any status, has the same key. *)
Definition insert (l : list t) (a : t) : option (list t) :=
  if existsb
       (atKey (doctorId a) (appointmentDate a)
          (TimeSlot.startTime (timeSlot a))) l
  then None
  else Some (l ++ [a]).

(** [appointment.save()]: the stored document with this [_id] is replaced. *)
Fixpoint save (l : list t) (a : t) : list t :=
  match l with
  | [] => []
  | x :: rest => if _id x =? _id a then a :: rest else x :: save rest a
  end.

Definition set_cancelled (a : t) (reason : option string) : t :=
  {| _id := _id a; patientId := patientId a; doctorId := doctorId a;
     appointmentDate := appointmentDate a; timeSlot := timeSlot a;
     status := cancelled; symptoms := symptoms a; notes := notes a;
     prescription := prescription a;
     cancelReason := option_map trim reason |}.

Definition set_completed (a : t) (n p : option string) : t :=
  {| _id := _id a; patientId := patientId a; doctorId := doctorId a;
     appointmentDate := appointmentDate a; timeSlot := timeSlot a;
     status := completed; symptoms := symptoms a;
     notes := if truthy n then option_map trim n else notes a;
     prescription :=
       match p with
       | Some s => if truthy p then s else prescription a
       | None => prescription a
       end;
     cancelReason := cancelReason a |}.
End Appointment.

Module Feedback.
(** [feedbackSchema]; [timestamps] are left out. *)
Record t := {
  _id : ObjectId;
  appointmentId : ObjectId;
  patientId : ObjectId;
  doctorId : ObjectId;
  rating : Z;
  comment : option string
}.

Definition findById (l : list t) (id : ObjectId) : option t :=
  find (fun f => _id f =? id) l.

(** [Feedback.findOne({ appointmentId })] *)
Definition findOne (l : list t) (ap : ObjectId) : option t :=
  find (fun f => appointmentId f =? ap) l.

(** Schema validation run by [create] and [save]: [rating] within
    [min: 1, max: 5] and [comment] of at most 500 characters. *)
Definition valid (f : t) : bool :=
  ((1 <=? rating f) && (rating f <=? 5)
   && match comment f with
      | Some c => Nat.leb (jsLength c) 500
      | None => true
      end)%bool.

(** Inserting: the unique index on [appointmentId] rejects a second
    feedback for one appointment with error 11000 ([None]). *)
Definition insert (l : list t) (f : t) : option (list t) :=
  if existsb (fun g => appointmentId g =? appointmentId f) l
  then None
  else Some (l ++ [f]).

Fixpoint save (l : list t) (f : t) : list t :=
  match l with
  | [] => []
  | x :: rest => if _id x =? _id f then f :: rest else x :: save rest f
  end.

(** [Feedback.findByIdAndDelete(id)] *)
Fixpoint delete (l : list t) (id : ObjectId) : list t :=
  match l with
  | [] => []
  | x :: rest => if _id x =? id then rest else x :: delete rest id
  end.
End Feedback.

(** ** The store and the responses *)

Record Store := {
  users : list User.t;
  doctors : list Doctor.t;
  appointments : list Appointment.t;
  feedbacks : list Feedback.t;
  nextId : ObjectId   (* source of fresh [_id]s *)
}.

Definition with_appointments (st : Store) (l : list Appointment.t) : Store :=
  {| users := users st; doctors := doctors st; appointments := l;
     feedbacks := feedbacks st; nextId := nextId st |}.

Definition with_doctors (st : Store) (l : list Doctor.t) : Store :=
  {| users := users st; doctors := l; appointments := appointments st;
     feedbacks := feedbacks st; nextId := nextId st |}.

Definition with_feedbacks (st : Store) (l : list Feedback.t) : Store :=
  {| users := users st; doctors := doctors st;
     appointments := appointments st; feedbacks := l; nextId := nextId st |}.

Definition fresh (st : Store) : Store :=
  {| users := users st; doctors := doctors st;
     appointments := appointments st; feedbacks := feedbacks st;
     nextId := nextId st + 1 |}.

(** What a handler sends: [res.status(code).json(body)], an error
    [res.status(code).json({ message })], or the validator's
    [res.status(400).json({ errors })]. *)
Inductive Response (A : Type) : Type :=
| Json (code : Z) (body : A)
| Fail (code : Z) (message : string)
| ValidationErrors.

Arguments Json {A} code body.
Arguments Fail {A} code message.
Arguments ValidationErrors {A}.

(** The error taxonomy of the specification, read off a response. *)
Inductive DomainError :=
| NotFoundError
| ForbiddenError
| InvalidInputError
| InvalidStateTransitionError
| SlotAlreadyBookedError
| PastDateError
| DoctorUnavailableError
| DuplicateFeedbackError
| NotCompletedError
| TransientFailure.

Definition errorOf {A} (r : Response A) : option DomainError :=
  match r with
  | Json _ _ => None
  | ValidationErrors => Some InvalidInputError
  | Fail code m =>
      if code =? 404 then Some NotFoundError
      else if code =? 403 then Some ForbiddenError
      else if code =? 500 then Some TransientFailure
      else if String.eqb m "This time slot is already booked"
      then Some SlotAlreadyBookedError
      else if String.eqb m "Cannot book appointments in the past"
      then Some PastDateError
      else if String.eqb m "Doctor is not approved yet"
      then Some DoctorUnavailableError
      else if String.eqb m "Feedback already submitted for this appointment"
      then Some DuplicateFeedbackError
      else if String.eqb m "Can only rate completed appointments"
      then Some NotCompletedError
      else if (String.prefix "Cannot cancel " m
               || String.eqb m
                    "Only confirmed appointments can be completed")%bool
      then Some InvalidStateTransitionError
      else Some InvalidInputError
  end.

Definition succeeded {A} (r : Response A) : bool :=
  match r with
  | Json _ _ => true
  | _ => false
  end.

(** Modelled from the spec: [middleware/auth.js] is not among the sources.
    [protect] leaves the authenticated account in [req.user]; [authorize]
    lets the request through only for the listed role. *)
Definition authorize (r : Role.t) (user : User.t) : bool :=
  Role.eqb (User.role user) r.

(** ** The appointment router, [/api/appointments] *)

Module BookBody.
(** The validated body of [POST /api/appointments]: [appointmentDate] has
    passed [isISO8601] and is the instant [new Date(appointmentDate)]. *)
Record t := {
  doctorId : ObjectId;
  appointmentDate : Date;
  timeSlot : TimeSlot.t;
  symptoms : option string
}.
End BookBody.

(** [POST /api/appointments], with [now] the value of [new Date()] when the
    request is handled.  The confirmation e-mail is sent inside its own
    [try/catch] after the writes and touches no stored state. *)
Definition BookAppointment (now : Date) (user : User.t) (body : BookBody.t)
    (st : Store) : Response Appointment.t * Store :=
  let doctorId := BookBody.doctorId body in
  let timeSlot := BookBody.timeSlot body in
  if negb (authorize Role.patient user)
  then (Fail 403 "Not authorized to access this route", st)
  else if (String.eqb (TimeSlot.startTime timeSlot) ""
           || String.eqb (TimeSlot.endTime timeSlot) "")%bool
  then (ValidationErrors, st)
  else
    match Doctor.findOne (doctors st) doctorId with
    | None => (Fail 404 "Doctor not found", st)
    | Some doctor =>
      (* .populate('userId'): a dangling reference is null, and reading
         [doctor.userId.isApproved] then throws into the outer catch *)
      match User.findById (users st) (Doctor.userId doctor) with
      | None => (Fail 500 "Server error booking appointment", st)
      | Some account =>
        if negb (User.isApproved account)
        then (Fail 400 "Doctor is not approved yet", st)
        else
          let appointmentDateTime := BookBody.appointmentDate body in
          if appointmentDateTime <? now
          then (Fail 400 "Cannot book appointments in the past", st)
          else
            match Appointment.findActiveAt (appointments st) doctorId
                    appointmentDateTime (TimeSlot.startTime timeSlot) with
            | Some _ => (Fail 400 "This time slot is already booked", st)
            | None =>
              let appointment :=
                {| Appointment._id := nextId st;
                   Appointment.patientId := User._id user;
                   Appointment.doctorId := doctorId;
                   Appointment.appointmentDate := appointmentDateTime;
                   Appointment.timeSlot := timeSlot;
                   Appointment.status := confirmed;
                   Appointment.symptoms :=
                     option_map trim (BookBody.symptoms body);
                   Appointment.notes := None;
                   Appointment.prescription := "";
                   Appointment.cancelReason := None |} in
              match Appointment.insert (appointments st) appointment with
              | None =>
                  (* error.code === 11000 *)
                  (Fail 400 "This time slot is already booked", st)
              | Some l =>
                let st1 := fresh (with_appointments st l) in
                let doctor' :=
                  {| Doctor.userId := Doctor.userId doctor;
                     Doctor.availability := Doctor.availability doctor;
                     Doctor.rating := Doctor.rating doctor;
                     Doctor.totalRatings := Doctor.totalRatings doctor;
                     Doctor.totalAppointments :=
                       Doctor.totalAppointments doctor + 1 |} in
                (Json 201 appointment,
                 with_doctors st1 (Doctor.replace (doctors st1) doctor'))
              end
            end
      end
    end.

(** The authorization test of the cancel handler,
    [role !== 'admin' && patientId._id !== user._id
     && doctorId._id !== user._id],
    evaluated left to right on the populated references; a populated
    reference whose account is gone is null and reading its [_id] throws. *)
Inductive Access := Allowed | Denied | Thrown.

Definition cancelAccess (user : User.t) (a : Appointment.t) (st : Store)
  : Access :=
  if Role.eqb (User.role user) Role.admin then Allowed
  else
    match User.findById (users st) (Appointment.patientId a) with
    | None => Thrown
    | Some p =>
      if User._id p =? User._id user then Allowed
      else
        match User.findById (users st) (Appointment.doctorId a) with
        | None => Thrown
        | Some d => if User._id d =? User._id user then Allowed else Denied
        end
    end.

(** [PUT /api/appointments/:id/cancel] *)
Definition CancelAppointment (user : User.t) (id : ObjectId)
    (cancelReason : option string) (st : Store)
  : Response Appointment.t * Store :=
  match Appointment.findById (appointments st) id with
  | None => (Fail 404 "Appointment not found", st)
  | Some appointment =>
    match cancelAccess user appointment st with
    | Thrown => (Fail 500 "Server error cancelling appointment", st)
    | Denied => (Fail 403 "Not authorized to cancel this appointment", st)
    | Allowed =>
      match Appointment.status appointment with
      | cancelled | completed =>
          (Fail 400
             ("Cannot cancel "
              ++ Status_toString (Appointment.status appointment)
              ++ " appointment")%string, st)
      | _ =>
          let appointment' :=
            Appointment.set_cancelled appointment cancelReason in
          (Json 200 appointment',
           with_appointments st
             (Appointment.save (appointments st) appointment'))
      end
    end
  end.

(** [PUT /api/appointments/:id/complete] *)
Definition CompleteAppointment (user : User.t) (id : ObjectId)
    (notes prescription : option string) (st : Store)
  : Response Appointment.t * Store :=
  if negb (authorize Role.doctor user)
  then (Fail 403 "Not authorized to access this route", st)
  else
    match Appointment.findById (appointments st) id with
    | None => (Fail 404 "Appointment not found", st)
    | Some appointment =>
      if negb (Appointment.doctorId appointment =? User._id user)
      then (Fail 403 "Not authorized to complete this appointment", st)
      else if negb (Status_eqb (Appointment.status appointment) confirmed)
      then (Fail 400 "Only confirmed appointments can be completed", st)
      else
        let appointment' :=
          Appointment.set_completed appointment notes prescription in
        (Json 200 appointment',
         with_appointments st
           (Appointment.save (appointments st) appointment'))
    end.

(** The [date] query parameter: absent (or empty), not parseable by
    [new Date], or a valid instant. *)
Inductive DateParam := NoDate | InvalidDate | ValidDate (t : Date).

(** [toLocaleDateString('en-US', { weekday: 'long' })] of a valid date on a
    server whose zone is UTC; 1 January 1970 was a Thursday. *)
Definition dayName (t : Date) : Day :=
  match (t / msPerDay + 4) mod 7 with
  | 0 => Sunday
  | 1 => Monday
  | 2 => Tuesday
  | 3 => Wednesday
  | 4 => Thursday
  | 5 => Friday
  | _ => Saturday
  end.

(** The same on a server in the zone [zone]: the weekday of the local
    date. *)
Definition dayNameIn (zone : Zone.t) (t : Date) : Day :=
  dayName (Zone.toLocal zone t).

Module Slot.
Record t := {
  day : Day;
  startTime : string;
  endTime : string;
  isBooked : bool
}.
End Slot.

(** [GET /api/appointments/doctor/:doctorId/available-slots] on a server
    in the zone [zone].  [new Date(date)] is the instant the parameter
    denotes (UTC midnight for a date without a time), and
    [setDate(getDate() + 1)] is the same local time on the next local
    day. *)
Definition ResolveSlotsIn (zone : Zone.t) (doctorId : ObjectId)
    (date : DateParam) (st : Store)
  : Response (list Slot.t) * Store :=
  match date with
  | NoDate => (Fail 400 "Date is required", st)
  | _ =>
    match Doctor.findOne (doctors st) doctorId with
    | None => (Fail 404 "Doctor not found", st)
    | Some doctor =>
      let dayAvailability :=
        filter
          (fun slot =>
             (match date with
              | ValidDate t =>
                  Day_eqb (TimeSlotEntry.day slot) (dayNameIn zone t)
              | _ => false   (* "Invalid Date" names no weekday *)
              end && TimeSlotEntry.isAvailable slot)%bool)
          (Doctor.availability doctor) in
      match dayAvailability, date with
      | [], _ => (Json 200 [], st)
      | _, ValidDate startDate =>
        let endDate :=
          Zone.fromLocal zone (Zone.toLocal zone startDate + msPerDay) in
        let bookedAppointments :=
          filter
            (fun apt =>
               ((Appointment.doctorId apt =? doctorId)
                && (startDate <=? Appointment.appointmentDate apt)
                && (Appointment.appointmentDate apt <? endDate)
                && Appointment.active apt)%bool)
            (appointments st) in
        let bookedSlots :=
          map (fun apt => TimeSlot.startTime (Appointment.timeSlot apt))
            bookedAppointments in
        let availableSlots :=
          map
            (fun slot =>
               {| Slot.day := TimeSlotEntry.day slot;
                  Slot.startTime := TimeSlotEntry.startTime slot;
                  Slot.endTime := TimeSlotEntry.endTime slot;
                  Slot.isBooked :=
                    existsb (String.eqb (TimeSlotEntry.startTime slot))
                      bookedSlots |})
            dayAvailability in
        (Json 200 availableSlots, st)
      | _, _ => (Json 200 [], st)
      end
    end
  end.

(** The same on a server whose zone is UTC. *)
Definition ResolveSlots (doctorId : ObjectId) (date : DateParam) (st : Store)
  : Response (list Slot.t) * Store :=
  ResolveSlotsIn Zone.utc doctorId date st.

(** ** JavaScript numbers *)

(** An integer as a JavaScript number (exact below 2^53). *)
Definition Z2F (z : Z) : float :=
  if z <? 0 then PrimFloat.opp (PrimFloat.of_uint63 (Uint63.of_Z (- z)))
  else PrimFloat.of_uint63 (Uint63.of_Z z).

(** [Math.round]: the integer closest to [x], a tie going towards
    +infinity; computed exactly on the mantissa and exponent of [x]. *)
Definition Math_round (x : float) : float :=
  match Prim2SF x with
  | S754_finite s m e =>
      if 0 <=? e then x
      else
        let k := - e in
        let num := if s then Z.neg m else Z.pos m in
        let n := (2 * num + 2 ^ k) / 2 ^ (k + 1) in
        if n =? 0 then (if s then PrimFloat.opp 0 else 0%float) else Z2F n
  | _ => x
  end.

(** [Math.round(x * 10) / 10] *)
Definition roundTenth (x : float) : float :=
  (Math_round (x * 10) / 10)%float.

(** ** The feedback router, [routes/feedback.js] *)

Definition set_rating (d : Doctor.t) (r : float) (n : Z) : Doctor.t :=
  {| Doctor.userId := Doctor.userId d;
     Doctor.availability := Doctor.availability d;
     Doctor.rating := r;
     Doctor.totalRatings := n;
     Doctor.totalAppointments := Doctor.totalAppointments d |}.

(** [doctor.save()] after [doctor.rating] was assigned: the validators of
    the path run first and a rejected value throws ([None]). *)
Definition saveRating (st : Store) (d : Doctor.t) : option Store :=
  if Doctor.validRating (Doctor.rating d)
  then Some (with_doctors st (Doctor.replace (doctors st) d))
  else None.

(** The block "Update doctor's rating" of [POST /api/feedback]. *)
Definition AddRating (doctor : Doctor.t) (rating : Z) : Doctor.t :=
  let totalRatings := Doctor.totalRatings doctor + 1 in
  let newRating :=
    ((Doctor.rating doctor * Z2F (Doctor.totalRatings doctor) + Z2F rating)
     / Z2F totalRatings)%float in
  set_rating doctor (roundTenth newRating) totalRatings.

(** The block "Update doctor's rating if rating changed" of
    [PUT /api/feedback/:id], entered when [doctor.totalRatings > 0]. *)
Definition UpdateRating (doctor : Doctor.t) (oldRating rating : Z)
  : Doctor.t :=
  let totalRatings := Doctor.totalRatings doctor in
  let currentTotal := (Doctor.rating doctor * Z2F totalRatings)%float in
  let newTotal := (currentTotal - Z2F oldRating + Z2F rating)%float in
  let newRating := (newTotal / Z2F totalRatings)%float in
  set_rating doctor (roundTenth newRating) totalRatings.

(** The block "Update doctor's rating" of [DELETE /api/feedback/:id]:
    [None] when neither branch is taken and nothing is saved. *)
Definition RemoveRating (doctor : Doctor.t) (rating : Z) : option Doctor.t :=
  if 1 <? Doctor.totalRatings doctor then
    let totalRatings := Doctor.totalRatings doctor - 1 in
    let currentTotal :=
      (Doctor.rating doctor * Z2F (Doctor.totalRatings doctor))%float in
    let newTotal := (currentTotal - Z2F rating)%float in
    let newRating := (newTotal / Z2F totalRatings)%float in
    Some (set_rating doctor (roundTenth newRating) totalRatings)
  else if Doctor.totalRatings doctor =? 1 then
    Some (set_rating doctor 0%float 0)
  else None.

Module FeedbackBody.
Record t := {
  appointmentId : ObjectId;
  rating : Z;
  comment : option string
}.
End FeedbackBody.

(** [body('rating').isInt({ min: 1, max: 5 })] *)
Definition ratingInRange (r : Z) : bool := ((1 <=? r) && (r <=? 5))%bool.

(** [POST /api/feedback] *)
Definition SubmitFeedback (user : User.t) (body : FeedbackBody.t)
    (st : Store) : Response Feedback.t * Store :=
  let appointmentId := FeedbackBody.appointmentId body in
  let rating := FeedbackBody.rating body in
  if negb (authorize Role.patient user)
  then (Fail 403 "Not authorized to access this route", st)
  else if negb (ratingInRange rating) then (ValidationErrors, st)
  else
    match Appointment.findById (appointments st) appointmentId with
    | None => (Fail 404 "Appointment not found", st)
    | Some appointment =>
      if negb (Appointment.patientId appointment =? User._id user)
      then (Fail 403 "Not authorized to rate this appointment", st)
      else if negb (Status_eqb (Appointment.status appointment) completed)
      then (Fail 400 "Can only rate completed appointments", st)
      else
        match Feedback.findOne (feedbacks st) appointmentId with
        | Some _ =>
            (Fail 400 "Feedback already submitted for this appointment", st)
        | None =>
          let feedback :=
            {| Feedback._id := nextId st;
               Feedback.appointmentId := appointmentId;
               Feedback.patientId := User._id user;
               Feedback.doctorId := Appointment.doctorId appointment;
               Feedback.rating := rating;
               Feedback.comment :=
                 option_map trim (FeedbackBody.comment body) |} in
          if negb (Feedback.valid feedback)
          then (Fail 500 "Server error submitting feedback", st)
          else
            match Feedback.insert (feedbacks st) feedback with
            | None =>
                (Fail 400 "Feedback already submitted for this appointment",
                 st)
            | Some l =>
              let st1 := fresh (with_feedbacks st l) in
              match Doctor.findOne (doctors st1)
                      (Appointment.doctorId appointment) with
              | None => (Json 201 feedback, st1)
              | Some doctor =>
                match saveRating st1 (AddRating doctor rating) with
                | None => (Fail 500 "Server error submitting feedback", st1)
                | Some st2 => (Json 201 feedback, st2)
                end
              end
            end
        end
    end.

(** [PUT /api/feedback/:id]; an absent [rating] or [comment] is [None]. *)
Definition UpdateFeedback (user : User.t) (id : ObjectId)
    (rating : option Z) (comment : option string) (st : Store)
  : Response Feedback.t * Store :=
  if negb (authorize Role.patient user)
  then (Fail 403 "Not authorized to access this route", st)
  else if negb (match rating with Some r => ratingInRange r | None => true end)
  then (ValidationErrors, st)
  else
    match Feedback.findById (feedbacks st) id with
    | None => (Fail 404 "Feedback not found", st)
    | Some feedback =>
      if negb (Feedback.patientId feedback =? User._id user)
      then (Fail 403 "Not authorized to update this feedback", st)
      else
        let oldRating := Feedback.rating feedback in
        let feedback' :=
          {| Feedback._id := Feedback._id feedback;
             Feedback.appointmentId := Feedback.appointmentId feedback;
             Feedback.patientId := Feedback.patientId feedback;
             Feedback.doctorId := Feedback.doctorId feedback;
             Feedback.rating :=
               match rating with Some r => r | None => oldRating end;
             Feedback.comment :=
               match comment with
               | Some c => Some (trim c)
               | None => Feedback.comment feedback
               end |} in
        (* feedback.save() validates the modified paths: [rating] has
           passed the request validator, [comment] may be too long *)
        if negb (match comment with
                 | Some c => Nat.leb (jsLength (trim c)) 500
                 | None => true
                 end)
        then (Fail 500 "Server error updating feedback", st)
        else
          let st1 :=
            with_feedbacks st (Feedback.save (feedbacks st) feedback') in
          match rating with
          | None => (Json 200 feedback', st1)
          | Some r =>
            if r =? oldRating then (Json 200 feedback', st1)
            else
              match Doctor.findOne (doctors st1)
                      (Feedback.doctorId feedback') with
              | None => (Json 200 feedback', st1)
              | Some doctor =>
                if 0 <? Doctor.totalRatings doctor then
                  match saveRating st1 (UpdateRating doctor oldRating r) with
                  | None => (Fail 500 "Server error updating feedback", st1)
                  | Some st2 => (Json 200 feedback', st2)
                  end
                else (Json 200 feedback', st1)
              end
          end
    end.

(** [DELETE /api/feedback/:id] *)
Definition DeleteFeedback (user : User.t) (id : ObjectId) (st : Store)
  : Response string * Store :=
  if negb (authorize Role.patient user)
  then (Fail 403 "Not authorized to access this route", st)
  else
    match Feedback.findById (feedbacks st) id with
    | None => (Fail 404 "Feedback not found", st)
    | Some feedback =>
      if negb (Feedback.patientId feedback =? User._id user)
      then (Fail 403 "Not authorized to delete this feedback", st)
      else
        let removed (s : Store) :=
          (Json 200 "Feedback deleted successfully",
           with_feedbacks s (Feedback.delete (feedbacks s) id)) in
        match Doctor.findOne (doctors st) (Feedback.doctorId feedback) with
        | None => removed st
        | Some doctor =>
          match RemoveRating doctor (Feedback.rating feedback) with
          | None => removed st
          | Some doctor' =>
            match saveRating st doctor' with
            | None => (Fail 500 "Server error deleting feedback", st)
            | Some st1 => removed st1
            end
          end
        end
    end.

(** ** Runs of the system *)

Inductive Request :=
| Book (now : Date) (user : User.t) (body : BookBody.t)
| Cancel (user : User.t) (id : ObjectId) (cancelReason : option string)
| Complete (user : User.t) (id : ObjectId) (notes prescription : option string)
| Resolve (doctorId : ObjectId) (date : DateParam)
| Submit (user : User.t) (body : FeedbackBody.t)
| Update (user : User.t) (id : ObjectId) (rating : option Z)
    (comment : option string)
| Delete (user : User.t) (id : ObjectId).

Definition step (st : Store) (r : Request) : Store :=
  match r with
  | Book now user body => snd (BookAppointment now user body st)
  | Cancel user id reason => snd (CancelAppointment user id reason st)
  | Complete user id n p => snd (CompleteAppointment user id n p st)
  | Resolve d date => snd (ResolveSlots d date st)
  | Submit user body => snd (SubmitFeedback user body st)
  | Update user id r c => snd (UpdateFeedback user id r c st)
  | Delete user id => snd (DeleteFeedback user id st)
  end.

Definition run (st : Store) (rs : list Request) : Store :=
  fold_left step rs st.

(** The stores a run passes through, one per request. *)
Fixpoint history (st : Store) (rs : list Request) : list Store :=
  match rs with
  | [] => []
  | r :: rest => step st r :: history (step st r) rest
  end.

(** A store before any booking or feedback: the two collections are empty
    and every doctor profile carries the schema defaults of its aggregate. *)
Definition initial (st : Store) : Prop :=
  appointments st = [] /\ feedbacks st = [] /\
  Forall (fun d => Doctor.rating d = 0%float /\ Doctor.totalRatings d = 0)
    (doctors st).

Inductive Reachable : Store -> Prop :=
| Reachable_initial st : initial st -> Reachable st
| Reachable_step st r : Reachable st -> Reachable (step st r).

(** ** Vocabulary of the properties *)

(** The specification's "date combined with timeSlot.startTime": the
    milliseconds after midnight that a start time "HH:MM" denotes. *)
Definition digit (c : ascii) : option Z :=
  let n := Z.of_nat (nat_of_ascii c) in
  if ((48 <=? n) && (n <=? 57))%bool then Some (n - 48) else None.

Definition specStartOffset (s : string) : option Z :=
  match s with
  | String h1 (String h2 (String ":" (String m1 (String m2 EmptyString)))) =>
      match digit h1, digit h2, digit m1, digit m2 with
      | Some a, Some b, Some c, Some d =>
          Some (((10 * a + b) * 60 + (10 * c + d)) * 60000)
      | _, _, _, _ => None
      end
  | _ => None
  end.

Module Calendar.

(** The specification's [dayOfWeek(date)], stated without the arithmetic of
    the handler: calendar dates are counted in days from 1 January 1970,
    which was a Thursday, and the weekday moves on by one with every day. *)
Definition tomorrow (d : Day) : Day :=
  match d with
  | Monday => Tuesday
  | Tuesday => Wednesday
  | Wednesday => Thursday
  | Thursday => Friday
  | Friday => Saturday
  | Saturday => Sunday
  | Sunday => Monday
  end.

Definition yesterday (d : Day) : Day :=
  match d with
  | Monday => Sunday
  | Tuesday => Monday
  | Wednesday => Tuesday
  | Thursday => Wednesday
  | Friday => Thursday
  | Saturday => Friday
  | Sunday => Saturday
  end.

Definition dayOfWeek (day : Z) : Day :=
  if 0 <=? day then Nat.iter (Z.to_nat day) tomorrow Thursday
  else Nat.iter (Z.to_nat (- day)) yesterday Thursday.

(** The calendar date of an instant, as its day number, in a zone that is
    [zone] milliseconds ahead of UTC. *)
Definition dayOf (zone : Z) (t : Date) : Z := (t + zone) / msPerDay.

(** A weekly entry is offered on a calendar date when its weekday is the
    date's and it is enabled. *)
Definition offered (day : Z) (e : TimeSlotEntry.t) : bool :=
  (Day_eqb (TimeSlotEntry.day e) (dayOfWeek day)
   && TimeSlotEntry.isAvailable e)%bool.

End Calendar.

Module Ledger.

Definition key (a : Appointment.t) : ObjectId * Date * string :=
  (Appointment.doctorId a, Appointment.appointmentDate a,
   TimeSlot.startTime (Appointment.timeSlot a)).

(** The appointments that occupy a slot: active ones at the key. *)
Definition occupying (d : ObjectId) (date : Date) (start : string)
    (l : list Appointment.t) : list Appointment.t :=
  filter (fun a => (Appointment.atKey d date start a
                    && Appointment.active a)%bool) l.

(** The active appointments of doctor [d] that start at [start] on the
    calendar date with day number [day] (in UTC): the specification's key,
    whose date has no time component. *)
Definition occupyingDay (d : ObjectId) (day : Z) (start : string)
    (l : list Appointment.t) : list Appointment.t :=
  filter
    (fun a =>
       ((Appointment.doctorId a =? d)
        && (Calendar.dayOf 0 (Appointment.appointmentDate a) =? day)
        && String.eqb (TimeSlot.startTime (Appointment.timeSlot a)) start
        && Appointment.active a)%bool) l.

End Ledger.

Module Resolver.

(** A weekly entry is a candidate for a date when its weekday is the
    date's and it is enabled. *)
Definition candidate (date : Date) (e : TimeSlotEntry.t) : bool :=
  (Day_eqb (TimeSlotEntry.day e) (dayName date)
   && TimeSlotEntry.isAvailable e)%bool.

(** The weekly entry a returned slot was made from. *)
Definition entry (s : Slot.t) : TimeSlotEntry.t :=
  {| TimeSlotEntry.day := Slot.day s;
     TimeSlotEntry.startTime := Slot.startTime s;
     TimeSlotEntry.endTime := Slot.endTime s;
     TimeSlotEntry.isAvailable := true |}.

(** An active appointment of doctor [d] that starts at [start] and whose
    date satisfies [onDay]. *)
Definition booked (st : Store) (d : ObjectId) (onDay : Date -> Prop)
    (start : string) : Prop :=
  exists a,
    In a (appointments st) /\
    Appointment.doctorId a = d /\
    onDay (Appointment.appointmentDate a) /\
    Appointment.active a = true /\
    TimeSlot.startTime (Appointment.timeSlot a) = start.

(** The start times of the active appointments of doctor [d] dated from
    [from] up to, and not including, [until]. *)
Definition bookedBetween (st : Store) (d : ObjectId) (from until : Date)
  : list string :=
  map (fun apt => TimeSlot.startTime (Appointment.timeSlot apt))
    (filter
       (fun apt =>
          ((Appointment.doctorId apt =? d)
           && (from <=? Appointment.appointmentDate apt)
           && (Appointment.appointmentDate apt <? until)
           && Appointment.active apt)%bool)
       (appointments st)).

Definition bookedSlots (st : Store) (d : ObjectId) (date : Date)
  : list string :=
  map (fun apt => TimeSlot.startTime (Appointment.timeSlot apt))
    (filter
       (fun apt =>
          ((Appointment.doctorId apt =? d)
           && (date <=? Appointment.appointmentDate apt)
           && (Appointment.appointmentDate apt <? date + msPerDay)
           && Appointment.active apt)%bool)
       (appointments st)).

Definition mark (taken : list string) (slot : TimeSlotEntry.t) : Slot.t :=
  {| Slot.day := TimeSlotEntry.day slot;
     Slot.startTime := TimeSlotEntry.startTime slot;
     Slot.endTime := TimeSlotEntry.endTime slot;
     Slot.isBooked :=
       existsb (String.eqb (TimeSlotEntry.startTime slot)) taken |}.

End Resolver.

Module Aggregate.

(** What holds of every stored aggregate. *)
Definition ok (d : Doctor.t) : Prop :=
  Doctor.validRating (Doctor.rating d) = true /\
  0 <= Doctor.totalRatings d /\
  (Doctor.totalRatings d = 0 -> Doctor.rating d = 0%float).

End Aggregate.

(** The stored feedback and the store after an accepted submission. *)
Definition submitted (st : Store) (user : User.t) (body : FeedbackBody.t)
    (appointment : Appointment.t) : Feedback.t :=
  {| Feedback._id := nextId st;
     Feedback.appointmentId := FeedbackBody.appointmentId body;
     Feedback.patientId := User._id user;
     Feedback.doctorId := Appointment.doctorId appointment;
     Feedback.rating := FeedbackBody.rating body;
     Feedback.comment := option_map trim (FeedbackBody.comment body) |}.

(** ** A small clinic, used to run the handlers on concrete requests *)

Module Clinic.

Definition account (id : ObjectId) (n : string) (r : Role.t)
    (approved active : bool) : User.t :=
  {| User._id := id; User.name := n; User.email := (n ++ "@dcot.test")%string;
     User.role := r; User.isApproved := approved; User.isActive := active |}.

Definition alice := account 1 "alice" Role.patient true true.
Definition drWho := account 2 "who" Role.doctor true true.
Definition bob := account 3 "bob" Role.patient true true.
(** registered, waiting for approval *)
Definition drNew := account 4 "new" Role.doctor false true.
(** approved, then deactivated by an administrator *)
Definition drGone := account 5 "gone" Role.doctor true false.
Definition root := account 6 "root" Role.admin true true.
(** another doctor, approved and active *)
Definition drElse := account 7 "else" Role.doctor true true.

Definition profile (u : User.t) (slots : list TimeSlotEntry.t) : Doctor.t :=
  {| Doctor.userId := User._id u; Doctor.availability := slots;
     Doctor.rating := 0; Doctor.totalRatings := 0;
     Doctor.totalAppointments := 0 |}.

Definition weekly (d : Day) (s e : string) (on : bool) : TimeSlotEntry.t :=
  {| TimeSlotEntry.day := d; TimeSlotEntry.startTime := s;
     TimeSlotEntry.endTime := e; TimeSlotEntry.isAvailable := on |}.

Definition whoSlots : list TimeSlotEntry.t :=
  [weekly Monday "10:00" "10:30" true;
   weekly Tuesday "09:00" "09:30" true;
   weekly Monday "09:00" "09:30" true;
   weekly Monday "11:00" "11:30" false].

Definition store : Store :=
  {| users := [alice; drWho; bob; drNew; drGone; root; drElse];
     doctors :=
       [profile drWho whoSlots;
        profile drNew [weekly Monday "09:00" "09:30" true];
        profile drGone [weekly Monday "09:00" "09:30" true]];
     appointments := [];
     feedbacks := [];
     nextId := 100 |}.

(** Monday 6 January 2025, 00:00 UTC, and the day before at noon. *)
Definition monday : Date := 20094 * msPerDay.
Definition sundayNoon : Date := 20093 * msPerDay + 43200000.

Definition request (d : User.t) (date : Date) (s e : string) : BookBody.t :=
  {| BookBody.doctorId := User._id d; BookBody.appointmentDate := date;
     BookBody.timeSlot := {| TimeSlot.startTime := s; TimeSlot.endTime := e |};
     BookBody.symptoms := Some " cough " |}.

Definition rate (ap : ObjectId) (r : Z) : FeedbackBody.t :=
  {| FeedbackBody.appointmentId := ap; FeedbackBody.rating := r;
     FeedbackBody.comment := None |}.

(** Four visits of alice to drWho on the Monday, all completed; the
    appointments get the identifiers 100 to 103. *)
Definition visits : list Request :=
  [Book sundayNoon alice (request drWho monday "09:00" "09:30");
   Book sundayNoon alice (request drWho monday "10:00" "10:30");
   Book sundayNoon alice (request drWho monday "11:00" "11:30");
   Book sundayNoon alice (request drWho monday "12:00" "12:30");
   Complete drWho 100 None (Some "rest");
   Complete drWho 101 None None;
   Complete drWho 102 (Some "better") None;
   Complete drWho 103 None None].

(** The aggregate (mean, count) of drWho. *)
Definition aggregate (st : Store) : option (float * Z) :=
  option_map (fun d => (Doctor.rating d, Doctor.totalRatings d))
    (Doctor.findOne (doctors st) (User._id drWho)).

End Clinic.

(** * The rest of the back end and its callers *)

(** ** Helpers of the read routes *)

(** Mongo's [.sort(...)]: the documents in the order of the sort key.  The
    order among documents with equal keys is not fixed by the query; here
    they keep their stored order. *)
Fixpoint insertSorted {A} (leb : A -> A -> bool) (x : A) (l : list A)
  : list A :=
  match l with
  | [] => [x]
  | y :: rest => if leb x y then x :: l else y :: insertSorted leb x rest
  end.

Fixpoint sortDocs {A} (leb : A -> A -> bool) (l : list A) : list A :=
  match l with
  | [] => []
  | x :: rest => insertSorted leb x (sortDocs leb rest)
  end.

(** [if (status) query.status = status]: an absent or empty parameter does
    not restrict the query, any other string must be the stored status. *)
Definition statusMatches (status : option string) (a : Appointment.t)
  : bool :=
  match status with
  | Some s =>
      if truthy status
      then String.eqb (Status_toString (Appointment.status a)) s
      else true
  | None => true
  end.

(** [appointments.map(async (appointment) => ...)] under [Promise.all]:
    every appointment gets the profile of its doctor; reading
    [appointment.doctorId._id] of a populated reference whose account is
    gone throws and rejects the whole list ([None]). *)
Fixpoint withDoctorDetails (st : Store) (l : list Appointment.t)
  : option (list (Appointment.t * option Doctor.t)) :=
  match l with
  | [] => Some []
  | a :: rest =>
      match User.findById (users st) (Appointment.doctorId a) with
      | None => None
      | Some _ =>
          match withDoctorDetails st rest with
          | None => None
          | Some rest' =>
              Some ((a, Doctor.findOne (doctors st) (Appointment.doctorId a))
                    :: rest')
          end
      end
  end.

(** ** The appointment router: the two read routes *)

(** The query built from [req.user.role]. *)
Definition myQuery (user : User.t) (status : option string)
    (a : Appointment.t) : bool :=
  (match User.role user with
   | Role.patient => Appointment.patientId a =? User._id user
   | Role.doctor => Appointment.doctorId a =? User._id user
   | Role.admin => true
   end && statusMatches status a)%bool.

(** [.sort({ appointmentDate: -1 })] *)
Definition dateDescending (a b : Appointment.t) : bool :=
  Appointment.appointmentDate b <=? Appointment.appointmentDate a.

(** [GET /api/appointments/my] *)
Definition GetMyAppointments (user : User.t) (status : option string)
    (st : Store)
  : Response (list (Appointment.t * option Doctor.t)) * Store :=
  let found :=
    sortDocs dateDescending
      (filter (myQuery user status) (appointments st)) in
  match withDoctorDetails st found with
  | None => (Fail 500 "Server error fetching appointments", st)
  | Some l => (Json 200 l, st)
  end.

(** [GET /api/appointments/:id]; its authorization test is the expression
    of the cancel handler. *)
Definition GetAppointment (user : User.t) (id : ObjectId) (st : Store)
  : Response (Appointment.t * option Doctor.t) * Store :=
  match Appointment.findById (appointments st) id with
  | None => (Fail 404 "Appointment not found", st)
  | Some appointment =>
    match cancelAccess user appointment st with
    | Thrown => (Fail 500 "Server error fetching appointment", st)
    | Denied => (Fail 403 "Not authorized to view this appointment", st)
    | Allowed =>
      match User.findById (users st) (Appointment.doctorId appointment) with
      | None => (Fail 500 "Server error fetching appointment", st)
      | Some _ =>
          (Json 200
             (appointment,
              Doctor.findOne (doctors st) (Appointment.doctorId appointment)),
           st)
      end
    end
  end.

(** ** The doctor router: availability and the doctor's appointments *)

Module RawSlot.
(** An element of the [availability] array of a request body; a missing
    string field is the empty string, a missing flag is [None]. *)
Record t := {
  day : string;
  startTime : string;
  endTime : string;
  isAvailable : option bool
}.
End RawSlot.

(** The [enum] of [timeSlotSchema.day]. *)
Definition Day_ofString (s : string) : option Day :=
  if String.eqb s "Monday" then Some Monday
  else if String.eqb s "Tuesday" then Some Tuesday
  else if String.eqb s "Wednesday" then Some Wednesday
  else if String.eqb s "Thursday" then Some Thursday
  else if String.eqb s "Friday" then Some Friday
  else if String.eqb s "Saturday" then Some Saturday
  else if String.eqb s "Sunday" then Some Sunday
  else None.

Definition Day_toString (d : Day) : string :=
  match d with
  | Monday => "Monday"
  | Tuesday => "Tuesday"
  | Wednesday => "Wednesday"
  | Thursday => "Thursday"
  | Friday => "Friday"
  | Saturday => "Saturday"
  | Sunday => "Sunday"
  end.

(** Casting and validating one element against [timeSlotSchema]: [day]
    must be in the enum, [startTime] and [endTime] are required, and
    [isAvailable] defaults to true. *)
Definition castSlot (r : RawSlot.t) : option TimeSlotEntry.t :=
  match Day_ofString (RawSlot.day r) with
  | None => None
  | Some d =>
      if (String.eqb (RawSlot.startTime r) ""
          || String.eqb (RawSlot.endTime r) "")%bool
      then None
      else
        Some {| TimeSlotEntry.day := d;
                TimeSlotEntry.startTime := RawSlot.startTime r;
                TimeSlotEntry.endTime := RawSlot.endTime r;
                TimeSlotEntry.isAvailable :=
                  match RawSlot.isAvailable r with
                  | Some b => b
                  | None => true
                  end |}
  end.

(** [doctor.save()] validates every element; one invalid element rejects
    the document. *)
Fixpoint castSlots (l : list RawSlot.t) : option (list TimeSlotEntry.t) :=
  match l with
  | [] => Some []
  | r :: rest =>
      match castSlot r, castSlots rest with
      | Some e, Some es => Some (e :: es)
      | _, _ => None
      end
  end.

Definition set_availability (d : Doctor.t) (l : list TimeSlotEntry.t)
  : Doctor.t :=
  {| Doctor.userId := Doctor.userId d;
     Doctor.availability := l;
     Doctor.rating := Doctor.rating d;
     Doctor.totalRatings := Doctor.totalRatings d;
     Doctor.totalAppointments := Doctor.totalAppointments d |}.

(** [.sort({ appointmentDate: 1, 'timeSlot.startTime': 1 })]; strings are
    compared byte by byte. *)
Definition dateThenStart (a b : Appointment.t) : bool :=
  if Appointment.appointmentDate a =? Appointment.appointmentDate b
  then String.leb (TimeSlot.startTime (Appointment.timeSlot a))
         (TimeSlot.startTime (Appointment.timeSlot b))
  else Appointment.appointmentDate a <? Appointment.appointmentDate b.

Section DoctorRouter.

(** The middleware [checkDoctorApproval] of [middleware/auth.js] is not
    among the sources: it either lets the request through ([None]) or
    answers with a status code and a message. *)
Variable checkDoctorApproval : Store -> User.t -> option (Z * string).

(** [PUT /api/doctors/availability]; [availability] is [None] when the body
    holds no array. *)
Definition UpdateAvailability (user : User.t)
    (availability : option (list RawSlot.t)) (st : Store)
  : Response Doctor.t * Store :=
  if negb (authorize Role.doctor user)
  then (Fail 403 "Not authorized to access this route", st)
  else
    match checkDoctorApproval st user with
    | Some (code, message) => (Fail code message, st)
    | None =>
      match availability with
      | None => (Fail 400 "Availability must be an array", st)
      | Some raw =>
        match Doctor.findOne (doctors st) (User._id user) with
        | None => (Fail 404 "Doctor profile not found", st)
        | Some doctor =>
          match castSlots raw with
          | None => (Fail 500 "Server error updating availability", st)
          | Some slots =>
              let doctor' := set_availability doctor slots in
              (Json 200 doctor',
               with_doctors st (Doctor.replace (doctors st) doctor'))
          end
        end
      end
    end.

(** [GET /api/doctors/my/appointments]; an unparseable [date] fails the
    cast of the query and ends in the catch. *)
Definition GetDoctorAppointments (user : User.t) (status : option string)
    (date : DateParam) (st : Store)
  : Response (list Appointment.t) * Store :=
  if negb (authorize Role.doctor user)
  then (Fail 403 "Not authorized to access this route", st)
  else
    match checkDoctorApproval st user with
    | Some (code, message) => (Fail code message, st)
    | None =>
      match date with
      | InvalidDate => (Fail 500 "Server error fetching appointments", st)
      | _ =>
        let query (a : Appointment.t) :=
          ((Appointment.doctorId a =? User._id user)
           && statusMatches status a
           && match date with
              | ValidDate startDate =>
                  (startDate <=? Appointment.appointmentDate a)
                  && (Appointment.appointmentDate a <? startDate + msPerDay)
              | _ => true
              end)%bool in
        (Json 200 (sortDocs dateThenStart (filter query (appointments st))),
         st)
      end
    end.

End DoctorRouter.

(** ** The admin router *)

(** [user.save()]: the stored account with this [_id] is replaced. *)
Fixpoint saveUser (l : list User.t) (u : User.t) : list User.t :=
  match l with
  | [] => []
  | x :: rest =>
      if User._id x =? User._id u then u :: rest else x :: saveUser rest u
  end.

(** [User.findByIdAndDelete(id)] *)
Fixpoint deleteUser (l : list User.t) (id : ObjectId) : list User.t :=
  match l with
  | [] => []
  | x :: rest => if User._id x =? id then rest else x :: deleteUser rest id
  end.

(** [Doctor.findOneAndDelete({ userId })] *)
Fixpoint deleteDoctor (l : list Doctor.t) (uid : ObjectId) : list Doctor.t :=
  match l with
  | [] => []
  | x :: rest =>
      if Doctor.userId x =? uid then rest else x :: deleteDoctor rest uid
  end.

Definition with_users (st : Store) (l : list User.t) : Store :=
  {| users := l; doctors := doctors st; appointments := appointments st;
     feedbacks := feedbacks st; nextId := nextId st |}.

Definition set_approved (u : User.t) (b : bool) : User.t :=
  {| User._id := User._id u; User.name := User.name u;
     User.email := User.email u; User.role := User.role u;
     User.isApproved := b; User.isActive := User.isActive u |}.

Definition set_active (u : User.t) (b : bool) : User.t :=
  {| User._id := User._id u; User.name := User.name u;
     User.email := User.email u; User.role := User.role u;
     User.isApproved := User.isApproved u; User.isActive := b |}.

(** [PUT /api/admin/doctors/:userId/approve]; the approval e-mail is sent in
    its own [try/catch] and touches no stored state. *)
Definition ApproveDoctor (admin : User.t) (userId : ObjectId) (st : Store)
  : Response User.t * Store :=
  if negb (authorize Role.admin admin)
  then (Fail 403 "Not authorized to access this route", st)
  else
    match User.findById (users st) userId with
    | None => (Fail 404 "User not found", st)
    | Some user =>
      if negb (Role.eqb (User.role user) Role.doctor)
      then (Fail 400 "User is not a doctor", st)
      else if User.isApproved user
      then (Fail 400 "Doctor is already approved", st)
      else
        let user' := set_approved user true in
        (Json 200 user', with_users st (saveUser (users st) user'))
    end.

(** [PUT /api/admin/users/:userId/deactivate] *)
Definition DeactivateUser (admin : User.t) (userId : ObjectId) (st : Store)
  : Response User.t * Store :=
  if negb (authorize Role.admin admin)
  then (Fail 403 "Not authorized to access this route", st)
  else
    match User.findById (users st) userId with
    | None => (Fail 404 "User not found", st)
    | Some user =>
      if Role.eqb (User.role user) Role.admin
      then (Fail 400 "Cannot deactivate admin users", st)
      else
        let user' := set_active user false in
        (Json 200 user', with_users st (saveUser (users st) user'))
    end.

(** [PUT /api/admin/users/:userId/activate] *)
Definition ActivateUser (admin : User.t) (userId : ObjectId) (st : Store)
  : Response User.t * Store :=
  if negb (authorize Role.admin admin)
  then (Fail 403 "Not authorized to access this route", st)
  else
    match User.findById (users st) userId with
    | None => (Fail 404 "User not found", st)
    | Some user =>
        let user' := set_active user true in
        (Json 200 user', with_users st (saveUser (users st) user'))
    end.

(** [DELETE /api/admin/users/:userId]: the doctor profile and the
    appointments of the account go with it. *)
Definition DeleteUser (admin : User.t) (userId : ObjectId) (st : Store)
  : Response string * Store :=
  if negb (authorize Role.admin admin)
  then (Fail 403 "Not authorized to access this route", st)
  else
    match User.findById (users st) userId with
    | None => (Fail 404 "User not found", st)
    | Some user =>
      match User.role user with
      | Role.admin => (Fail 400 "Cannot delete admin users", st)
      | Role.doctor =>
          (Json 200 "User deleted successfully",
           {| users := deleteUser (users st) userId;
              doctors := deleteDoctor (doctors st) (User._id user);
              appointments :=
                filter
                  (fun a => negb (Appointment.doctorId a =? User._id user))
                  (appointments st);
              feedbacks := feedbacks st;
              nextId := nextId st |})
      | Role.patient =>
          (Json 200 "User deleted successfully",
           {| users := deleteUser (users st) userId;
              doctors := doctors st;
              appointments :=
                filter
                  (fun a => negb (Appointment.patientId a =? User._id user))
                  (appointments st);
              feedbacks := feedbacks st;
              nextId := nextId st |})
      end
    end.

Module Stats.
Record t := {
  totalPatients : nat;
  totalDoctors : nat;
  pendingDoctors : nat;
  totalAppointments : nat;
  pendingAppointments : nat;
  confirmedAppointments : nat;
  completedAppointments : nat;
  cancelledAppointments : nat
}.
End Stats.

(** [countDocuments(query)] *)
Definition countDocuments {A} (query : A -> bool) (l : list A) : nat :=
  List.length (filter query l).

(** [GET /api/admin/stats] *)
Definition GetStats (admin : User.t) (st : Store) : Response Stats.t * Store :=
  if negb (authorize Role.admin admin)
  then (Fail 403 "Not authorized to access this route", st)
  else
    let withStatus (s : Status) :=
      countDocuments (fun a => Status_eqb (Appointment.status a) s)
        (appointments st) in
    (Json 200
       {| Stats.totalPatients :=
            countDocuments
              (fun u => (Role.eqb (User.role u) Role.patient
                         && User.isActive u)%bool) (users st);
          Stats.totalDoctors :=
            countDocuments
              (fun u => (Role.eqb (User.role u) Role.doctor
                         && User.isApproved u && User.isActive u)%bool)
              (users st);
          Stats.pendingDoctors :=
            countDocuments
              (fun u => (Role.eqb (User.role u) Role.doctor
                         && negb (User.isApproved u) && User.isActive u)%bool)
              (users st);
          Stats.totalAppointments :=
            countDocuments (fun _ => true) (appointments st);
          Stats.pendingAppointments := withStatus pending;
          Stats.confirmedAppointments := withStatus confirmed;
          Stats.completedAppointments := withStatus completed;
          Stats.cancelledAppointments := withStatus cancelled |},
     st).

(** ** Runs with the administrative requests *)

Inductive AdminRequest :=
| Approve (admin : User.t) (userId : ObjectId)
| Deactivate (admin : User.t) (userId : ObjectId)
| Activate (admin : User.t) (userId : ObjectId)
| Remove (admin : User.t) (userId : ObjectId)
| SetAvailability (user : User.t) (availability : option (list RawSlot.t)).

Inductive AnyRequest :=
| Core (r : Request)
| Admin (r : AdminRequest).

Section AnyRuns.

Variable checkDoctorApproval : Store -> User.t -> option (Z * string).

Definition stepAny (st : Store) (r : AnyRequest) : Store :=
  match r with
  | Core r => step st r
  | Admin (Approve admin userId) => snd (ApproveDoctor admin userId st)
  | Admin (Deactivate admin userId) => snd (DeactivateUser admin userId st)
  | Admin (Activate admin userId) => snd (ActivateUser admin userId st)
  | Admin (Remove admin userId) => snd (DeleteUser admin userId st)
  | Admin (SetAvailability user availability) =>
      snd (UpdateAvailability checkDoctorApproval user availability st)
  end.

Definition runAny (st : Store) (rs : list AnyRequest) : Store :=
  fold_left stepAny rs st.

Inductive ReachableAny : Store -> Prop :=
| ReachableAny_initial st : initial st -> ReachableAny st
| ReachableAny_step st r : ReachableAny st -> ReachableAny (stepAny st r).

End AnyRuns.

(** ** The API client: [retryApiCall] *)

Module Retry.

(** What the loop reads of a rejection: [error.response?.status] ([None]
    when there is no response) and [error.code]. *)
Record Error := {
  status : option Z;
  code : option string
}.

Inductive Outcome (A : Type) :=
| Resolved (a : A)
| Rejected (e : Error).

Arguments Resolved {A} a.
Arguments Rejected {A} e.

(** [error.response?.status >= 500 || error.code === 'ECONNABORTED'
     || !error.response] *)
Definition isRetryableError (e : Error) : bool :=
  (match status e with Some s => 500 <=? s | None => false end
   || match code e with
      | Some c => String.eqb c "ECONNABORTED"
      | None => false
      end
   || match status e with Some _ => false | None => true end)%bool.

(** How a call of [retryApiCall] ends: with the value of [apiCall], with the
    error it rethrows, or by leaving the loop without a [return]. *)
Inductive Result (A : Type) :=
| Returned (a : A)
| Threw (e : Error)
| Undefined.

Arguments Returned {A} a.
Arguments Threw {A} e.
Arguments Undefined {A}.

Record Run (A : Type) := {
  result : Result A;
  calls : nat;          (* how often [apiCall] was invoked *)
  waits : list Z        (* the timeouts slept, in order *)
}.

Arguments result {A} r.
Arguments calls {A} r.
Arguments waits {A} r.

(** The [for] loop; [apiCall n] is what the invocation after [n] earlier
    ones does.  One unit of [fuel] per iteration. *)
Fixpoint loop {A} (fuel : nat) (apiCall : nat -> Outcome A)
    (maxRetries attempt delay : Z) (done : nat) (slept : list Z) : Run A :=
  match fuel with
  | O => {| result := Undefined; calls := done; waits := slept |}
  | S fuel' =>
      if attempt <=? maxRetries then
        match apiCall done with
        | Resolved a =>
            {| result := Returned a; calls := S done; waits := slept |}
        | Rejected error =>
            let isLastAttempt := attempt =? maxRetries in
            if (isLastAttempt || negb (isRetryableError error))%bool
            then {| result := Threw error; calls := S done; waits := slept |}
            else loop fuel' apiCall maxRetries (attempt + 1) (delay * 2)
                   (S done) (slept ++ [delay])
        end
      else {| result := Undefined; calls := done; waits := slept |}
  end.

(** [retryApiCall(apiCall, maxRetries = 3, delay = 1000)]; the loop body
    runs at most [maxRetries] times, and one more unit of fuel lets the loop
    test fail. *)
Definition retryApiCall {A} (apiCall : nat -> Outcome A)
    (maxRetries delay : Z) : Run A :=
  loop (S (Z.to_nat maxRetries)) apiCall maxRetries 1 delay 0 [].

End Retry.

(** ** Vocabulary of the further properties *)

(** The document a booking request creates. *)
Definition newAppointment (st : Store) (user : User.t) (body : BookBody.t)
  : Appointment.t :=
  {| Appointment._id := nextId st;
     Appointment.patientId := User._id user;
     Appointment.doctorId := BookBody.doctorId body;
     Appointment.appointmentDate := BookBody.appointmentDate body;
     Appointment.timeSlot := BookBody.timeSlot body;
     Appointment.status := confirmed;
     Appointment.symptoms := option_map trim (BookBody.symptoms body);
     Appointment.notes := None;
     Appointment.prescription := "";
     Appointment.cancelReason := None |}.

(** The doctor's aggregate as a pair. *)
Definition aggregateOf (d : Doctor.t) : float * Z :=
  (Doctor.rating d, Doctor.totalRatings d).

(** A middleware that lets every doctor through whose account is approved,
    for running the doctor router on concrete requests. *)
Definition approvedOnly (st : Store) (user : User.t) : option (Z * string) :=
  match User.findById (users st) (User._id user) with
  | Some account =>
      if User.isApproved account then None
      else Some (403, "Your account is pending approval")
  | None => Some (401, "Not authorized")
  end.

(** The JSON rendering of a stored weekly entry, as the profile page sends
    it back. *)
Definition toRawSlot (e : TimeSlotEntry.t) : RawSlot.t :=
  {| RawSlot.day := Day_toString (TimeSlotEntry.day e);
     RawSlot.startTime := TimeSlotEntry.startTime e;
     RawSlot.endTime := TimeSlotEntry.endTime e;
     RawSlot.isAvailable := Some (TimeSlotEntry.isAvailable e) |}.

(** The active appointments of doctor [d] that start at [start] within the
    24 hours from [date]: what makes the resolver mark a slot as booked. *)
Definition takers (st : Store) (d : ObjectId) (date : Date) (start : string)
  : list Appointment.t :=
  filter
    (fun apt =>
       ((Appointment.doctorId apt =? d)
        && (date <=? Appointment.appointmentDate apt)
        && (Appointment.appointmentDate apt <? date + msPerDay)
        && Appointment.active apt
        && String.eqb (TimeSlot.startTime (Appointment.timeSlot apt))
             start)%bool)
    (appointments st).

(** A feedback is grounded when the ledger holds a completed appointment
    with the feedback's appointment identifier, patient and doctor. *)
Definition grounded (st : Store) (f : Feedback.t) : Prop :=
  exists a,
    In a (appointments st) /\
    Appointment._id a = Feedback.appointmentId f /\
    Appointment.status a = completed /\
    Appointment.patientId a = Feedback.patientId f /\
    Appointment.doctorId a = Feedback.doctorId f.

(** A feedback request either leaves the profiles alone or writes a new
    rating and count into the one profile it found. *)
Definition ratingWrite (st st' : Store) (k : ObjectId) : Prop :=
  doctors st' = doctors st \/
  exists doctor x n,
    Doctor.findOne (doctors st) k = Some doctor /\
    doctors st' = Doctor.replace (doctors st) (set_rating doctor x n).

(** The profiles of [st'] are those of [st] except for the rating and the
    count of the doctor with account [k]. *)
Definition sameProfilesBut (st st' : Store) (k : ObjectId) : Prop :=
  forall u,
    (u <> k -> Doctor.findOne (doctors st') u = Doctor.findOne (doctors st) u)
    /\
    option_map
      (fun d => (Doctor.userId d, Doctor.availability d,
                 Doctor.totalAppointments d))
      (Doctor.findOne (doctors st') u)
    = option_map
        (fun d => (Doctor.userId d, Doctor.availability d,
                   Doctor.totalAppointments d))
        (Doctor.findOne (doctors st) u).

(** The feedback documents of [l] that patient [u] did not write. *)
Definition notBy (u : ObjectId) (l : list Feedback.t) : list Feedback.t :=
  filter (fun f => negb (Feedback.patientId f =? u)) l.

(** The appointments of [l] in which account [u] is neither the patient nor
    the doctor. *)
Definition without (u : ObjectId) (l : list Appointment.t)
  : list Appointment.t :=
  filter
    (fun a =>
       negb ((Appointment.patientId a =? u)
             || (Appointment.doctorId a =? u))%bool) l.

(** The order of [.sort({ appointmentDate: 1, 'timeSlot.startTime': 1 })]
    read as a relation: earlier date first, and on the same date the start
    times in the order of their strings. *)
Definition byDateThenStart (a b : Appointment.t) : Prop :=
  Appointment.appointmentDate a < Appointment.appointmentDate b \/
  (Appointment.appointmentDate a = Appointment.appointmentDate b /\
   String.leb (TimeSlot.startTime (Appointment.timeSlot a))
     (TimeSlot.startTime (Appointment.timeSlot b)) = true).

(** The day a [date] parameter selects: every date when it is absent. *)
Definition onDay (date : DateParam) (a : Appointment.t) : Prop :=
  match date with
  | ValidDate t =>
      t <= Appointment.appointmentDate a < t + msPerDay
  | _ => True
  end.

(** What an availability update must leave alone in a profile. *)
Definition standing (d : Doctor.t) : ObjectId * float * Z * Z :=
  (Doctor.userId d, Doctor.rating d, Doctor.totalRatings d,
   Doctor.totalAppointments d).

(** A stored weekly entry that passes [timeSlotSchema]'s [required]. *)
Definition wellFormed (e : TimeSlotEntry.t) : Prop :=
  TimeSlotEntry.startTime e <> "" /\ TimeSlotEntry.endTime e <> "".

(** The part an account plays in an appointment or in a feedback, by its
    role: what [DELETE /api/admin/users/:userId] selects by. *)
Definition partyOf (u : User.t) (patient doctor : ObjectId) : Prop :=
  match User.role u with
  | Role.patient => patient = User._id u
  | Role.doctor => doctor = User._id u
  | Role.admin => False
  end.

(** What the handlers of the appointment router read of a stored account. *)
Definition readOf (u : User.t) : ObjectId * bool :=
  (User._id u, User.isApproved u).

(** Two stores that differ at most in fields of accounts that no handler of
    the appointment and feedback routers reads. *)
Definition sameToHandlers (st1 st2 : Store) : Prop :=
  doctors st1 = doctors st2 /\ appointments st1 = appointments st2 /\
  feedbacks st1 = feedbacks st2 /\ nextId st1 = nextId st2 /\
  forall k,
    option_map readOf (User.findById (users st1) k)
    = option_map readOf (User.findById (users st2) k).

(** The timeouts of [k] retries that start from [delay] and double. *)
Definition backoff (delay : Z) (k : nat) : list Z :=
  map (fun i => delay * 2 ^ Z.of_nat i) (seq 0 k).

(** The first [k] invocations of [apiCall] after [done] earlier ones were
    all rejected with an error that is retried. *)
Definition retried {A} (apiCall : nat -> Retry.Outcome A) (done k : nat)
  : Prop :=
  forall i, (i < k)%nat ->
    exists e,
      apiCall (done + i)%nat = Retry.Rejected e /\
      Retry.isRetryableError e = true.

(** * Properties *)

(** ** Collections *)

Lemma find_In {A} (p : A -> bool) (l : list A) (x : A) :
  find p l = Some x -> In x l /\ p x = true.
Proof.
  induction l as [|y l IH]; simpl; [discriminate|].
  destruct (p y) eqn:E.
  - intros [= <-]; auto.
  - intros H; destruct (IH H); auto.
Qed.

Lemma User_findById_id l id u :
  User.findById l id = Some u -> User._id u = id.
Proof.
  unfold User.findById. intros H. apply find_some in H.
  now apply Z.eqb_eq.
Qed.

Lemma Doctor_replace_Forall (P : Doctor.t -> Prop) l d :
  Forall P l -> P d -> Forall P (Doctor.replace l d).
Proof.
  intros Hl Hd; induction Hl as [|x l Hx Hl IH]; simpl; [constructor|].
  destruct (Doctor.userId x =? Doctor.userId d); constructor; auto.
Qed.

Lemma Doctor_findOne_replace l d d0 :
  Doctor.findOne l (Doctor.userId d) = Some d0 ->
  Doctor.findOne (Doctor.replace l d) (Doctor.userId d) = Some d.
Proof.
  unfold Doctor.findOne.
  induction l as [|x l IH]; simpl; [discriminate|].
  destruct (Doctor.userId x =? Doctor.userId d) eqn:E; simpl.
  - now rewrite Z.eqb_refl.
  - now rewrite E.
Qed.

Lemma Doctor_findOne_userId l u d :
  Doctor.findOne l u = Some d -> Doctor.userId d = u.
Proof.
  intros H; apply find_In in H; destruct H as [_ H]; now apply Z.eqb_eq.
Qed.

(** ** The ledger's index *)

Module LedgerFacts.
Import Ledger.

Lemma atKey_iff d date s a :
  Appointment.atKey d date s a = true <-> key a = (d, date, s).
Proof.
  unfold Appointment.atKey, key.
  rewrite !andb_true_iff, !Z.eqb_eq, String.eqb_eq.
  split; [intros [[-> ->] ->]; reflexivity | intros [= -> -> ->]; auto].
Qed.

Lemma existsb_atKey_false a l :
  existsb
    (Appointment.atKey (Appointment.doctorId a)
       (Appointment.appointmentDate a)
       (TimeSlot.startTime (Appointment.timeSlot a))) l = false ->
  ~ In (key a) (map key l).
Proof.
  intros H Hin. apply in_map_iff in Hin. destruct Hin as [b [Hk Hb]].
  assert (existsb
            (Appointment.atKey (Appointment.doctorId a)
               (Appointment.appointmentDate a)
               (TimeSlot.startTime (Appointment.timeSlot a))) l = true)
    as Ht.
  { apply existsb_exists. exists b. split; [assumption|].
    apply atKey_iff. exact Hk. }
  congruence.
Qed.

Lemma insert_keys l a l' :
  Appointment.insert l a = Some l' ->
  NoDup (map key l) -> NoDup (map key l').
Proof.
  unfold Appointment.insert.
  destruct (existsb _ l) eqn:E; [discriminate|].
  intros [= <-] Hnd. rewrite map_app. simpl.
  apply NoDup_app; [assumption | repeat constructor; simpl; tauto |].
  intros k Hk [<- | []]. revert Hk. now apply existsb_atKey_false.
Qed.

Lemma save_keys l a a' :
  Appointment.findById l (Appointment._id a') = Some a ->
  key a' = key a ->
  map key (Appointment.save l a') = map key l.
Proof.
  unfold Appointment.findById.
  induction l as [|x l IH]; simpl; [discriminate|].
  destruct (Appointment._id x =? Appointment._id a') eqn:E; simpl.
  - intros [= ->] ->. reflexivity.
  - intros H Hk. now rewrite IH.
Qed.

Lemma findById_id l id a :
  Appointment.findById l id = Some a -> Appointment._id a = id.
Proof.
  intros H; apply find_In in H; destruct H as [_ H]; now apply Z.eqb_eq.
Qed.

Lemma NoDup_key_filter d date s l :
  NoDup (map key l) ->
  (List.length (filter (Appointment.atKey d date s) l) <= 1)%nat.
Proof.
  induction l as [|x l IH]; simpl; [lia|].
  intros Hnd. inversion Hnd as [|k ks Hnotin Hnd' Heq]; subst.
  destruct (Appointment.atKey d date s x) eqn:E; [|auto].
  apply atKey_iff in E.
  assert (filter (Appointment.atKey d date s) l = []) as ->; [|simpl; lia].
  destruct (filter (Appointment.atKey d date s) l) as [|y r] eqn:F;
    [reflexivity|].
  exfalso. apply Hnotin.
  assert (In y (filter (Appointment.atKey d date s) l)) as Hy
    by (rewrite F; now left).
  apply filter_In in Hy. destruct Hy as [Hy Hk].
  apply atKey_iff in Hk. rewrite E, <- Hk. now apply in_map.
Qed.

Lemma occupying_le d date s l :
  (List.length (occupying d date s l)
   <= List.length (filter (Appointment.atKey d date s) l))%nat.
Proof.
  unfold occupying. induction l as [|x l IH]; simpl; [lia|].
  destruct (Appointment.atKey d date s x), (Appointment.active x);
    simpl; lia.
Qed.

End LedgerFacts.

(** ** What each handler writes *)

Ltac break_match :=
  match goal with
  | |- context [match ?x with _ => _ end] => destruct x eqn:?
  end.

Ltac handler h := unfold h; cbv zeta; repeat break_match; simpl.

Section Frames.

Variable st : Store.

Lemma Book_appointments now user body :
  appointments (snd (BookAppointment now user body st)) = appointments st
  \/ exists a l,
       Appointment.insert (appointments st) a = Some l /\
       appointments (snd (BookAppointment now user body st)) = l.
Proof.
  handler BookAppointment; auto. right; eauto.
Qed.

Lemma Cancel_appointments user id reason :
  appointments (snd (CancelAppointment user id reason st)) = appointments st
  \/ exists a,
       Appointment.findById (appointments st) id = Some a /\
       appointments (snd (CancelAppointment user id reason st))
       = Appointment.save (appointments st)
           (Appointment.set_cancelled a reason).
Proof.
  handler CancelAppointment; auto; right; eauto.
Qed.

Lemma Complete_appointments user id n p :
  appointments (snd (CompleteAppointment user id n p st)) = appointments st
  \/ exists a,
       Appointment.findById (appointments st) id = Some a /\
       appointments (snd (CompleteAppointment user id n p st))
       = Appointment.save (appointments st)
           (Appointment.set_completed a n p).
Proof.
  handler CompleteAppointment; auto; right; eauto.
Qed.

Lemma Resolve_pure d date : snd (ResolveSlots d date st) = st.
Proof. unfold ResolveSlots. handler ResolveSlotsIn; reflexivity. Qed.

Lemma saveRating_appointments s d s' :
  saveRating s d = Some s' -> appointments s' = appointments s.
Proof.
  unfold saveRating. destruct (Doctor.validRating _); [|discriminate].
  now intros [= <-].
Qed.

Lemma Submit_appointments user body :
  appointments (snd (SubmitFeedback user body st)) = appointments st.
Proof.
  handler SubmitFeedback; auto.
  match goal with H : saveRating _ _ = Some _ |- _ =>
    apply saveRating_appointments in H; exact H end.
Qed.

Lemma Update_appointments user id r c :
  appointments (snd (UpdateFeedback user id r c st)) = appointments st.
Proof.
  handler UpdateFeedback; auto;
  match goal with H : saveRating _ _ = Some _ |- _ =>
    apply saveRating_appointments in H; exact H end.
Qed.

Lemma Delete_appointments user id :
  appointments (snd (DeleteFeedback user id st)) = appointments st.
Proof.
  handler DeleteFeedback; auto;
  match goal with H : saveRating _ _ = Some _ |- _ =>
    apply saveRating_appointments in H; exact H end.
Qed.

End Frames.

Lemma step_keys st r :
  NoDup (map Ledger.key (appointments st)) ->
  NoDup (map Ledger.key (appointments (step st r))).
Proof.
  intros Hnd. destruct r as [now u b|u id c|u id n p|d date|u b|u id r c|u id];
    simpl.
  - destruct (Book_appointments st now u b) as [-> | (a & l & Hi & ->)];
      [assumption|]. eapply LedgerFacts.insert_keys; eauto.
  - destruct (Cancel_appointments st u id c) as [-> | (a & Hf & ->)];
      [assumption|].
    rewrite (LedgerFacts.save_keys _ a); [assumption | | reflexivity].
    simpl. now rewrite (LedgerFacts.findById_id _ _ _ Hf).
  - destruct (Complete_appointments st u id n p) as [-> | (a & Hf & ->)];
      [assumption|].
    rewrite (LedgerFacts.save_keys _ a); [assumption | | reflexivity].
    simpl. now rewrite (LedgerFacts.findById_id _ _ _ Hf).
  - now rewrite Resolve_pure.
  - now rewrite Submit_appointments.
  - now rewrite Update_appointments.
  - now rewrite Delete_appointments.
Qed.

Lemma Reachable_keys st :
  Reachable st -> NoDup (map Ledger.key (appointments st)).
Proof.
  induction 1 as [st (Ha & _) | st r _ IH].
  - rewrite Ha. constructor.
  - now apply step_keys.
Qed.

Lemma Reachable_run st rs : Reachable st -> Reachable (run st rs).
Proof.
  revert st. induction rs as [|r rs IH]; intros st H; simpl; [assumption|].
  apply IH. now constructor.
Qed.

Lemma Clinic_store_initial : initial Clinic.store.
Proof.
  repeat split; repeat constructor.
Qed.

Lemma Clinic_run_reachable rs : Reachable (run Clinic.store rs).
Proof. apply Reachable_run, Reachable_initial, Clinic_store_initial. Qed.

(** ** Booked-slot ledger *)

(** Keyed on the stored instant, the invariant holds: in every state
    reached from an empty ledger by any sequence of requests (bookings,
    cancellations, completions, and also the read-only and feedback
    requests), at most one active (pending or confirmed) appointment has a
    given doctor, stored date and start time. *)
Lemma ledger_unique_active (st : Store) :
  Reachable st ->
  forall d date start,
    (List.length (Ledger.occupying d date start (appointments st)) <= 1)%nat.
Proof.
  intros H d date start.
  eapply Nat.le_trans; [apply LedgerFacts.occupying_le|].
  apply LedgerFacts.NoDup_key_filter. now apply Reachable_keys.
Qed.

Lemma ledger_unique_active_witness :
  let st :=
    run Clinic.store
      [Book Clinic.sundayNoon Clinic.alice
         (Clinic.request Clinic.drWho Clinic.monday "09:00" "09:30");
       Book Clinic.sundayNoon Clinic.bob
         (Clinic.request Clinic.drWho Clinic.monday "09:00" "09:30");
       Book Clinic.sundayNoon Clinic.bob
         (Clinic.request Clinic.drWho Clinic.monday "10:00" "10:30");
       Complete Clinic.drWho 101 None None] in
  Reachable st /\
  List.length
    (Ledger.occupying (User._id Clinic.drWho) Clinic.monday "09:00"
       (appointments st)) = 1%nat /\
  (List.length
     (Ledger.occupying (User._id Clinic.drWho) Clinic.monday "09:00"
        (appointments st)) <= 1)%nat.
Proof.
  intros st.
  split; [apply Clinic_run_reachable|].
  split; [reflexivity|].
  apply (ledger_unique_active st), Clinic_run_reachable.
Defined.

(** C1 fails in the code.  The specification's date is a calendar date with
    no time component; the handler stores the instant the request carries
    and its conflict check and the unique index compare instants.  Two
    patients who pick 6 January 2025, 09:00, with the same doctor, one with
    a browser in UTC and one with a browser five hours west of UTC, send
    the midnights of their own zones, five hours apart: both bookings
    succeed, and the ledger holds two confirmed appointments of the doctor
    on that calendar date at that start time.  The slot resolver, which
    reads a date as a day, shows the slot as booked. *)
Theorem same_day_booked_twice :
  let here := Clinic.monday in
  let west := Clinic.monday + 5 * 3600000 in
  let st :=
    run Clinic.store
      [Book Clinic.sundayNoon Clinic.alice
         (Clinic.request Clinic.drWho here "09:00" "09:30");
       Book Clinic.sundayNoon Clinic.bob
         (Clinic.request Clinic.drWho west "09:00" "09:30")] in
  Reachable st /\
  Calendar.dayOf 0 here = 20094 /\
  Calendar.dayOf (- (5 * 3600000)) west = 20094 /\
  map
    (fun a =>
       (Appointment._id a, Appointment.patientId a, Appointment.doctorId a,
        Calendar.dayOf 0 (Appointment.appointmentDate a),
        TimeSlot.startTime (Appointment.timeSlot a), Appointment.status a))
    (appointments st)
  = [(100, 1, 2, 20094, "09:00", confirmed);
     (101, 3, 2, 20094, "09:00", confirmed)] /\
  List.length (Ledger.occupyingDay 2 20094 "09:00" (appointments st))
  = 2%nat /\
  fst (ResolveSlots 2 (ValidDate Clinic.monday) st)
  = Json 200
      [{| Slot.day := Monday; Slot.startTime := "10:00";
          Slot.endTime := "10:30"; Slot.isBooked := false |};
       {| Slot.day := Monday; Slot.startTime := "09:00";
          Slot.endTime := "09:30"; Slot.isBooked := true |}].
Proof.
  split; [apply Clinic_run_reachable|].
  vm_compute. repeat split.
Qed.

(** What the handler does at a key once the other checks have passed: the
    answer depends on whether any stored appointment, of any status, has the
    key. *)
Lemma Book_at_key now user body st doctor account :
  authorize Role.patient user = true ->
  TimeSlot.startTime (BookBody.timeSlot body) <> "" ->
  TimeSlot.endTime (BookBody.timeSlot body) <> "" ->
  Doctor.findOne (doctors st) (BookBody.doctorId body) = Some doctor ->
  User.findById (users st) (Doctor.userId doctor) = Some account ->
  User.isApproved account = true ->
  now <= BookBody.appointmentDate body ->
  if existsb
       (Appointment.atKey (BookBody.doctorId body)
          (BookBody.appointmentDate body)
          (TimeSlot.startTime (BookBody.timeSlot body)))
       (appointments st)
  then BookAppointment now user body st
       = (Fail 400 "This time slot is already booked", st)
  else exists a st',
         BookAppointment now user body st = (Json 201 a, st') /\
         Appointment.status a = confirmed /\
         appointments st' = appointments st ++ [a].
Proof.
  intros Hu Hs He Hd Ha Hap Hnow.
  unfold BookAppointment. rewrite Hu. simpl.
  apply String.eqb_neq in Hs. apply String.eqb_neq in He.
  rewrite Hs, He. simpl. rewrite Hd, Ha, Hap. simpl.
  assert ((BookBody.appointmentDate body <? now) = false) as ->
    by (apply Z.ltb_ge; lia).
  unfold Appointment.insert. simpl.
  destruct (Appointment.findActiveAt _ _ _ _) as [x|] eqn:Hf.
  - apply find_In in Hf. destruct Hf as [Hin Hx].
    apply andb_true_iff in Hx. destruct Hx as [Hx _].
    assert (existsb
              (Appointment.atKey (BookBody.doctorId body)
                 (BookBody.appointmentDate body)
                 (TimeSlot.startTime (BookBody.timeSlot body)))
              (appointments st) = true) as ->
      by (apply existsb_exists; eauto).
    reflexivity.
  - destruct (existsb _ _); [reflexivity|].
    do 2 eexists. split; [reflexivity|]. split; reflexivity.
Qed.

(** C2. Evaluation at the failing input: after a booking is cancelled no
    active appointment is left at its key, yet booking the same key again is
    refused by the unique index (error 11000) with the slot-already-booked
    answer, and nothing is inserted. *)
Theorem rebook_after_cancel_refused :
  let st :=
    run Clinic.store
      [Book Clinic.sundayNoon Clinic.alice
         (Clinic.request Clinic.drWho Clinic.monday "09:00" "09:30");
       Cancel Clinic.alice 100 (Some "travelling")] in
  let again :=
    BookAppointment Clinic.sundayNoon Clinic.bob
      (Clinic.request Clinic.drWho Clinic.monday "09:00" "09:30") st in
  map Appointment.status (appointments st) = [cancelled] /\
  Ledger.occupying (User._id Clinic.drWho) Clinic.monday "09:00"
    (appointments st) = [] /\
  fst again = Fail 400 "This time slot is already booked" /\
  errorOf (fst again) = Some SlotAlreadyBookedError /\
  snd again = st.
Proof.
  vm_compute. repeat split.
Qed.

(** ** The weekday of a date *)

Module CalendarFacts.
Import Calendar.

Lemma dayName_next t : dayName (t + msPerDay) = tomorrow (dayName t).
Proof.
  unfold dayName.
  replace ((t + msPerDay) / msPerDay) with (t / msPerDay + 1)
    by (unfold msPerDay; rewrite <- (Z.div_add t 1 86400000); [f_equal|]; lia).
  pose proof (Z.mod_pos_bound (t / msPerDay + 4) 7 ltac:(lia)) as Hr.
  replace ((t / msPerDay + 1 + 4) mod 7)
    with (((t / msPerDay + 4) mod 7 + 1) mod 7)
    by (rewrite Zplus_mod_idemp_l; f_equal; lia).
  set (r := (t / msPerDay + 4) mod 7) in *.
  assert (r = 0 \/ r = 1 \/ r = 2 \/ r = 3 \/ r = 4 \/ r = 5 \/ r = 6)
    as Hcases by lia.
  destruct Hcases as [-> | [-> | [-> | [-> | [-> | [-> | ->]]]]]];
    reflexivity.
Qed.

Lemma yesterday_tomorrow d : yesterday (tomorrow d) = d.
Proof. now destruct d. Qed.

Lemma dayName_prev t : dayName (t - msPerDay) = yesterday (dayName t).
Proof.
  replace t with (t - msPerDay + msPerDay) at 2 by lia.
  now rewrite dayName_next, yesterday_tomorrow.
Qed.

(** Within a day the weekday does not change. *)
Lemma dayName_day t : dayName t = dayName (t / msPerDay * msPerDay).
Proof.
  unfold dayName. rewrite Z.div_mul; [reflexivity | unfold msPerDay; lia].
Qed.

Lemma dayName_after n :
  dayName (Z.of_nat n * msPerDay) = Nat.iter n tomorrow Thursday.
Proof.
  induction n as [|n IH]; [reflexivity|].
  replace (Z.of_nat (S n) * msPerDay) with (Z.of_nat n * msPerDay + msPerDay)
    by lia.
  rewrite dayName_next, IH. reflexivity.
Qed.

Lemma dayName_before n :
  dayName (- Z.of_nat n * msPerDay) = Nat.iter n yesterday Thursday.
Proof.
  induction n as [|n IH]; [reflexivity|].
  replace (- Z.of_nat (S n) * msPerDay)
    with (- Z.of_nat n * msPerDay - msPerDay) by lia.
  rewrite dayName_prev, IH. reflexivity.
Qed.

(** The handler's weekday is the specification's weekday of the UTC
    calendar date of the instant. *)
Lemma dayName_dayOfWeek t : dayName t = dayOfWeek (dayOf 0 t).
Proof.
  unfold dayOfWeek, dayOf. rewrite Z.add_0_r, (dayName_day t).
  destruct (0 <=? t / msPerDay) eqn:E.
  - apply Z.leb_le in E. rewrite <- dayName_after, Z2Nat.id by exact E.
    reflexivity.
  - apply Z.leb_gt in E. rewrite <- dayName_before, Z2Nat.id by lia.
    f_equal. lia.
Qed.

(** On a server in another zone it is the weekday of the local calendar
    date of the instant. *)
Lemma dayNameIn_dayOfWeek zone t :
  dayNameIn zone t = dayOfWeek (dayOf (Zone.offsetAt zone t) t).
Proof.
  unfold dayNameIn. rewrite dayName_dayOfWeek. unfold dayOf, Zone.toLocal.
  now rewrite Z.add_0_r.
Qed.

(** A date without a time is read as UTC midnight; on a server at or east
    of UTC its local date is that date, on a server west of UTC it is the
    day before. *)
Lemma dayOf_midnight zone date :
  date mod msPerDay = 0 ->
  (0 <= zone < msPerDay -> dayOf zone date = date / msPerDay) /\
  (- msPerDay <= zone < 0 -> dayOf zone date = date / msPerDay - 1).
Proof.
  intros Hm. unfold dayOf, msPerDay in *.
  assert (date = 86400000 * (date / 86400000)) as Hq
    by (apply Z.div_exact; lia).
  split; intros Hz; symmetry.
  - apply (Z.div_unique _ 86400000 _ zone); lia.
  - apply (Z.div_unique _ 86400000 _ (zone + 86400000)); lia.
Qed.

End CalendarFacts.

(** ** Slot resolver *)

Module ResolverFacts.
Import Resolver.

Lemma entry_of_candidates date taken l :
  map entry (map (mark taken) (filter (candidate date) l))
  = filter (candidate date) l.
Proof.
  induction l as [|e l IH]; simpl; [reflexivity|].
  destruct (candidate date e) eqn:E; simpl; [|exact IH].
  rewrite IH. f_equal.
  unfold candidate in E. apply andb_true_iff in E. destruct E as [_ E].
  destruct e; simpl in *. now subst.
Qed.

Lemma ResolveSlotsIn_eq zone st d date doctor :
  Doctor.findOne (doctors st) d = Some doctor ->
  ResolveSlotsIn zone d (ValidDate date) st
  = (Json 200
       (map
          (mark
             (bookedBetween st d date
                (Zone.fromLocal zone (Zone.toLocal zone date + msPerDay))))
          (filter (candidate (Zone.toLocal zone date))
             (Doctor.availability doctor))),
     st).
Proof.
  intros Hd. unfold ResolveSlotsIn, dayNameIn. rewrite Hd.
  fold (candidate (Zone.toLocal zone date)).
  fold (bookedBetween st d date
          (Zone.fromLocal zone (Zone.toLocal zone date + msPerDay))).
  fold (mark
          (bookedBetween st d date
             (Zone.fromLocal zone (Zone.toLocal zone date + msPerDay)))).
  destruct (filter _ _); reflexivity.
Qed.

Lemma ResolveSlots_eq st d date doctor :
  Doctor.findOne (doctors st) d = Some doctor ->
  ResolveSlots d (ValidDate date) st
  = (Json 200
       (map (mark (bookedSlots st d date))
          (filter (candidate date) (Doctor.availability doctor))), st).
Proof.
  intros Hd. unfold ResolveSlots. rewrite (ResolveSlotsIn_eq _ _ _ _ _ Hd).
  unfold Zone.utc, Zone.fixed, Zone.toLocal.
  cbn [Zone.offsetAt Zone.fromLocal].
  rewrite Z.add_0_r, Z.sub_0_r. reflexivity.
Qed.

(** The handler's candidates are the entries offered on the local calendar
    date. *)
Lemma candidate_offered zone date e :
  candidate (Zone.toLocal zone date) e
  = Calendar.offered (Calendar.dayOf (Zone.offsetAt zone date) date) e.
Proof.
  unfold candidate, Calendar.offered.
  now rewrite <- CalendarFacts.dayNameIn_dayOfWeek.
Qed.

Lemma bookedBetween_iff st d from until start :
  existsb (String.eqb start) (bookedBetween st d from until) = true <->
  booked st d (fun t => from <= t < until) start.
Proof.
  rewrite existsb_exists. unfold booked, bookedBetween. split.
  - intros [x [Hx Heq]]. apply String.eqb_eq in Heq.
    apply in_map_iff in Hx. destruct Hx as [a [<- Ha]].
    apply filter_In in Ha. destruct Ha as [Ha Hc].
    rewrite !andb_true_iff in Hc. destruct Hc as [[[H1 H2] H3] H4].
    exists a. repeat split; auto; lia.
  - intros [a (Ha & H1 & [H2 H3] & H4 & H5)].
    exists (TimeSlot.startTime (Appointment.timeSlot a)). split.
    + apply in_map_iff. exists a. split; [reflexivity|].
      apply filter_In. split; [assumption|].
      rewrite !andb_true_iff. repeat split; auto; lia.
    + apply String.eqb_eq. now symmetry.
Qed.

Lemma bookedSlots_iff st d date start :
  existsb (String.eqb start) (bookedSlots st d date) = true <->
  booked st d (fun t => date <= t < date + msPerDay) start.
Proof. apply (bookedBetween_iff st d date (date + msPerDay)). Qed.

(** The resolver on a valid date, whatever its time of day: the window it
    queries is the 24 hours from the instant given. *)
Lemma ResolveSlots_window st d date doctor :
  Doctor.findOne (doctors st) d = Some doctor ->
  exists slots,
    ResolveSlots d (ValidDate date) st = (Json 200 slots, st) /\
    map entry slots = filter (candidate date) (Doctor.availability doctor) /\
    Forall
      (fun s =>
         Slot.isBooked s = true <->
         booked st d (fun t => date <= t < date + msPerDay)
           (Slot.startTime s))
      slots.
Proof.
  intros Hd. eexists. split; [apply (ResolveSlots_eq _ _ _ _ Hd)|]. split.
  - apply entry_of_candidates.
  - apply Forall_forall. intros s Hs. apply in_map_iff in Hs.
    destruct Hs as [e [<- _]]. simpl. apply bookedSlots_iff.
Qed.

(** From midnight, the window is the calendar day. *)
Lemma window_is_day date t :
  date mod msPerDay = 0 ->
  (date <= t < date + msPerDay <-> t / msPerDay = date / msPerDay).
Proof.
  intros Hm. unfold msPerDay in *.
  assert (date = 86400000 * (date / 86400000)) as Hq
    by (apply Z.div_exact; lia).
  split.
  - intros H. symmetry.
    apply (Z.div_unique t 86400000 (date / 86400000) (t - date)); lia.
  - intros H.
    pose proof (Z.mul_div_le t 86400000).
    pose proof (Z.mul_succ_div_gt t 86400000).
    rewrite H in *. lia.
Qed.

End ResolverFacts.

(** What the resolver answers on a server in any zone, for a doctor on file
    and a valid date: the weekly entries offered on the local calendar date
    of the instant, in stored order, each marked booked iff an active
    appointment of the doctor, dated from the instant up to the same local
    time on the next local day, starts at the slot's start time; the store
    is returned as it was. *)
Lemma ResolveSlotsIn_spec (zone : Zone.t) (st : Store) (d : ObjectId)
    (date : Date) (doctor : Doctor.t) :
  Doctor.findOne (doctors st) d = Some doctor ->
  exists slots,
    ResolveSlotsIn zone d (ValidDate date) st = (Json 200 slots, st) /\
    map Resolver.entry slots
    = filter
        (Calendar.offered (Calendar.dayOf (Zone.offsetAt zone date) date))
        (Doctor.availability doctor) /\
    Forall
      (fun s =>
         Slot.isBooked s = true <->
         Resolver.booked st d
           (fun t =>
              date <= t
              < Zone.fromLocal zone (Zone.toLocal zone date + msPerDay))
           (Slot.startTime s))
      slots /\
    (filter
       (Calendar.offered (Calendar.dayOf (Zone.offsetAt zone date) date))
       (Doctor.availability doctor) = [] ->
     slots = []).
Proof.
  intros Hd.
  rewrite <- (filter_ext _ _ (ResolverFacts.candidate_offered zone date)).
  eexists. split; [apply (ResolverFacts.ResolveSlotsIn_eq _ _ _ _ _ Hd)|].
  split; [apply ResolverFacts.entry_of_candidates|]. split.
  - apply Forall_forall. intros s Hs. apply in_map_iff in Hs.
    destruct Hs as [e [<- _]]. simpl. apply ResolverFacts.bookedBetween_iff.
  - intros Hnil. now rewrite Hnil.
Qed.

(** On a server whose zone is UTC or a fixed offset east of it, and for a
    calendar date (read as its UTC midnight), the resolver answers 200 with
    exactly the doctor's weekly entries whose weekday is the date's and that
    are enabled, in stored order; each slot is marked booked iff an active
    (pending or confirmed) appointment of that doctor on that calendar day
    starts at the slot's start time; with no candidate the answer is the
    empty list, not an error; and the store is returned as it was. *)
Lemma ResolveSlots_spec (offset : Z) (st : Store) (d : ObjectId)
    (date : Date) (doctor : Doctor.t) :
  0 <= offset < msPerDay ->
  Doctor.findOne (doctors st) d = Some doctor ->
  date mod msPerDay = 0 ->
  exists slots,
    ResolveSlotsIn (Zone.fixed offset) d (ValidDate date) st
    = (Json 200 slots, st) /\
    map Resolver.entry slots
    = filter (Calendar.offered (date / msPerDay))
        (Doctor.availability doctor) /\
    Forall
      (fun s =>
         Slot.isBooked s = true <->
         Resolver.booked st d
           (fun t => t / msPerDay = date / msPerDay) (Slot.startTime s))
      slots /\
    (filter (Calendar.offered (date / msPerDay))
       (Doctor.availability doctor) = [] ->
     slots = []).
Proof.
  intros Hz Hd Hm.
  destruct (ResolveSlotsIn_spec (Zone.fixed offset) st d date doctor Hd)
    as (slots & Hr & He & Hb & Hn).
  destruct (CalendarFacts.dayOf_midnight offset date Hm) as [Hday _].
  unfold Zone.toLocal in Hb.
  cbn [Zone.fixed Zone.offsetAt Zone.fromLocal] in *.
  rewrite (Hday Hz) in He, Hn.
  replace (date + offset + msPerDay - offset) with (date + msPerDay) in Hb
    by lia.
  exists slots. repeat split; try assumption.
  eapply Forall_impl; [|exact Hb]. intros s Hs. simpl in *.
  rewrite Hs. unfold Resolver.booked.
  split; intros (a & H1 & H2 & H3 & H4); exists a; repeat split;
    try tauto; now apply (ResolverFacts.window_is_day date).
Qed.

(** On a server at a fixed offset west of UTC the entries are those of the
    day before the calendar date asked for. *)
Lemma ResolveSlots_west (offset : Z) (st : Store) (d : ObjectId)
    (date : Date) (doctor : Doctor.t) :
  - msPerDay <= offset < 0 ->
  Doctor.findOne (doctors st) d = Some doctor ->
  date mod msPerDay = 0 ->
  exists slots,
    ResolveSlotsIn (Zone.fixed offset) d (ValidDate date) st
    = (Json 200 slots, st) /\
    map Resolver.entry slots
    = filter (Calendar.offered (date / msPerDay - 1))
        (Doctor.availability doctor).
Proof.
  intros Hz Hd Hm.
  destruct (ResolveSlotsIn_spec (Zone.fixed offset) st d date doctor Hd)
    as (slots & Hr & He & _).
  destruct (CalendarFacts.dayOf_midnight offset date Hm) as [_ Hday].
  cbn [Zone.fixed Zone.offsetAt] in He.
  rewrite (Hday Hz) in He. exists slots. auto.
Qed.

(** C3 fails in the code on a server west of UTC.  The handler reads the
    date "2025-01-07", a Tuesday, as UTC midnight and takes the weekday of
    that instant in the server's zone; five hours west of UTC the instant is
    Monday evening.  A doctor with enabled entries Monday 10:00, Tuesday
    09:00 and Monday 09:00 and one appointment on the Tuesday at 09:00 is
    then answered with the two Monday entries, the 09:00 one marked booked,
    where the claim asks for the Tuesday entry; on a server in UTC the
    answer is the Tuesday entry. *)
Theorem resolver_offers_previous_day :
  let zone := Zone.fixed (- (5 * 3600000)) in
  let tuesday := 20095 * msPerDay in
  let st :=
    run Clinic.store
      [Book Clinic.sundayNoon Clinic.alice
         (Clinic.request Clinic.drWho tuesday "09:00" "09:30")] in
  tuesday mod msPerDay = 0 /\
  Calendar.dayOfWeek (tuesday / msPerDay) = Tuesday /\
  filter (Calendar.offered (tuesday / msPerDay)) Clinic.whoSlots
  = [Clinic.weekly Tuesday "09:00" "09:30" true] /\
  fst (ResolveSlotsIn zone 2 (ValidDate tuesday) st)
  = Json 200
      [{| Slot.day := Monday; Slot.startTime := "10:00";
          Slot.endTime := "10:30"; Slot.isBooked := false |};
       {| Slot.day := Monday; Slot.startTime := "09:00";
          Slot.endTime := "09:30"; Slot.isBooked := true |}] /\
  fst (ResolveSlotsIn Zone.utc 2 (ValidDate tuesday) st)
  = Json 200
      [{| Slot.day := Tuesday; Slot.startTime := "09:00";
          Slot.endTime := "09:30"; Slot.isBooked := true |}].
Proof.
  vm_compute. repeat split.
Qed.

(** ** Booking coordinator: status transitions *)

Lemma save_length l a :
  List.length (Appointment.save l a) = List.length l.
Proof.
  induction l as [|x l IH]; simpl; [reflexivity|].
  destruct (Appointment._id x =? Appointment._id a); simpl;
    [reflexivity | now rewrite IH].
Qed.

Lemma save_findById_same l a a' :
  Appointment.findById l (Appointment._id a') = Some a ->
  Appointment.findById (Appointment.save l a') (Appointment._id a') = Some a'.
Proof.
  unfold Appointment.findById.
  induction l as [|x l IH]; simpl; [discriminate|].
  destruct (Appointment._id x =? Appointment._id a') eqn:E; simpl.
  - now rewrite Z.eqb_refl.
  - now rewrite E.
Qed.

Lemma save_findById_other l a' id :
  id <> Appointment._id a' ->
  Appointment.findById (Appointment.save l a') id = Appointment.findById l id.
Proof.
  unfold Appointment.findById. intros Hne.
  induction l as [|x l IH]; simpl; [reflexivity|].
  destruct (Appointment._id x =? Appointment._id a') eqn:E; simpl.
  - apply Z.eqb_eq in E.
    assert ((Appointment._id a' =? id) = false) as -> by (apply Z.eqb_neq; lia).
    assert ((Appointment._id x =? id) = false) as -> by (apply Z.eqb_neq; lia).
    reflexivity.
  - destruct (Appointment._id x =? id); [reflexivity | exact IH].
Qed.

(** C4, as the claim states it, fails: on an appointment that is already
    cancelled, a cancel request from an account that is neither the patient,
    the doctor nor an administrator is answered 403 (forbidden), and so is a
    complete request from a doctor who is not the assigned one; neither is
    an invalid-state-transition answer. *)
Lemma terminal_request_by_stranger_forbidden :
  let st :=
    run Clinic.store
      [Book Clinic.sundayNoon Clinic.alice
         (Clinic.request Clinic.drWho Clinic.monday "09:00" "09:30");
       Cancel Clinic.alice 100 None] in
  let cancel := fst (CancelAppointment Clinic.bob 100 None st) in
  let complete := fst (CompleteAppointment Clinic.drElse 100 None None st) in
  option_map Appointment.status (Appointment.findById (appointments st) 100)
  = Some cancelled /\
  cancel = Fail 403 "Not authorized to cancel this appointment" /\
  errorOf cancel = Some ForbiddenError /\
  errorOf cancel <> Some InvalidStateTransitionError /\
  complete = Fail 403 "Not authorized to complete this appointment" /\
  errorOf complete <> Some InvalidStateTransitionError.
Proof.
  vm_compute. repeat split; discriminate.
Qed.

(** C4, amended. For an appointment whose status is completed or cancelled,
    every cancel and every complete request fails and leaves the store (so
    the status) as it was, whoever sends it.  A cancel request fails with
    the invalid-state-transition error when it comes from an administrator,
    from the patient or from the assigned doctor of the appointment, and
    with the forbidden error when it comes from anyone else; except that for
    a sender who is not an administrator the handler first reads the account
    of the patient and, unless the sender is the patient, the account of the
    doctor, and fails with the transient failure (500) when the account it
    reads no longer exists.  A complete request fails with the
    invalid-state-transition error when it comes from the assigned doctor
    and with the forbidden error when it comes from anyone else.  A complete
    request succeeds only on a confirmed appointment. *)
Theorem terminal_states_closed (st : Store) (id : ObjectId)
    (a : Appointment.t) (user : User.t) :
  Appointment.findById (appointments st) id = Some a ->
  (Appointment.status a = completed \/ Appointment.status a = cancelled ->
   (forall reason,
      let r := CancelAppointment user id reason st in
      snd r = st /\ succeeded (fst r) = false /\
      errorOf (fst r)
      = Some
          (if Role.eqb (User.role user) Role.admin
           then InvalidStateTransitionError
           else
             match User.findById (users st) (Appointment.patientId a) with
             | None => TransientFailure
             | Some _ =>
                 if Appointment.patientId a =? User._id user
                 then InvalidStateTransitionError
                 else
                   match
                     User.findById (users st) (Appointment.doctorId a)
                   with
                   | None => TransientFailure
                   | Some _ =>
                       if Appointment.doctorId a =? User._id user
                       then InvalidStateTransitionError
                       else ForbiddenError
                   end
             end)) /\
   (forall n p,
      let r := CompleteAppointment user id n p st in
      snd r = st /\ succeeded (fst r) = false /\
      errorOf (fst r)
      = Some
          (if (Role.eqb (User.role user) Role.doctor
               && (Appointment.doctorId a =? User._id user))%bool
           then InvalidStateTransitionError
           else ForbiddenError))) /\
  (forall n p,
     succeeded (fst (CompleteAppointment user id n p st)) = true ->
     Appointment.status a = confirmed).
Proof.
  intros Hf. split.
  - intros Hs. split.
    + intros reason. unfold CancelAppointment, cancelAccess.
      rewrite Hf. cbv zeta.
      destruct (Role.eqb (User.role user) Role.admin).
      { destruct Hs as [-> | ->]; simpl; repeat split. }
      destruct (User.findById (users st) (Appointment.patientId a))
        as [pt|] eqn:Hp; [|simpl; repeat split].
      rewrite (User_findById_id _ _ _ Hp).
      destruct (Appointment.patientId a =? User._id user).
      { destruct Hs as [-> | ->]; simpl; repeat split. }
      destruct (User.findById (users st) (Appointment.doctorId a))
        as [dr|] eqn:Hd; [|simpl; repeat split].
      rewrite (User_findById_id _ _ _ Hd).
      destruct (Appointment.doctorId a =? User._id user);
        [|simpl; repeat split].
      destruct Hs as [-> | ->]; simpl; repeat split.
    + intros n p. unfold CompleteAppointment, authorize. rewrite Hf.
      cbv zeta.
      destruct (Role.eqb (User.role user) Role.doctor); simpl;
        [|repeat split].
      destruct (Appointment.doctorId a =? User._id user); simpl;
        [|repeat split].
      destruct Hs as [-> | ->]; simpl; repeat split.
  - intros n p. unfold CompleteAppointment. rewrite Hf.
    destruct (authorize Role.doctor user); simpl; [|discriminate].
    destruct (Appointment.doctorId a =? User._id user); simpl; [|discriminate].
    destruct (Appointment.status a); simpl; try discriminate. reflexivity.
Qed.

Lemma terminal_states_closed_witness :
  let st :=
    run Clinic.store
      [Book Clinic.sundayNoon Clinic.alice
         (Clinic.request Clinic.drWho Clinic.monday "09:00" "09:30");
       Complete Clinic.drWho 100 (Some "rest") None] in
  let r := CancelAppointment Clinic.alice 100 (Some "late") st in
  let s := CancelAppointment Clinic.bob 100 None st in
  let c := CompleteAppointment Clinic.drWho 100 None (Some "tea") st in
  let e := CompleteAppointment Clinic.drElse 100 None None st in
  option_map Appointment.status (Appointment.findById (appointments st) 100)
  = Some completed /\
  (snd r = st /\ succeeded (fst r) = false /\
   errorOf (fst r) = Some InvalidStateTransitionError) /\
  (snd s = st /\ succeeded (fst s) = false /\
   errorOf (fst s) = Some ForbiddenError) /\
  (snd c = st /\ succeeded (fst c) = false /\
   errorOf (fst c) = Some InvalidStateTransitionError) /\
  (snd e = st /\ succeeded (fst e) = false /\
   errorOf (fst e) = Some ForbiddenError).
Proof.
  intros st r s c e. split; [reflexivity|].
  let o := eval vm_compute in (Appointment.findById (appointments st) 100) in
  match o with
  | Some ?a =>
      assert (Appointment.findById (appointments st) 100 = Some a) as Hf
        by (vm_compute; reflexivity);
      assert (Appointment.status a = completed) as Hs by reflexivity;
      destruct (terminal_states_closed st 100 a Clinic.alice Hf) as [Ha _];
      destruct (terminal_states_closed st 100 a Clinic.bob Hf) as [Hb _];
      destruct (terminal_states_closed st 100 a Clinic.drWho Hf) as [Hw _];
      destruct (terminal_states_closed st 100 a Clinic.drElse Hf) as [He _];
      destruct (Ha (or_introl Hs)) as [Hr _];
      destruct (Hb (or_introl Hs)) as [Hst _];
      destruct (Hw (or_introl Hs)) as [_ Hc];
      destruct (He (or_introl Hs)) as [_ Hel]
  end.
  split; [|split; [|split]].
  - destruct (Hr (Some "late")) as (H1 & H2 & H3).
    split; [exact H1|]. split; [exact H2|].
    refine (eq_trans H3 _). vm_compute. reflexivity.
  - destruct (Hst None) as (H1 & H2 & H3).
    split; [exact H1|]. split; [exact H2|].
    refine (eq_trans H3 _). vm_compute. reflexivity.
  - destruct (Hc None (Some "tea")) as (H1 & H2 & H3).
    split; [exact H1|]. split; [exact H2|].
    refine (eq_trans H3 _). vm_compute. reflexivity.
  - destruct (Hel None None) as (H1 & H2 & H3).
    split; [exact H1|]. split; [exact H2|].
    refine (eq_trans H3 _). vm_compute. reflexivity.
Defined.

(** ** Booking coordinator: preconditions of a booking *)

(** C5, as the claim states it, fails in two ways.  A request dated the
    previous day for a doctor who is not approved yet is answered with the
    doctor-unavailable error, because the doctor is checked first.  And a
    request whose date is the very instant of the request, with start time
    "00:00", is not strictly in the future and yet is booked: the handler
    compares the date alone, with [<]. *)
Lemma past_date_not_always_PastDateError :
  let yesterday :=
    BookAppointment Clinic.sundayNoon Clinic.alice
      (Clinic.request Clinic.drNew (Clinic.sundayNoon - msPerDay)
         "09:00" "09:30") Clinic.store in
  let thisInstant :=
    BookAppointment Clinic.monday Clinic.alice
      (Clinic.request Clinic.drWho Clinic.monday "00:00" "00:30")
      Clinic.store in
  fst yesterday = Fail 400 "Doctor is not approved yet" /\
  errorOf (fst yesterday) = Some DoctorUnavailableError /\
  errorOf (fst yesterday) <> Some PastDateError /\
  succeeded (fst thisInstant) = true /\
  List.length (appointments (snd thisInstant)) = 1%nat.
Proof.
  vm_compute. repeat split; discriminate.
Qed.

Lemma digit_nonneg c n : digit c = Some n -> 0 <= n.
Proof.
  unfold digit.
  destruct ((48 <=? Z.of_nat (nat_of_ascii c))
            && (Z.of_nat (nat_of_ascii c) <=? 57))%bool eqn:E;
    [|discriminate].
  intros [= <-]. apply andb_true_iff in E. destruct E as [E _].
  apply Z.leb_le in E. lia.
Qed.

Lemma specStartOffset_nonneg s off : specStartOffset s = Some off -> 0 <= off.
Proof.
  unfold specStartOffset.
  destruct s as [|h1 [|h2 [|c0 [|m1 [|m2 [|? ?]]]]]]; try discriminate;
    destruct c0 as [[] [] [] [] [] [] [] []]; try (cbn; discriminate).
  cbv beta iota.
  destruct (digit h1) as [a|] eqn:Ea; [|discriminate].
  destruct (digit h2) as [b|] eqn:Eb; [|discriminate].
  destruct (digit m1) as [c|] eqn:Ec; [|discriminate].
  destruct (digit m2) as [d|] eqn:Ed; [|discriminate].
  apply digit_nonneg in Ea, Eb, Ec, Ed.
  intros H.
  assert (off = ((10 * a + b) * 60 + (10 * c + d)) * 60000) by congruence.
  lia.
Qed.

(** C5, amended. For a booking request of a patient that passes input
    validation and names a doctor who is on file and approved, if the
    requested date, alone or combined with the start time "HH:MM" of the
    slot, is strictly earlier than the request time, then the booking fails
    with the past-date error and the store is left as it was, whatever the
    ledger holds at the key; a date of the previous day is such a date. *)
Theorem past_date_refused (now : Date) (user : User.t) (body : BookBody.t)
    (st : Store) (doctor : Doctor.t) (account : User.t) (off : Z) :
  authorize Role.patient user = true ->
  TimeSlot.startTime (BookBody.timeSlot body) <> "" ->
  TimeSlot.endTime (BookBody.timeSlot body) <> "" ->
  Doctor.findOne (doctors st) (BookBody.doctorId body) = Some doctor ->
  User.findById (users st) (Doctor.userId doctor) = Some account ->
  User.isApproved account = true ->
  off = 0 \/
  specStartOffset (TimeSlot.startTime (BookBody.timeSlot body)) = Some off ->
  BookBody.appointmentDate body + off < now ->
  BookAppointment now user body st
  = (Fail 400 "Cannot book appointments in the past", st) /\
  errorOf (fst (BookAppointment now user body st)) = Some PastDateError.
Proof.
  intros Hu Hs He Hd Ha Hap Hoff Hlt.
  assert (0 <= off) as Hpos
    by (destruct Hoff as [-> | Hoff];
        [lia | exact (specStartOffset_nonneg _ _ Hoff)]).
  assert (BookAppointment now user body st
          = (Fail 400 "Cannot book appointments in the past", st)) as E.
  { unfold BookAppointment. rewrite Hu. simpl.
    apply String.eqb_neq in Hs. apply String.eqb_neq in He.
    rewrite Hs, He. simpl. rewrite Hd, Ha, Hap. simpl.
    assert ((BookBody.appointmentDate body <? now) = true) as ->
      by (apply Z.ltb_lt; lia).
    reflexivity. }
  rewrite E. split; reflexivity.
Qed.

Lemma past_date_refused_witness :
  let st :=
    run Clinic.store
      [Book (Clinic.sundayNoon - 3 * msPerDay) Clinic.bob
         (Clinic.request Clinic.drWho (Clinic.monday - 2 * msPerDay)
            "09:00" "09:30")] in
  let free :=
    Clinic.request Clinic.drWho (Clinic.monday - 2 * msPerDay)
      "10:00" "10:30" in
  let taken :=
    Clinic.request Clinic.drWho (Clinic.monday - 2 * msPerDay)
      "09:00" "09:30" in
  List.length (appointments st) = 1%nat /\
  (BookAppointment Clinic.sundayNoon Clinic.alice free st
   = (Fail 400 "Cannot book appointments in the past", st) /\
   errorOf (fst (BookAppointment Clinic.sundayNoon Clinic.alice free st))
   = Some PastDateError) /\
  (BookAppointment Clinic.sundayNoon Clinic.alice taken st
   = (Fail 400 "Cannot book appointments in the past", st) /\
   errorOf (fst (BookAppointment Clinic.sundayNoon Clinic.alice taken st))
   = Some PastDateError).
Proof.
  intros st free taken.
  pose (who := {| Doctor.userId := 2;
                  Doctor.availability := Clinic.whoSlots;
                  Doctor.rating := 0; Doctor.totalRatings := 0;
                  Doctor.totalAppointments := 1 |}).
  split; [reflexivity|]. split.
  - apply (past_date_refused Clinic.sundayNoon Clinic.alice free st who
             Clinic.drWho 36000000);
      [reflexivity | discriminate | discriminate | reflexivity | reflexivity
      | reflexivity | right; reflexivity | vm_compute; reflexivity].
  - apply (past_date_refused Clinic.sundayNoon Clinic.alice taken st who
             Clinic.drWho 0);
      [reflexivity | discriminate | discriminate | reflexivity | reflexivity
      | reflexivity | left; reflexivity | vm_compute; reflexivity].
Defined.

(** C6. Evaluation at the failing input: the account of drGone is approved
    but deactivated; a booking with that doctor is answered 201 and the
    confirmed appointment is in the ledger. *)
Theorem inactive_doctor_is_booked :
  let r :=
    BookAppointment Clinic.sundayNoon Clinic.alice
      (Clinic.request Clinic.drGone Clinic.monday "09:00" "09:30")
      Clinic.store in
  User.findById (users Clinic.store) 5 = Some Clinic.drGone /\
  User.isApproved Clinic.drGone = true /\
  User.isActive Clinic.drGone = false /\
  succeeded (fst r) = true /\
  errorOf (fst r) = None /\
  map (fun a => (Appointment.doctorId a, Appointment.status a))
    (appointments (snd r)) = [(5, confirmed)].
Proof.
  vm_compute. repeat split.
Qed.

(** The half of C6 that the handler does implement: a doctor whose account
    is not approved cannot be booked. *)
Lemma unapproved_doctor_refused now user body st doctor account :
  authorize Role.patient user = true ->
  TimeSlot.startTime (BookBody.timeSlot body) <> "" ->
  TimeSlot.endTime (BookBody.timeSlot body) <> "" ->
  Doctor.findOne (doctors st) (BookBody.doctorId body) = Some doctor ->
  User.findById (users st) (Doctor.userId doctor) = Some account ->
  User.isApproved account = false ->
  BookAppointment now user body st
  = (Fail 400 "Doctor is not approved yet", st).
Proof.
  intros Hu Hs He Hd Ha Hap.
  unfold BookAppointment. rewrite Hu. simpl.
  apply String.eqb_neq in Hs. apply String.eqb_neq in He.
  rewrite Hs, He. simpl. now rewrite Hd, Ha, Hap.
Qed.

(** C10. A cancel request that is let through on a confirmed appointment
    answers 200 with the appointment as stored afterwards: its status is
    cancelled, its cancel reason is the (trimmed) reason of the request, and
    its identifier, patient, doctor, date, time slot, symptoms, notes and
    prescription are those it had; every other appointment and the rest of
    the store are untouched. *)
Theorem cancel_frame (st : Store) (user : User.t) (id : ObjectId)
    (reason : option string) (a : Appointment.t) :
  Appointment.findById (appointments st) id = Some a ->
  Appointment.status a = confirmed ->
  cancelAccess user a st = Allowed ->
  exists a' st',
    CancelAppointment user id reason st = (Json 200 a', st') /\
    Appointment.findById (appointments st') id = Some a' /\
    Appointment.status a' = cancelled /\
    Appointment.cancelReason a' = option_map trim reason /\
    Appointment._id a' = Appointment._id a /\
    Appointment.patientId a' = Appointment.patientId a /\
    Appointment.doctorId a' = Appointment.doctorId a /\
    Appointment.appointmentDate a' = Appointment.appointmentDate a /\
    Appointment.timeSlot a' = Appointment.timeSlot a /\
    Appointment.symptoms a' = Appointment.symptoms a /\
    Appointment.notes a' = Appointment.notes a /\
    Appointment.prescription a' = Appointment.prescription a /\
    (forall other, other <> id ->
       Appointment.findById (appointments st') other
       = Appointment.findById (appointments st) other) /\
    List.length (appointments st') = List.length (appointments st) /\
    users st' = users st /\ doctors st' = doctors st /\
    feedbacks st' = feedbacks st /\ nextId st' = nextId st.
Proof.
  intros Hf Hs Ha.
  pose proof (LedgerFacts.findById_id _ _ _ Hf) as Hid.
  exists (Appointment.set_cancelled a reason).
  exists (with_appointments st
            (Appointment.save (appointments st)
               (Appointment.set_cancelled a reason))).
  split.
  { unfold CancelAppointment. now rewrite Hf, Ha, Hs. }
  split.
  { pose proof (save_findById_same (appointments st) a
                  (Appointment.set_cancelled a reason)) as H.
    change (Appointment._id (Appointment.set_cancelled a reason))
      with (Appointment._id a) in H.
    rewrite Hid in H. exact (H Hf). }
  do 10 (split; [reflexivity|]).
  split.
  { intros other Hne. simpl. apply save_findById_other. simpl. lia. }
  split; [apply save_length | repeat split].
Qed.

Lemma cancel_frame_witness :
  let st :=
    run Clinic.store
      [Book Clinic.sundayNoon Clinic.bob
         (Clinic.request Clinic.drWho Clinic.monday "10:00" "10:30");
       Book Clinic.sundayNoon Clinic.alice
         (Clinic.request Clinic.drWho Clinic.monday "09:00" "09:30")] in
  exists a a' st',
    Appointment.findById (appointments st) 101 = Some a /\
    CancelAppointment Clinic.alice 101 (Some " flu ") st = (Json 200 a', st') /\
    Appointment.status a' = cancelled /\
    Appointment.cancelReason a' = Some "flu" /\
    Appointment.patientId a' = Appointment.patientId a /\
    Appointment.doctorId a' = Appointment.doctorId a /\
    Appointment.appointmentDate a' = Appointment.appointmentDate a /\
    Appointment.timeSlot a' = Appointment.timeSlot a /\
    Appointment.symptoms a' = Appointment.symptoms a /\
    Appointment.notes a' = Appointment.notes a /\
    Appointment.prescription a' = Appointment.prescription a.
Proof.
  intros st.
  destruct (Appointment.findById (appointments st) 101) as [a|] eqn:Hf;
    [|discriminate].
  assert (Appointment.status a = confirmed) as Hs
    by (revert Hf; vm_compute; now intros [= <-]).
  assert (cancelAccess Clinic.alice a st = Allowed) as Ha
    by (revert Hf; vm_compute; now intros [= <-]).
  destruct (cancel_frame st Clinic.alice 101 (Some " flu ") a Hf Hs Ha)
    as (a' & st' & H1 & _ & H3 & H4 & _ & H6 & H7 & H8 & H9 & H10 & H11
        & H12 & _).
  exists a, a', st'. tauto.
Defined.

(** ** Rating aggregator *)

Module AggregateFacts.
Import Aggregate.

Lemma saveRating_inv s d s' :
  saveRating s d = Some s' ->
  Doctor.validRating (Doctor.rating d) = true /\
  s' = with_doctors s (Doctor.replace (doctors s) d).
Proof.
  unfold saveRating.
  destruct (Doctor.validRating (Doctor.rating d)); [|discriminate].
  now intros [= <-].
Qed.

Lemma saveRating_ok s d s' :
  saveRating s d = Some s' ->
  Forall ok (doctors s) ->
  0 < Doctor.totalRatings d \/
  (Doctor.totalRatings d = 0 /\ Doctor.rating d = 0%float) ->
  Forall ok (doctors s').
Proof.
  intros Hs Hok Hc. apply saveRating_inv in Hs. destruct Hs as [Hv ->].
  simpl. apply Doctor_replace_Forall; [assumption|].
  unfold ok. split; [assumption|]. split; [lia|].
  intros H0. destruct Hc as [Hc | [_ Hc]]; [lia | assumption].
Qed.

Lemma found_ok l u d : Forall ok l -> Doctor.findOne l u = Some d -> ok d.
Proof.
  intros Hok Hf. apply find_In in Hf. destruct Hf as [Hin _].
  rewrite Forall_forall in Hok. now apply Hok.
Qed.

Section Steps.

Variable st : Store.
Hypothesis Hok : Forall ok (doctors st).

Lemma Book_ok now user body :
  Forall ok (doctors (snd (BookAppointment now user body st))).
Proof.
  handler BookAppointment; auto.
  apply Doctor_replace_Forall; [assumption|].
  match goal with H : Doctor.findOne _ _ = Some ?d |- _ =>
    destruct (found_ok _ _ _ Hok H) as (H1 & H2 & H3) end.
  repeat split; assumption.
Qed.

Lemma Cancel_ok user id reason :
  Forall ok (doctors (snd (CancelAppointment user id reason st))).
Proof. handler CancelAppointment; auto. Qed.

Lemma Complete_ok user id n p :
  Forall ok (doctors (snd (CompleteAppointment user id n p st))).
Proof. handler CompleteAppointment; auto. Qed.

Lemma Submit_ok user body :
  Forall ok (doctors (snd (SubmitFeedback user body st))).
Proof.
  handler SubmitFeedback; auto.
  match goal with
  | H : saveRating _ _ = Some _, F : Doctor.findOne _ _ = Some _ |- _ =>
      apply (saveRating_ok _ _ _ H); [exact Hok|];
      destruct (found_ok _ _ _ Hok F) as (_ & H2 & _)
  end.
  left. simpl. lia.
Qed.

Lemma Update_ok user id r c :
  Forall ok (doctors (snd (UpdateFeedback user id r c st))).
Proof.
  handler UpdateFeedback; auto;
  match goal with
  | H : saveRating _ _ = Some _, L : (0 <? _) = true |- _ =>
      apply (saveRating_ok _ _ _ H); [exact Hok|];
      apply Z.ltb_lt in L
  end;
  left; simpl; assumption.
Qed.

Lemma Delete_ok user id :
  Forall ok (doctors (snd (DeleteFeedback user id st))).
Proof.
  handler DeleteFeedback; auto.
  match goal with
  | H : saveRating _ _ = Some _, R : RemoveRating _ _ = Some _ |- _ =>
      apply (saveRating_ok _ _ _ H); [exact Hok|];
      unfold RemoveRating in R; revert R
  end.
  destruct (1 <? _) eqn:L1.
  - intros [= <-]. apply Z.ltb_lt in L1. left. simpl. lia.
  - destruct (_ =? 1); [|discriminate].
    intros [= <-]. right. split; reflexivity.
Qed.

End Steps.

Lemma step_ok st r : Forall ok (doctors st) -> Forall ok (doctors (step st r)).
Proof.
  intros Hok.
  destruct r as [now u b|u id c|u id n p|d date|u b|u id r c|u id]; simpl.
  - now apply Book_ok.
  - now apply Cancel_ok.
  - now apply Complete_ok.
  - now rewrite Resolve_pure.
  - now apply Submit_ok.
  - now apply Update_ok.
  - now apply Delete_ok.
Qed.

Lemma initial_ok st : initial st -> Forall ok (doctors st).
Proof.
  intros (_ & _ & H). eapply Forall_impl; [|exact H].
  intros d [Hr Hc]. unfold ok. rewrite Hr, Hc.
  split; [reflexivity|]. split; [lia | reflexivity].
Qed.

End AggregateFacts.

(** C9, as the claim states it, fails: after three ratings (1, 1, 2), nine
    updates and two deletions, all with ratings in 1..5, one feedback of
    rating 1 is left and the doctor's stored mean is 0 with count 1.  Each
    write rounds the mean to one decimal and the next write starts from the
    rounded value, so the stored mean drifts away from the true mean. *)
Lemma mean_zero_with_count_one :
  let drift :=
    [Submit Clinic.alice (Clinic.rate 100 1);
     Submit Clinic.alice (Clinic.rate 101 1);
     Submit Clinic.alice (Clinic.rate 102 2);
     Update Clinic.alice 104 (Some 2) None;
     Update Clinic.alice 105 (Some 2) None;
     Update Clinic.alice 104 (Some 3) None;
     Update Clinic.alice 105 (Some 3) None;
     Update Clinic.alice 106 (Some 3) None;
     Update Clinic.alice 104 (Some 1) None;
     Update Clinic.alice 104 (Some 2) None;
     Update Clinic.alice 104 (Some 3) None;
     Update Clinic.alice 104 (Some 1) None;
     Delete Clinic.alice 105;
     Delete Clinic.alice 106] in
  let st := run Clinic.store (Clinic.visits ++ drift) in
  Reachable st /\
  map Clinic.aggregate (history (run Clinic.store Clinic.visits) drift)
  = map Some
      [(1%float, 1); (1%float, 2); (1.3%float, 3); (1.6%float, 3);
       (1.9%float, 3); (2.2%float, 3); (2.5%float, 3); (2.8%float, 3);
       (2.1%float, 3); (2.4%float, 3); (2.7%float, 3); (2%float, 3);
       (1.5%float, 2); (0%float, 1)] /\
  map Feedback.rating (feedbacks st) = [1] /\
  Clinic.aggregate st = Some (0%float, 1) /\
  ~ (forall d, In d (doctors st) ->
       (Doctor.rating d = 0%float <-> Doctor.totalRatings d = 0)).
Proof.
  intros drift st.
  split; [apply Clinic_run_reachable|].
  split; [vm_compute; reflexivity|].
  split; [vm_compute; reflexivity|].
  split; [vm_compute; reflexivity|].
  intros H.
  destruct (Doctor.findOne (doctors st) 2) as [d|] eqn:Hd;
    [|revert Hd; vm_compute; discriminate].
  pose proof (find_In _ _ _ Hd) as [Hin _].
  specialize (H d Hin).
  assert (Doctor.rating d = 0%float /\ Doctor.totalRatings d = 1) as [H0 H1]
    by (revert Hd; vm_compute; intros [= <-]; split; reflexivity).
  apply H in H0. lia.
Qed.

(** C9, amended. In every reachable state every doctor's stored mean lies
    within [0, 5] and the stored count is at least 0, and a count of 0
    comes with a mean of 0.  (A mean of 0 with a positive count is
    possible, see above.) *)
Theorem rating_bounds (st : Store) :
  Reachable st ->
  forall d, In d (doctors st) ->
    (PrimFloat.leb 0 (Doctor.rating d) = true /\
     PrimFloat.leb (Doctor.rating d) 5 = true) /\
    0 <= Doctor.totalRatings d /\
    (Doctor.totalRatings d = 0 -> Doctor.rating d = 0%float).
Proof.
  intros Hr.
  assert (Forall Aggregate.ok (doctors st)) as Hok.
  { induction Hr as [st Hi | st r _ IH].
    - now apply AggregateFacts.initial_ok.
    - now apply AggregateFacts.step_ok. }
  intros d Hin. rewrite Forall_forall in Hok.
  destruct (Hok d Hin) as (Hv & Hc & Hz).
  unfold Doctor.validRating in Hv. apply andb_true_iff in Hv.
  repeat split; tauto.
Qed.

Lemma rating_bounds_witness :
  let st :=
    run Clinic.store
      (Clinic.visits ++
       [Submit Clinic.alice (Clinic.rate 100 5);
        Submit Clinic.alice (Clinic.rate 101 4);
        Update Clinic.alice 104 (Some 2) None;
        Delete Clinic.alice 105]) in
  Reachable st /\
  Clinic.aggregate st = Some (2%float, 1) /\
  forall d, In d (doctors st) ->
    (PrimFloat.leb 0 (Doctor.rating d) = true /\
     PrimFloat.leb (Doctor.rating d) 5 = true) /\
    0 <= Doctor.totalRatings d /\
    (Doctor.totalRatings d = 0 -> Doctor.rating d = 0%float).
Proof.
  intros st. split; [apply Clinic_run_reachable|].
  split; [vm_compute; reflexivity|].
  apply (rating_bounds st), Clinic_run_reachable.
Defined.

Lemma find_none_existsb {A} (p : A -> bool) (l : list A) :
  find p l = None -> existsb p l = false.
Proof.
  induction l as [|x l IH]; simpl; [reflexivity|].
  destruct (p x); [discriminate | exact IH].
Qed.

Lemma find_app_fresh {A} (p : A -> bool) (l : list A) (x : A) :
  find p l = None -> p x = true -> find p (l ++ [x]) = Some x.
Proof.
  intros Hn Hx. induction l as [|y l IH]; simpl in *.
  - now rewrite Hx.
  - destruct (p y); [discriminate | now apply IH].
Qed.

Lemma delete_app_fresh l (f : Feedback.t) :
  Feedback.findById l (Feedback._id f) = None ->
  Feedback.delete (l ++ [f]) (Feedback._id f) = l.
Proof.
  unfold Feedback.findById. induction l as [|y l IH]; simpl.
  - now rewrite Z.eqb_refl.
  - destruct (Feedback._id y =? Feedback._id f); [discriminate|].
    intros H. now rewrite IH.
Qed.

Lemma Submit_created st user body appointment doctor fb st1 :
  Appointment.findById (appointments st) (FeedbackBody.appointmentId body)
  = Some appointment ->
  Doctor.findOne (doctors st) (Appointment.doctorId appointment)
  = Some doctor ->
  SubmitFeedback user body st = (Json 201 fb, st1) ->
  authorize Role.patient user = true /\
  fb = submitted st user body appointment /\
  Doctor.validRating
    (Doctor.rating (AddRating doctor (FeedbackBody.rating body))) = true /\
  st1 = with_doctors
          (fresh (with_feedbacks st (feedbacks st ++ [fb])))
          (Doctor.replace (doctors st)
             (AddRating doctor (FeedbackBody.rating body))).
Proof.
  intros Hap Hd. unfold SubmitFeedback. rewrite Hap. cbv zeta.
  fold (submitted st user body appointment).
  destruct (authorize Role.patient user); simpl; [|discriminate].
  destruct (ratingInRange _); simpl; [|discriminate].
  destruct (Appointment.patientId appointment =? User._id user); simpl;
    [|discriminate].
  destruct (Status_eqb _ _); simpl; [|discriminate].
  destruct (Feedback.findOne _ _); [discriminate|].
  destruct (Feedback.valid _); simpl; [|discriminate].
  unfold Feedback.insert. destruct (existsb _ _); [discriminate|].
  simpl. rewrite Hd.
  destruct (saveRating _ _) as [st2|] eqn:Hs; [|discriminate].
  apply AggregateFacts.saveRating_inv in Hs. destruct Hs as [Hv ->].
  intros [= <- <-]. auto.
Qed.

(** C7. When a patient's rating r in 1..5 for a completed appointment of
    theirs is accepted (no earlier feedback for the appointment, comment
    within the schema's length, the new mean within the schema's bounds),
    the answer is 201 and the doctor's count becomes oldCount + 1 and the
    mean becomes (oldMean * oldCount + r) / (oldCount + 1) rounded once,
    after the division, to one decimal place. *)
Theorem SubmitFeedback_aggregate (st : Store) (user : User.t)
    (body : FeedbackBody.t) (appointment : Appointment.t)
    (doctor : Doctor.t) :
  let r := FeedbackBody.rating body in
  let oldMean := Doctor.rating doctor in
  let oldCount := Doctor.totalRatings doctor in
  let newMean :=
    roundTenth ((oldMean * Z2F oldCount + Z2F r) / Z2F (oldCount + 1))%float in
  authorize Role.patient user = true ->
  1 <= r <= 5 ->
  Appointment.findById (appointments st) (FeedbackBody.appointmentId body)
  = Some appointment ->
  Appointment.patientId appointment = User._id user ->
  Appointment.status appointment = completed ->
  Feedback.findOne (feedbacks st) (FeedbackBody.appointmentId body) = None ->
  match FeedbackBody.comment body with
  | Some c => (jsLength (trim c) <= 500)%nat
  | None => True
  end ->
  Doctor.findOne (doctors st) (Appointment.doctorId appointment)
  = Some doctor ->
  Doctor.validRating newMean = true ->
  exists fb st',
    SubmitFeedback user body st = (Json 201 fb, st') /\
    exists doctor',
      Doctor.findOne (doctors st') (Appointment.doctorId appointment)
      = Some doctor' /\
      Doctor.totalRatings doctor' = oldCount + 1 /\
      Doctor.rating doctor' = newMean.
Proof.
  intros r oldMean oldCount newMean Hu Hr Hap Hp Hs Hf Hc Hd Hv.
  exists (submitted st user body appointment).
  exists (with_doctors
            (fresh (with_feedbacks st
                      (feedbacks st ++ [submitted st user body appointment])))
            (Doctor.replace (doctors st) (AddRating doctor r))).
  split.
  - unfold SubmitFeedback. rewrite Hu, Hap. cbv zeta.
    fold (submitted st user body appointment). fold r.
    assert (ratingInRange r = true) as ->.
    { unfold ratingInRange. apply andb_true_iff. split; apply Z.leb_le; lia. }
    rewrite Hp, Z.eqb_refl, Hs, Hf. simpl.
    assert (Feedback.valid (submitted st user body appointment) = true) as ->.
    { unfold Feedback.valid. simpl. fold r.
      rewrite !andb_true_iff. repeat split; try (apply Z.leb_le; lia).
      destruct (FeedbackBody.comment body); simpl; [|reflexivity].
      now apply Nat.leb_le. }
    simpl. unfold Feedback.insert.
    assert (existsb
              (fun g =>
                 Feedback.appointmentId g
                 =? Feedback.appointmentId
                      (submitted st user body appointment))
              (feedbacks st) = false) as ->
      by apply (find_none_existsb _ _ Hf).
    simpl. rewrite Hd.
    unfold saveRating.
    change (Doctor.rating (AddRating doctor r)) with newMean.
    rewrite Hv. reflexivity.
  - exists (AddRating doctor r). split; [|split; reflexivity].
    simpl. rewrite <- (Doctor_findOne_userId _ _ _ Hd).
    change (Doctor.userId doctor) with (Doctor.userId (AddRating doctor r)).
    apply (Doctor_findOne_replace _ _ doctor). simpl.
    now rewrite (Doctor_findOne_userId _ _ _ Hd).
Qed.

Lemma SubmitFeedback_aggregate_witness :
  let st :=
    run Clinic.store
      (Clinic.visits ++
       [Submit Clinic.alice (Clinic.rate 100 4);
        Submit Clinic.alice (Clinic.rate 101 4)]) in
  Clinic.aggregate st = Some (4%float, 2) /\
  exists fb st',
    SubmitFeedback Clinic.alice (Clinic.rate 102 5) st = (Json 201 fb, st') /\
    exists doctor',
      Doctor.findOne (doctors st') 2 = Some doctor' /\
      Doctor.totalRatings doctor' = 3 /\
      Doctor.rating doctor' = 4.3%float.
Proof.
  intros st. split; [vm_compute; reflexivity|].
  pose (ap := {| Appointment._id := 102; Appointment.patientId := 1;
                 Appointment.doctorId := 2;
                 Appointment.appointmentDate := Clinic.monday;
                 Appointment.timeSlot :=
                   {| TimeSlot.startTime := "11:00";
                      TimeSlot.endTime := "11:30" |};
                 Appointment.status := completed;
                 Appointment.symptoms := Some "cough";
                 Appointment.notes := Some "better";
                 Appointment.prescription := "";
                 Appointment.cancelReason := None |}).
  pose (who := {| Doctor.userId := 2; Doctor.availability := Clinic.whoSlots;
                  Doctor.rating := 4; Doctor.totalRatings := 2;
                  Doctor.totalAppointments := 4 |}).
  apply (SubmitFeedback_aggregate st Clinic.alice (Clinic.rate 102 5) ap who);
    try (vm_compute; reflexivity); try (simpl; lia); try exact I.
Defined.

(** C8, as the claim states it, fails: a doctor with three ratings of 4
    (mean 4.0, count 3) who receives a rating of 1 and has it deleted at
    once ends with mean 4.1, count 3; and the doctor of the specification's
    own scenario (mean 4.0, count 2, new rating 5) ends with mean 3.9. *)
Lemma add_then_remove_changes_mean :
  let st3 :=
    run Clinic.store
      (Clinic.visits ++
       [Submit Clinic.alice (Clinic.rate 100 4);
        Submit Clinic.alice (Clinic.rate 101 4);
        Submit Clinic.alice (Clinic.rate 102 4)]) in
  let st2 :=
    run Clinic.store
      (Clinic.visits ++
       [Submit Clinic.alice (Clinic.rate 100 4);
        Submit Clinic.alice (Clinic.rate 101 4)]) in
  (Clinic.aggregate st3 = Some (4%float, 3) /\
   fst (SubmitFeedback Clinic.alice (Clinic.rate 103 1) st3)
   = Json 201 (submitted st3 Clinic.alice (Clinic.rate 103 1)
                 {| Appointment._id := 103; Appointment.patientId := 1;
                    Appointment.doctorId := 2;
                    Appointment.appointmentDate := Clinic.monday;
                    Appointment.timeSlot :=
                      {| TimeSlot.startTime := "12:00";
                         TimeSlot.endTime := "12:30" |};
                    Appointment.status := completed;
                    Appointment.symptoms := Some "cough";
                    Appointment.notes := None;
                    Appointment.prescription := "";
                    Appointment.cancelReason := None |}) /\
   map Clinic.aggregate
     (history st3
        [Submit Clinic.alice (Clinic.rate 103 1); Delete Clinic.alice 107])
   = [Some (3.3%float, 4); Some (4.1%float, 3)]) /\
  (Clinic.aggregate st2 = Some (4%float, 2) /\
   map Clinic.aggregate
     (history st2
        [Submit Clinic.alice (Clinic.rate 102 5); Delete Clinic.alice 106])
   = [Some (4.3%float, 3); Some (3.9%float, 2)]).
Proof.
  vm_compute. repeat split.
Qed.

(** The delete handler once the feedback and the doctor are found. *)
Lemma Delete_found st user id fb doctor :
  authorize Role.patient user = true ->
  Feedback.findById (feedbacks st) id = Some fb ->
  Feedback.patientId fb = User._id user ->
  Doctor.findOne (doctors st) (Feedback.doctorId fb) = Some doctor ->
  DeleteFeedback user id st
  = match RemoveRating doctor (Feedback.rating fb) with
    | None =>
        (Json 200 "Feedback deleted successfully",
         with_feedbacks st (Feedback.delete (feedbacks st) id))
    | Some doctor' =>
        match saveRating st doctor' with
        | None => (Fail 500 "Server error deleting feedback", st)
        | Some s =>
            (Json 200 "Feedback deleted successfully",
             with_feedbacks s (Feedback.delete (feedbacks s) id))
        end
    end.
Proof.
  intros Hu Hf Hp Hd. unfold DeleteFeedback.
  rewrite Hu, Hf, Hp, Z.eqb_refl, Hd. reflexivity.
Qed.

(** Deleting the feedback that was just accepted: the handler reaches the
    doctor's aggregate as the submission left it. *)
Lemma Delete_after_Submit st user body appointment doctor fb st1 :
  Appointment.findById (appointments st) (FeedbackBody.appointmentId body)
  = Some appointment ->
  Doctor.findOne (doctors st) (Appointment.doctorId appointment)
  = Some doctor ->
  Feedback.findById (feedbacks st) (nextId st) = None ->
  SubmitFeedback user body st = (Json 201 fb, st1) ->
  let added := AddRating doctor (FeedbackBody.rating body) in
  Doctor.findOne (doctors st1) (Appointment.doctorId appointment)
  = Some added /\
  feedbacks st1 = feedbacks st ++ [fb] /\
  Feedback.delete (feedbacks st1) (Feedback._id fb) = feedbacks st /\
  DeleteFeedback user (Feedback._id fb) st1
  = match RemoveRating added (FeedbackBody.rating body) with
    | None =>
        (Json 200 "Feedback deleted successfully",
         with_feedbacks st1 (feedbacks st))
    | Some doctor' =>
        match saveRating st1 doctor' with
        | None => (Fail 500 "Server error deleting feedback", st1)
        | Some s =>
            (Json 200 "Feedback deleted successfully",
             with_feedbacks s (feedbacks st))
        end
    end.
Proof.
  intros Hap Hd Hfresh Hsub added.
  destruct (Submit_created _ _ _ _ _ _ _ Hap Hd Hsub) as (Hu & Hfb & Hv & Hst).
  pose proof (Doctor_findOne_userId _ _ _ Hd) as Hid.
  assert (Feedback._id fb = nextId st) as Hfid by (now subst fb).
  assert (feedbacks st1 = feedbacks st ++ [fb]) as Hfs by (now subst st1).
  assert (Doctor.findOne (doctors st1) (Appointment.doctorId appointment)
          = Some added) as Hfound.
  { subst st1. simpl. rewrite <- Hid.
    change (Doctor.userId doctor) with (Doctor.userId added).
    apply (Doctor_findOne_replace _ _ doctor). simpl. now rewrite Hid. }
  assert (Feedback.delete (feedbacks st1) (Feedback._id fb) = feedbacks st)
    as Hdel.
  { rewrite Hfs. apply delete_app_fresh. now rewrite Hfid. }
  split; [exact Hfound|]. split; [exact Hfs|]. split; [exact Hdel|].
  rewrite (Delete_found st1 user (Feedback._id fb) fb added);
    [ | exact Hu
      | rewrite Hfs; apply find_app_fresh;
        [now rewrite Hfid | apply Z.eqb_refl]
      | now subst fb
      | now subst fb ].
  assert (Feedback.rating fb = FeedbackBody.rating body) as ->
    by (now subst fb).
  destruct (RemoveRating added (FeedbackBody.rating body)) as [d'|].
  - destruct (saveRating st1 d') as [s|] eqn:Hs; [|reflexivity].
    apply AggregateFacts.saveRating_inv in Hs. destruct Hs as [_ ->].
    simpl. now rewrite Hdel.
  - now rewrite Hdel.
Qed.

(** C8, amended. Let an accepted rating [r] of a doctor with mean [m] and
    count [n] be deleted at once.  The addition has stored count [n + 1] and
    mean [m1], which is (m * n + r) / (n + 1) rounded to one decimal.  When
    the doctor had no rating before (count 0, mean 0) the deletion is saved
    and restores mean and count exactly.  With earlier ratings the deletion
    computes (m1 * (n + 1) - r) / n rounded to one decimal: when that value
    lies within the bounds 0..5 of the schema the deletion is saved, the
    count is [n] again and the stored mean is that value, the mean before
    the addition only up to the two roundings; when it lies outside, the
    deletion is refused with 500 and mean, count and feedback stay as the
    addition left them.  Whenever the deletion is saved the feedback
    collection is as before the addition. *)
Theorem add_then_remove (st : Store) (user : User.t) (body : FeedbackBody.t)
    (appointment : Appointment.t) (doctor : Doctor.t) (fb : Feedback.t)
    (st1 : Store) :
  let r := FeedbackBody.rating body in
  let m := Doctor.rating doctor in
  let n := Doctor.totalRatings doctor in
  let m1 := roundTenth ((m * Z2F n + Z2F r) / Z2F (n + 1))%float in
  let back := roundTenth ((m1 * Z2F (n + 1) - Z2F r) / Z2F n)%float in
  let k := Appointment.doctorId appointment in
  Appointment.findById (appointments st) (FeedbackBody.appointmentId body)
  = Some appointment ->
  Doctor.findOne (doctors st) k = Some doctor ->
  0 <= n ->
  (n = 0 -> m = 0%float) ->
  Feedback.findById (feedbacks st) (nextId st) = None ->
  SubmitFeedback user body st = (Json 201 fb, st1) ->
  option_map aggregateOf (Doctor.findOne (doctors st1) k) = Some (m1, n + 1) /\
  (n = 0 ->
   exists msg st2,
     DeleteFeedback user (Feedback._id fb) st1 = (Json 200 msg, st2) /\
     feedbacks st2 = feedbacks st /\
     option_map aggregateOf (Doctor.findOne (doctors st2) k) = Some (m, n)) /\
  (1 <= n -> Doctor.validRating back = true ->
   exists msg st2,
     DeleteFeedback user (Feedback._id fb) st1 = (Json 200 msg, st2) /\
     feedbacks st2 = feedbacks st /\
     option_map aggregateOf (Doctor.findOne (doctors st2) k)
     = Some (back, n)) /\
  (1 <= n -> Doctor.validRating back = false ->
   exists msg,
     DeleteFeedback user (Feedback._id fb) st1 = (Fail 500 msg, st1)).
Proof.
  intros r m n m1 back k Hap Hd Hc Hz Hfresh Hsub.
  destruct (Delete_after_Submit _ _ _ _ _ _ _ Hap Hd Hfresh Hsub)
    as (Hfound & _ & _ & Hdel).
  pose proof (Doctor_findOne_userId _ _ _ Hd) as Hid.
  fold r k in Hfound, Hdel.
  set (added := AddRating doctor r) in *.
  assert (forall d' s,
            Doctor.userId d' = Doctor.userId doctor ->
            saveRating st1 d' = Some s ->
            Doctor.findOne (doctors s) k = Some d') as Hsaved.
  { intros d' s Hu Hs. apply AggregateFacts.saveRating_inv in Hs.
    destruct Hs as [_ ->]. simpl. rewrite <- Hid, <- Hu.
    apply (Doctor_findOne_replace _ _ added). now rewrite Hu, Hid. }
  split; [now rewrite Hfound|].
  rewrite Hdel. unfold RemoveRating.
  change (Doctor.totalRatings added) with (n + 1).
  change (Doctor.rating added) with m1.
  replace (n + 1 - 1) with n by lia. fold back.
  split; [|split].
  - intros H0.
    assert ((1 <? n + 1) = false) as -> by (apply Z.ltb_ge; lia).
    assert ((n + 1 =? 1) = true) as -> by (apply Z.eqb_eq; lia).
    destruct (saveRating st1 (set_rating added 0 0)) as [s|] eqn:Hs;
      [|discriminate Hs].
    do 2 eexists. split; [reflexivity|]. split; [reflexivity|].
    cbn [doctors with_feedbacks].
    erewrite Hsaved; [| |exact Hs]; [|reflexivity].
    unfold aggregateOf. simpl. f_equal.
    f_equal; [symmetry; exact (Hz H0) | symmetry; exact H0].
  - intros Hn Hv.
    assert ((1 <? n + 1) = true) as -> by (apply Z.ltb_lt; lia).
    destruct (saveRating st1 (set_rating added back n)) as [s|] eqn:Hs.
    + do 2 eexists. split; [reflexivity|]. split; [reflexivity|].
      cbn [doctors with_feedbacks].
      erewrite Hsaved; [| |exact Hs]; reflexivity.
    + unfold saveRating in Hs. simpl in Hs. rewrite Hv in Hs. discriminate.
  - intros Hn Hv.
    assert ((1 <? n + 1) = true) as -> by (apply Z.ltb_lt; lia).
    unfold saveRating. simpl. rewrite Hv. eexists. reflexivity.
Qed.

Lemma add_then_remove_witness :
  let rated (l : list Z) :=
    run Clinic.store
      (Clinic.visits ++
       map (fun p => Submit Clinic.alice (Clinic.rate (fst p) (snd p)))
         (combine [100; 101] l)) in
  let added r st := step st (Submit Clinic.alice (Clinic.rate 102 r)) in
  (Clinic.aggregate (rated []) = Some (0%float, 0) /\
   Clinic.aggregate (added 3 (rated [])) = Some (3%float, 1) /\
   exists msg st2,
     DeleteFeedback Clinic.alice 104 (added 3 (rated []))
     = (Json 200 msg, st2) /\
     feedbacks st2 = feedbacks (rated []) /\
     option_map aggregateOf (Doctor.findOne (doctors st2) 2)
     = Some (0%float, 0)) /\
  (Clinic.aggregate (rated [4; 4]) = Some (4%float, 2) /\
   Clinic.aggregate (added 5 (rated [4; 4])) = Some (4.3%float, 3) /\
   exists msg st2,
     DeleteFeedback Clinic.alice 106 (added 5 (rated [4; 4]))
     = (Json 200 msg, st2) /\
     feedbacks st2 = feedbacks (rated [4; 4]) /\
     option_map aggregateOf (Doctor.findOne (doctors st2) 2)
     = Some (3.9%float, 2)) /\
  (Clinic.aggregate (rated [5; 5]) = Some (5%float, 2) /\
   Clinic.aggregate (added 1 (rated [5; 5])) = Some (3.7%float, 3) /\
   exists msg,
     DeleteFeedback Clinic.alice 106 (added 1 (rated [5; 5]))
     = (Fail 500 msg, added 1 (rated [5; 5]))).
Proof.
  intros rated added. split; [|split].
  - split; [vm_compute; reflexivity|]. split; [vm_compute; reflexivity|].
    let a := eval vm_compute in
               (Appointment.findById (appointments (rated [])) 102) in
    let d := eval vm_compute in (Doctor.findOne (doctors (rated [])) 2) in
    match constr:((a, d)) with
    | (Some ?ap, Some ?who) =>
        destruct (add_then_remove (rated []) Clinic.alice
                    (Clinic.rate 102 3) ap who
                    (submitted (rated []) Clinic.alice
                       (Clinic.rate 102 3) ap)
                    (added 3 (rated []))) as (_ & H & _);
        [ vm_compute; reflexivity | vm_compute; reflexivity
        | simpl; lia | simpl; (lia || reflexivity)
        | vm_compute; reflexivity | vm_compute; reflexivity | ]
    end.
    destruct H as (msg & st2 & H1 & H2 & H3); [reflexivity|].
    exists msg, st2. split; [exact H1|]. split; [exact H2|].
    refine (eq_trans H3 _). vm_compute. reflexivity.
  - split; [vm_compute; reflexivity|]. split; [vm_compute; reflexivity|].
    let a := eval vm_compute in
               (Appointment.findById (appointments (rated [4; 4])) 102) in
    let d := eval vm_compute in (Doctor.findOne (doctors (rated [4; 4])) 2) in
    match constr:((a, d)) with
    | (Some ?ap, Some ?who) =>
        destruct (add_then_remove (rated [4; 4]) Clinic.alice
                    (Clinic.rate 102 5) ap who
                    (submitted (rated [4; 4]) Clinic.alice
                       (Clinic.rate 102 5) ap)
                    (added 5 (rated [4; 4]))) as (_ & _ & H & _);
        [ vm_compute; reflexivity | vm_compute; reflexivity
        | simpl; lia | simpl; (lia || reflexivity)
        | vm_compute; reflexivity | vm_compute; reflexivity | ]
    end.
    destruct H as (msg & st2 & H1 & H2 & H3); 
      [simpl; lia | vm_compute; reflexivity |].
    exists msg, st2. split; [exact H1|]. split; [exact H2|].
    refine (eq_trans H3 _). vm_compute. reflexivity.
  - split; [vm_compute; reflexivity|]. split; [vm_compute; reflexivity|].
    let a := eval vm_compute in
               (Appointment.findById (appointments (rated [5; 5])) 102) in
    let d := eval vm_compute in (Doctor.findOne (doctors (rated [5; 5])) 2) in
    match constr:((a, d)) with
    | (Some ?ap, Some ?who) =>
        destruct (add_then_remove (rated [5; 5]) Clinic.alice
                    (Clinic.rate 102 1) ap who
                    (submitted (rated [5; 5]) Clinic.alice
                       (Clinic.rate 102 1) ap)
                    (added 1 (rated [5; 5]))) as (_ & _ & _ & H);
        [ vm_compute; reflexivity | vm_compute; reflexivity
        | simpl; lia | simpl; (lia || reflexivity)
        | vm_compute; reflexivity | vm_compute; reflexivity | ]
    end.
    destruct H as (msg & H1); [simpl; lia | vm_compute; reflexivity |].
    exists msg. exact H1.
Defined.

(** * Further properties *)

(** ** Bookings, cancellations and completions *)

Lemma Book_inv now user body st r st' :
  BookAppointment now user body st = (r, st') ->
  (succeeded r = false /\ st' = st) \/
  exists doctor,
    Doctor.findOne (doctors st) (BookBody.doctorId body) = Some doctor /\
    r = Json 201 (newAppointment st user body) /\
    appointments st' = appointments st ++ [newAppointment st user body] /\
    doctors st'
    = Doctor.replace (doctors st)
        {| Doctor.userId := Doctor.userId doctor;
           Doctor.availability := Doctor.availability doctor;
           Doctor.rating := Doctor.rating doctor;
           Doctor.totalRatings := Doctor.totalRatings doctor;
           Doctor.totalAppointments := Doctor.totalAppointments doctor + 1 |} /\
    users st' = users st /\ feedbacks st' = feedbacks st /\
    nextId st' = nextId st + 1.
Proof.
  unfold BookAppointment, Appointment.insert. cbv zeta.
  fold (newAppointment st user body).
  repeat break_match; intros [= <- <-]; auto.
  match goal with
  | H : (if ?c then None else Some _) = Some _ |- _ =>
      destruct c; [discriminate | injection H as <-]
  end.
  right. eexists. split; [reflexivity|]. repeat split.
Qed.

Lemma Cancel_inv user id reason st r st' :
  CancelAppointment user id reason st = (r, st') ->
  (succeeded r = false /\ st' = st) \/
  exists a,
    Appointment.findById (appointments st) id = Some a /\
    cancelAccess user a st = Allowed /\
    Appointment.active a = true /\
    r = Json 200 (Appointment.set_cancelled a reason) /\
    st' = with_appointments st
            (Appointment.save (appointments st)
               (Appointment.set_cancelled a reason)).
Proof.
  unfold CancelAppointment.
  repeat break_match; intros [= <- <-]; auto; right; eexists;
    (split; [reflexivity|]); unfold Appointment.active;
    match goal with H : Appointment.status _ = _ |- _ => rewrite H end;
    auto.
Qed.

Lemma Complete_inv user id n p st r st' :
  CompleteAppointment user id n p st = (r, st') ->
  (succeeded r = false /\ st' = st) \/
  exists a,
    Appointment.findById (appointments st) id = Some a /\
    Appointment.doctorId a = User._id user /\
    Appointment.status a = confirmed /\
    r = Json 200 (Appointment.set_completed a n p) /\
    st' = with_appointments st
            (Appointment.save (appointments st)
               (Appointment.set_completed a n p)).
Proof.
  unfold CompleteAppointment.
  destruct (authorize Role.doctor user); simpl;
    [|intros [= <- <-]; auto].
  destruct (Appointment.findById _ _) as [a|]; [|intros [= <- <-]; auto].
  destruct (Appointment.doctorId a =? User._id user) eqn:E; simpl;
    [|intros [= <- <-]; auto].
  destruct (Appointment.status a) eqn:S; simpl; intros [= <- <-]; auto.
  right. exists a. apply Z.eqb_eq in E. auto.
Qed.

Lemma Doctor_findOne_replace_other l d u :
  u <> Doctor.userId d ->
  Doctor.findOne (Doctor.replace l d) u = Doctor.findOne l u.
Proof.
  unfold Doctor.findOne. intros Hne.
  induction l as [|x l IH]; simpl; [reflexivity|].
  destruct (Doctor.userId x =? Doctor.userId d) eqn:E; simpl.
  - apply Z.eqb_eq in E.
    assert ((Doctor.userId d =? u) = false) as -> by (apply Z.eqb_neq; lia).
    assert ((Doctor.userId x =? u) = false) as -> by (apply Z.eqb_neq; lia).
    reflexivity.
  - destruct (Doctor.userId x =? u); [reflexivity | exact IH].
Qed.

(** X1. A booking, cancel or complete request that does not succeed leaves
    the whole store as it was: no appointment is inserted or changed and no
    counter moves. *)
Theorem failed_request_changes_nothing (now : Date) (user : User.t)
    (body : BookBody.t) (id : ObjectId) (reason n p : option string)
    (st : Store) :
  (succeeded (fst (BookAppointment now user body st)) = false ->
   snd (BookAppointment now user body st) = st) /\
  (succeeded (fst (CancelAppointment user id reason st)) = false ->
   snd (CancelAppointment user id reason st) = st) /\
  (succeeded (fst (CompleteAppointment user id n p st)) = false ->
   snd (CompleteAppointment user id n p st) = st).
Proof.
  split; [|split]; intros H.
  - destruct (BookAppointment now user body st) as [r st'] eqn:E.
    destruct (Book_inv _ _ _ _ _ _ E) as [[_ ->] | (d & _ & -> & _)];
      [reflexivity | discriminate H].
  - destruct (CancelAppointment user id reason st) as [r st'] eqn:E.
    destruct (Cancel_inv _ _ _ _ _ _ E) as [[_ ->] | (a & _ & _ & _ & -> & _)];
      [reflexivity | discriminate H].
  - destruct (CompleteAppointment user id n p st) as [r st'] eqn:E.
    destruct (Complete_inv _ _ _ _ _ _ _ E)
      as [[_ ->] | (a & _ & _ & _ & -> & _)];
      [reflexivity | discriminate H].
Qed.

Lemma failed_request_changes_nothing_witness :
  let st :=
    run Clinic.store
      [Book Clinic.sundayNoon Clinic.alice
         (Clinic.request Clinic.drWho Clinic.monday "09:00" "09:30")] in
  let again := Clinic.request Clinic.drWho Clinic.monday "09:00" "09:30" in
  snd (BookAppointment Clinic.sundayNoon Clinic.bob again st) = st /\
  snd (CancelAppointment Clinic.bob 100 None st) = st /\
  snd (CompleteAppointment Clinic.drElse 100 None None st) = st.
Proof.
  intros st again.
  destruct (failed_request_changes_nothing Clinic.sundayNoon Clinic.bob
              again 100 None None None st) as (H1 & H2 & _).
  destruct (failed_request_changes_nothing Clinic.sundayNoon Clinic.drElse
              again 100 None None None st) as (_ & _ & H3).
  split; [apply H1; reflexivity|].
  split; [apply H2; reflexivity | apply H3; reflexivity].
Defined.

(** X2. A booking that succeeds answers 201 with a confirmed appointment of
    the requesting patient under a fresh identifier, appends exactly that
    appointment to the ledger, adds one to the total of the booked doctor
    and leaves that doctor's availability and rating aggregate, every other
    doctor profile, the accounts and the feedback as they were. *)
Theorem booking_effect (now : Date) (user : User.t) (body : BookBody.t)
    (st st' : Store) (code : Z) (a : Appointment.t) :
  BookAppointment now user body st = (Json code a, st') ->
  code = 201 /\
  a = newAppointment st user body /\
  appointments st' = appointments st ++ [a] /\
  nextId st' = nextId st + 1 /\
  (exists doctor doctor',
     Doctor.findOne (doctors st) (BookBody.doctorId body) = Some doctor /\
     Doctor.findOne (doctors st') (BookBody.doctorId body) = Some doctor' /\
     Doctor.totalAppointments doctor'
     = Doctor.totalAppointments doctor + 1 /\
     Doctor.availability doctor' = Doctor.availability doctor /\
     aggregateOf doctor' = aggregateOf doctor) /\
  (forall u, u <> BookBody.doctorId body ->
     Doctor.findOne (doctors st') u = Doctor.findOne (doctors st) u) /\
  users st' = users st /\ feedbacks st' = feedbacks st.
Proof.
  intros E.
  destruct (Book_inv _ _ _ _ _ _ E)
    as [[H _] | (d & Hd & Hr & Ha & Hds & Hu & Hf & Hn)]; [discriminate H|].
  injection Hr as -> ->.
  pose proof (Doctor_findOne_userId _ _ _ Hd) as Hid.
  repeat split; try assumption.
  - exists d. eexists. split; [exact Hd|]. split.
    + rewrite Hds, <- Hid.
      apply (Doctor_findOne_replace _
               {| Doctor.userId := Doctor.userId d;
                  Doctor.availability := Doctor.availability d;
                  Doctor.rating := Doctor.rating d;
                  Doctor.totalRatings := Doctor.totalRatings d;
                  Doctor.totalAppointments :=
                    Doctor.totalAppointments d + 1 |} d).
      simpl. now rewrite Hid.
    + repeat split.
  - intros u Hne. rewrite Hds. apply Doctor_findOne_replace_other.
    simpl. lia.
Qed.

Lemma booking_effect_witness :
  let body := Clinic.request Clinic.drWho Clinic.monday "09:00" "09:30" in
  let r := BookAppointment Clinic.sundayNoon Clinic.alice body Clinic.store in
  fst r = Json 201 (newAppointment Clinic.store Clinic.alice body) /\
  appointments (snd r) = [newAppointment Clinic.store Clinic.alice body] /\
  option_map Doctor.totalAppointments (Doctor.findOne (doctors (snd r)) 2)
  = Some 1 /\
  Doctor.findOne (doctors (snd r)) 4 = Doctor.findOne (doctors Clinic.store) 4.
Proof.
  intros body r.
  destruct (booking_effect Clinic.sundayNoon Clinic.alice body Clinic.store
              (snd r) 201 (newAppointment Clinic.store Clinic.alice body)
              eq_refl)
    as (_ & _ & Ha & _ & _ & Ho & _).
  split; [reflexivity|]. split; [exact Ha|]. split; [reflexivity|].
  apply Ho. discriminate.
Defined.

(** ** What the administrative requests write *)

Lemma filter_all {A} (l : list A) : filter (fun _ => true) l = l.
Proof. induction l as [|x l IH]; simpl; [reflexivity | now rewrite IH]. Qed.

Lemma deleteMany_keys {K} (key : Appointment.t -> K)
    (query : Appointment.t -> bool) (docs : list Appointment.t) :
  NoDup (map key docs) -> NoDup (map key (filter query docs)).
Proof.
  induction docs as [|a docs IH]; simpl; [auto|].
  intros H. apply NoDup_cons_iff in H. destruct H as [Hnotin Hnd].
  destruct (query a); simpl; [|auto].
  apply NoDup_cons; [|auto].
  rewrite in_map_iff. intros (b & Hb & Hin).
  apply filter_In in Hin. apply Hnotin.
  rewrite in_map_iff. exists b. tauto.
Qed.

Lemma Forall_filter {A} (P : A -> Prop) (p : A -> bool) (l : list A) :
  Forall P l -> Forall P (filter p l).
Proof.
  intros H. apply Forall_forall. intros x Hx. apply filter_In in Hx.
  rewrite Forall_forall in H. now apply H.
Qed.

Lemma deleteDoctor_Forall (P : Doctor.t -> Prop) l u :
  Forall P l -> Forall P (deleteDoctor l u).
Proof.
  induction 1 as [|x l Hx Hl IH]; simpl; [constructor|].
  destruct (Doctor.userId x =? u); [assumption | now constructor].
Qed.

Lemma save_Forall (P : Appointment.t -> Prop) l a :
  Forall P l -> P a -> Forall P (Appointment.save l a).
Proof.
  intros Hl Ha. induction Hl as [|x l Hx Hl IH]; simpl; [constructor|].
  destruct (Appointment._id x =? Appointment._id a); constructor; auto.
Qed.

Section AnyFacts.

Variable check : Store -> User.t -> option (Z * string).

Lemma Admin_appointments st r :
  exists p,
    appointments (stepAny check st (Admin r)) = filter p (appointments st).
Proof.
  destruct r as [u i|u i|u i|u i|u l]; simpl.
  - exists (fun _ => true). rewrite filter_all.
    handler ApproveDoctor; reflexivity.
  - exists (fun _ => true). rewrite filter_all.
    handler DeactivateUser; reflexivity.
  - exists (fun _ => true). rewrite filter_all.
    handler ActivateUser; reflexivity.
  - unfold DeleteUser.
    destruct (authorize Role.admin u); simpl;
      [|exists (fun _ => true); now rewrite filter_all].
    destruct (User.findById (users st) i) as [x|];
      [|exists (fun _ => true); now rewrite filter_all].
    destruct (User.role x); simpl; eauto.
    exists (fun _ => true); now rewrite filter_all.
  - exists (fun _ => true). rewrite filter_all.
    handler UpdateAvailability; reflexivity.
Qed.

Lemma Admin_feedbacks st r :
  feedbacks (stepAny check st (Admin r)) = feedbacks st.
Proof.
  destruct r as [u i|u i|u i|u i|u l]; simpl.
  - handler ApproveDoctor; reflexivity.
  - handler DeactivateUser; reflexivity.
  - handler ActivateUser; reflexivity.
  - handler DeleteUser; reflexivity.
  - handler UpdateAvailability; reflexivity.
Qed.

Lemma Admin_ok st r :
  Forall Aggregate.ok (doctors st) ->
  Forall Aggregate.ok (doctors (stepAny check st (Admin r))).
Proof.
  intros Hok. destruct r as [u i|u i|u i|u i|u l]; simpl.
  - handler ApproveDoctor; assumption.
  - handler DeactivateUser; assumption.
  - handler ActivateUser; assumption.
  - handler DeleteUser; try assumption. now apply deleteDoctor_Forall.
  - handler UpdateAvailability; try assumption.
    apply Doctor_replace_Forall; [assumption|].
    match goal with H : Doctor.findOne _ _ = Some _ |- _ =>
      exact (AggregateFacts.found_ok _ _ _ Hok H) end.
Qed.

Lemma ReachableAny_inv (P : Store -> Prop) :
  (forall st, initial st -> P st) ->
  (forall st r, P st -> P (step st r)) ->
  (forall st r, P st -> P (stepAny check st (Admin r))) ->
  forall st, ReachableAny check st -> P st.
Proof.
  intros Hi Hc Ha st H. induction H as [st H | st [r|r] _ IH]; auto.
  now apply Hc.
Qed.

Lemma Reachable_any st : Reachable st -> ReachableAny check st.
Proof.
  induction 1 as [st H | st r _ IH]; [now constructor|].
  exact (ReachableAny_step check st (Core r) IH).
Qed.

Lemma ReachableAny_run st rs :
  ReachableAny check st -> ReachableAny check (runAny check st rs).
Proof.
  revert st. induction rs as [|r rs IH]; intros st H; simpl; [assumption|].
  apply IH. now constructor.
Qed.

End AnyFacts.

(** ** Invariants of every run, administrative requests included *)

Lemma step_no_pending st r :
  Forall (fun a => Appointment.status a <> pending) (appointments st) ->
  Forall (fun a => Appointment.status a <> pending)
    (appointments (step st r)).
Proof.
  intros H. destruct r as [now u b|u id c|u id n p|d date|u b|u id r c|u id];
    simpl.
  - destruct (BookAppointment now u b st) as [r st'] eqn:E; cbn [snd].
    destruct (Book_inv _ _ _ _ _ _ E) as [[_ ->] | (d & _ & _ & -> & _)];
      [assumption|].
    apply Forall_app. split; [assumption|]. repeat constructor. discriminate.
  - destruct (CancelAppointment u id c st) as [r st'] eqn:E; cbn [snd].
    destruct (Cancel_inv _ _ _ _ _ _ E) as [[_ ->] | (a & _ & _ & _ & _ & ->)];
      [assumption|].
    apply save_Forall; [assumption | discriminate].
  - destruct (CompleteAppointment u id n p st) as [r st'] eqn:E; cbn [snd].
    destruct (Complete_inv _ _ _ _ _ _ _ E)
      as [[_ ->] | (a & _ & _ & _ & _ & ->)]; [assumption|].
    apply save_Forall; [assumption | discriminate].
  - now rewrite Resolve_pure.
  - now rewrite Submit_appointments.
  - now rewrite Update_appointments.
  - now rewrite Delete_appointments.
Qed.

(** X3. In every state reached from an empty ledger by bookings,
    cancellations, completions, feedback requests, approvals,
    (de)activations, account deletions and availability updates, no two
    stored appointments, whatever their status, share doctor, date and
    start time: the unique index holds of the whole collection. *)
Theorem index_unique_any_status
    (check : Store -> User.t -> option (Z * string)) (st : Store) :
  ReachableAny check st ->
  forall d date start,
    (List.length (filter (Appointment.atKey d date start) (appointments st))
     <= 1)%nat.
Proof.
  intros H d date start. apply LedgerFacts.NoDup_key_filter.
  revert st H. apply ReachableAny_inv.
  - intros st (Ha & _). rewrite Ha. constructor.
  - intros st r. apply step_keys.
  - intros st r Hnd. destruct (Admin_appointments check st r) as [p ->].
    now apply deleteMany_keys.
Qed.

Lemma index_unique_any_status_witness :
  let st :=
    runAny approvedOnly Clinic.store
      [Core (Book Clinic.sundayNoon Clinic.alice
               (Clinic.request Clinic.drWho Clinic.monday "09:00" "09:30"));
       Core (Cancel Clinic.alice 100 None);
       Core (Book Clinic.sundayNoon Clinic.bob
               (Clinic.request Clinic.drWho Clinic.monday "09:00" "09:30"));
       Admin (Approve Clinic.root 4);
       Core (Book Clinic.sundayNoon Clinic.bob
               (Clinic.request Clinic.drNew Clinic.monday "09:00" "09:30"));
       Admin (Remove Clinic.root 3)] in
  map Appointment.status (appointments st) = [cancelled] /\
  (List.length
     (filter (Appointment.atKey (User._id Clinic.drWho) Clinic.monday "09:00")
        (appointments st)) <= 1)%nat.
Proof.
  intros st. split; [reflexivity|].
  apply (index_unique_any_status approvedOnly st).
  apply ReachableAny_run, ReachableAny_initial, Clinic_store_initial.
Defined.

(** X4. No stored appointment ever has status pending: a booking creates
    the appointment as confirmed and the only writes are to cancelled and
    to completed. *)
Theorem pending_never_stored
    (check : Store -> User.t -> option (Z * string)) (st : Store) :
  ReachableAny check st ->
  forall a, In a (appointments st) -> Appointment.status a <> pending.
Proof.
  intros H. apply Forall_forall. revert st H. apply ReachableAny_inv.
  - intros st (Ha & _). rewrite Ha. constructor.
  - intros st r. apply step_no_pending.
  - intros st r Hp. destruct (Admin_appointments check st r) as [p ->].
    now apply Forall_filter.
Qed.

Lemma pending_never_stored_witness :
  let st :=
    runAny approvedOnly Clinic.store
      [Core (Book Clinic.sundayNoon Clinic.alice
               (Clinic.request Clinic.drWho Clinic.monday "09:00" "09:30"));
       Core (Book Clinic.sundayNoon Clinic.alice
               (Clinic.request Clinic.drWho Clinic.monday "10:00" "10:30"));
       Core (Complete Clinic.drWho 100 None None)] in
  map Appointment.status (appointments st) = [completed; confirmed] /\
  forall a, In a (appointments st) -> Appointment.status a <> pending.
Proof.
  intros st. split; [reflexivity|].
  apply (pending_never_stored approvedOnly st).
  apply ReachableAny_run, ReachableAny_initial, Clinic_store_initial.
Defined.

(** ** The resolver after a booking, a cancellation, a completion *)

Lemma takers_booked st d date start :
  takers st d date start <> [] <->
  Resolver.booked st d (fun t => date <= t < date + msPerDay) start.
Proof.
  unfold takers, Resolver.booked. split.
  - destruct (filter _ _) as [|a l] eqn:F; [congruence|]. intros _.
    assert (In a (a :: l)) as Hin by now left.
    rewrite <- F in Hin. apply filter_In in Hin. destruct Hin as [Hin Hc].
    rewrite !andb_true_iff in Hc. destruct Hc as [[[[H1 H2] H3] H4] H5].
    exists a. apply String.eqb_eq in H5. repeat split; auto; lia.
  - intros (a & Hin & H1 & [H2 H3] & H4 & H5) F.
    assert (In a (filter
                    (fun apt =>
                       ((Appointment.doctorId apt =? d)
                        && (date <=? Appointment.appointmentDate apt)
                        && (Appointment.appointmentDate apt
                            <? date + msPerDay)
                        && Appointment.active apt
                        && String.eqb
                             (TimeSlot.startTime (Appointment.timeSlot apt))
                             start)%bool)
                    (appointments st))) as Hf.
    { apply filter_In. split; [assumption|].
      rewrite !andb_true_iff. repeat split; auto; try lia.
      now apply String.eqb_eq. }
    rewrite F in Hf. destruct Hf.
Qed.

(** X5. After a booking has succeeded, the resolver asked for that doctor
    and a date whose 24 hours contain the booked date answers with the
    doctor's candidates as before the booking and marks every slot that
    starts at the booked start time as booked. *)
Theorem resolver_after_booking (now : Date) (user : User.t)
    (body : BookBody.t) (st st' : Store) (code : Z) (a : Appointment.t)
    (date : Date) :
  BookAppointment now user body st = (Json code a, st') ->
  date <= BookBody.appointmentDate body < date + msPerDay ->
  exists doctor slots,
    Doctor.findOne (doctors st) (BookBody.doctorId body) = Some doctor /\
    ResolveSlots (BookBody.doctorId body) (ValidDate date) st'
    = (Json 200 slots, st') /\
    map Resolver.entry slots
    = filter (Resolver.candidate date) (Doctor.availability doctor) /\
    forall s, In s slots ->
      Slot.startTime s = TimeSlot.startTime (BookBody.timeSlot body) ->
      Slot.isBooked s = true.
Proof.
  intros E Hw.
  destruct (booking_effect _ _ _ _ _ _ _ E)
    as (_ & -> & Ha & _ & (d & d' & Hd & Hd' & _ & Hav & _) & _).
  destruct (ResolverFacts.ResolveSlots_window st' _ date d' Hd')
    as (slots & Hr & He & Hb).
  exists d, slots. split; [exact Hd|]. split; [exact Hr|].
  split; [now rewrite He, Hav|].
  intros s Hs Hstart. rewrite Forall_forall in Hb. apply (Hb s Hs).
  exists (newAppointment st user body).
  split; [rewrite Ha; apply in_or_app; right; now left|].
  repeat split; simpl; auto; lia.
Qed.

Lemma resolver_after_booking_witness :
  let body := Clinic.request Clinic.drWho Clinic.monday "09:00" "09:30" in
  let st' :=
    snd (BookAppointment Clinic.sundayNoon Clinic.alice body Clinic.store) in
  fst (ResolveSlots 2 (ValidDate Clinic.monday) Clinic.store)
  = Json 200
      [{| Slot.day := Monday; Slot.startTime := "10:00";
          Slot.endTime := "10:30"; Slot.isBooked := false |};
       {| Slot.day := Monday; Slot.startTime := "09:00";
          Slot.endTime := "09:30"; Slot.isBooked := false |}] /\
  exists doctor slots,
    Doctor.findOne (doctors Clinic.store) 2 = Some doctor /\
    ResolveSlots 2 (ValidDate Clinic.monday) st' = (Json 200 slots, st') /\
    map Resolver.entry slots
    = filter (Resolver.candidate Clinic.monday) (Doctor.availability doctor) /\
    forall s, In s slots ->
      Slot.startTime s = "09:00" -> Slot.isBooked s = true.
Proof.
  intros body st'. split; [reflexivity|].
  apply (resolver_after_booking Clinic.sundayNoon Clinic.alice body
           Clinic.store st' 201
           (newAppointment Clinic.store Clinic.alice body) Clinic.monday);
    [reflexivity | vm_compute; split; [discriminate | reflexivity]].
Defined.

Lemma save_filter_length (p : Appointment.t -> bool) l a a' :
  Appointment.findById l (Appointment._id a') = Some a ->
  p a = true -> p a' = false ->
  S (List.length (filter p (Appointment.save l a')))
  = List.length (filter p l).
Proof.
  unfold Appointment.findById. intros Hf Ha Ha'.
  induction l as [|x l IH]; simpl in *; [discriminate|].
  destruct (Appointment._id x =? Appointment._id a') eqn:E; simpl.
  - injection Hf as ->. now rewrite Ha, Ha'.
  - destruct (p x); simpl; now rewrite <- (IH Hf).
Qed.

Lemma release_frees st id a a' date doctor :
  Appointment.findById (appointments st) id = Some a ->
  takers st (Appointment.doctorId a) date
    (TimeSlot.startTime (Appointment.timeSlot a)) = [a] ->
  Doctor.findOne (doctors st) (Appointment.doctorId a) = Some doctor ->
  Appointment._id a' = Appointment._id a ->
  Appointment.active a' = false ->
  let st' :=
    with_appointments st (Appointment.save (appointments st) a') in
  exists slots,
    ResolveSlots (Appointment.doctorId a) (ValidDate date) st'
    = (Json 200 slots, st') /\
    map Resolver.entry slots
    = filter (Resolver.candidate date) (Doctor.availability doctor) /\
    forall s, In s slots ->
      Slot.startTime s = TimeSlot.startTime (Appointment.timeSlot a) ->
      Slot.isBooked s = false.
Proof.
  intros Hf Ht Hd Hid Hact st'.
  destruct (ResolverFacts.ResolveSlots_window st' _ date doctor Hd)
    as (slots & Hr & He & Hb).
  exists slots. split; [exact Hr|]. split; [exact He|].
  intros s Hs Hstart. rewrite Forall_forall in Hb.
  destruct (Slot.isBooked s) eqn:B; [|reflexivity]. exfalso.
  apply (Hb s Hs) in B. rewrite Hstart in B. apply takers_booked in B.
  apply B. unfold takers in *. simpl.
  set (p := fun apt : Appointment.t => _) in *.
  assert (In a (filter p (appointments st))) as Hin
    by (rewrite Ht; now left).
  apply filter_In in Hin. destruct Hin as [_ Hpa].
  assert (p a' = false) as Hpa'.
  { unfold p. rewrite Hact. now rewrite !andb_false_r. }
  pose proof (LedgerFacts.findById_id _ _ _ Hf) as Hida.
  rewrite <- Hida, <- Hid in Hf.
  pose proof (save_filter_length p _ _ _ Hf Hpa Hpa') as Hlen.
  rewrite Ht in Hlen. simpl in Hlen.
  destruct (filter p (Appointment.save (appointments st) a'));
    [reflexivity | simpl in Hlen; lia].
Qed.

(** X6. When the appointment that is cancelled or completed is the only
    active one taking its slot (same doctor, same start time, dated within
    the 24 hours from the date asked), the resolver afterwards answers with
    the doctor's candidates and marks every slot with that start time as
    not booked. *)
Theorem resolver_after_release (st : Store) (id : ObjectId)
    (a : Appointment.t) (date : Date) (doctor : Doctor.t) :
  Appointment.findById (appointments st) id = Some a ->
  takers st (Appointment.doctorId a) date
    (TimeSlot.startTime (Appointment.timeSlot a)) = [a] ->
  Doctor.findOne (doctors st) (Appointment.doctorId a) = Some doctor ->
  forall r st',
    (exists user reason, CancelAppointment user id reason st = (r, st')) \/
    (exists user n p, CompleteAppointment user id n p st = (r, st')) ->
    succeeded r = true ->
    exists slots,
      ResolveSlots (Appointment.doctorId a) (ValidDate date) st'
      = (Json 200 slots, st') /\
      map Resolver.entry slots
      = filter (Resolver.candidate date) (Doctor.availability doctor) /\
      forall s, In s slots ->
        Slot.startTime s = TimeSlot.startTime (Appointment.timeSlot a) ->
        Slot.isBooked s = false.
Proof.
  intros Hf Ht Hd r st' [(u & c & E) | (u & n & p & E)] Hok.
  - destruct (Cancel_inv _ _ _ _ _ _ E)
      as [[H _] | (b & Hb & _ & _ & _ & ->)]; [congruence|].
    rewrite Hf in Hb. injection Hb as <-.
    now apply (release_frees st id a).
  - destruct (Complete_inv _ _ _ _ _ _ _ E)
      as [[H _] | (b & Hb & _ & _ & _ & ->)]; [congruence|].
    rewrite Hf in Hb. injection Hb as <-.
    now apply (release_frees st id a).
Qed.

Lemma resolver_after_release_witness :
  let st :=
    run Clinic.store
      [Book Clinic.sundayNoon Clinic.alice
         (Clinic.request Clinic.drWho Clinic.monday "09:00" "09:30")] in
  let st' := snd (CancelAppointment Clinic.alice 100 None st) in
  fst (ResolveSlots 2 (ValidDate Clinic.monday) st')
  = Json 200
      [{| Slot.day := Monday; Slot.startTime := "10:00";
          Slot.endTime := "10:30"; Slot.isBooked := false |};
       {| Slot.day := Monday; Slot.startTime := "09:00";
          Slot.endTime := "09:30"; Slot.isBooked := false |}] /\
  exists slots,
    ResolveSlots 2 (ValidDate Clinic.monday) st' = (Json 200 slots, st') /\
    forall s, In s slots -> Slot.startTime s = "09:00" ->
      Slot.isBooked s = false.
Proof.
  intros st st'. split; [reflexivity|].
  pose (a := newAppointment Clinic.store Clinic.alice
               (Clinic.request Clinic.drWho Clinic.monday "09:00" "09:30")).
  pose (who := {| Doctor.userId := 2; Doctor.availability := Clinic.whoSlots;
                  Doctor.rating := 0; Doctor.totalRatings := 0;
                  Doctor.totalAppointments := 1 |}).
  destruct (resolver_after_release st 100 a Clinic.monday who
              eq_refl eq_refl eq_refl
              (fst (CancelAppointment Clinic.alice 100 None st)) st')
    as (slots & Hr & _ & Hs);
    [left; exists Clinic.alice, None; reflexivity | reflexivity |].
  exists slots. split; [exact Hr | exact Hs].
Defined.

(** X7. A complete request that succeeds was sent by the assigned doctor on
    a confirmed appointment; it answers 200 with the stored appointment,
    now completed, whose notes are the trimmed notes of the request when
    these are not empty and the earlier notes otherwise, whose prescription
    is that of the request when it is not empty and the earlier one
    otherwise, and whose other fields are as before; every other
    appointment and the rest of the store are untouched. *)
Theorem completion_effect (user : User.t) (id : ObjectId)
    (n p : option string) (st st' : Store) (code : Z) (a' : Appointment.t) :
  CompleteAppointment user id n p st = (Json code a', st') ->
  exists a,
    Appointment.findById (appointments st) id = Some a /\
    Appointment.status a = confirmed /\
    Appointment.doctorId a = User._id user /\
    code = 200 /\
    Appointment.findById (appointments st') id = Some a' /\
    Appointment.status a' = completed /\
    (forall s, n = Some s -> s <> "" -> Appointment.notes a' = Some (trim s)) /\
    (n = None \/ n = Some "" -> Appointment.notes a' = Appointment.notes a) /\
    (forall s, p = Some s -> s <> "" -> Appointment.prescription a' = s) /\
    (p = None \/ p = Some "" ->
     Appointment.prescription a' = Appointment.prescription a) /\
    (Appointment._id a', Appointment.patientId a', Appointment.doctorId a',
     Appointment.appointmentDate a', Appointment.timeSlot a',
     Appointment.symptoms a', Appointment.cancelReason a')
    = (Appointment._id a, Appointment.patientId a, Appointment.doctorId a,
       Appointment.appointmentDate a, Appointment.timeSlot a,
       Appointment.symptoms a, Appointment.cancelReason a) /\
    (forall other, other <> id ->
       Appointment.findById (appointments st') other
       = Appointment.findById (appointments st) other) /\
    users st' = users st /\ doctors st' = doctors st /\
    feedbacks st' = feedbacks st /\ nextId st' = nextId st.
Proof.
  intros E.
  destruct (Complete_inv _ _ _ _ _ _ _ E)
    as [[H _] | (a & Hf & Hd & Hs & Hr & ->)]; [discriminate H|].
  injection Hr as -> ->.
  pose proof (LedgerFacts.findById_id _ _ _ Hf) as Hid.
  exists a. repeat split; try assumption.
  - pose proof (save_findById_same (appointments st) a
                  (Appointment.set_completed a n p)) as H.
    change (Appointment._id (Appointment.set_completed a n p))
      with (Appointment._id a) in H.
    rewrite Hid in H. exact (H Hf).
  - intros s -> Hne. simpl. destruct s; [contradiction | reflexivity].
  - intros [-> | ->]; reflexivity.
  - intros s -> Hne. simpl. destruct s; [contradiction | reflexivity].
  - intros [-> | ->]; reflexivity.
  - intros other Hne. simpl. apply save_findById_other. simpl. lia.
Qed.

Lemma completion_effect_witness :
  let st :=
    run Clinic.store
      [Book Clinic.sundayNoon Clinic.alice
         (Clinic.request Clinic.drWho Clinic.monday "09:00" "09:30")] in
  let r := CompleteAppointment Clinic.drWho 100 (Some " rest ") (Some "") st in
  exists a a',
    Appointment.findById (appointments st) 100 = Some a /\
    fst r = Json 200 a' /\
    Appointment.status a' = completed /\
    Appointment.notes a' = Some "rest" /\
    Appointment.prescription a' = Appointment.prescription a.
Proof.
  intros st r.
  destruct r as [resp st'] eqn:E.
  destruct resp as [code a'| |]; try (revert E; vm_compute; discriminate).
  destruct (completion_effect Clinic.drWho 100 (Some " rest ") (Some "")
              st st' code a' E)
    as (a & Hf & _ & _ & -> & _ & Hs & Hn & _ & _ & Hp & _).
  exists a, a'. split; [exact Hf|]. split; [reflexivity|].
  split; [exact Hs|].
  split; [apply (Hn " rest "); [reflexivity | discriminate]|].
  apply Hp. now right.
Defined.

(** ** The feedback collection *)

Lemma saveRating_frame s d s' :
  saveRating s d = Some s' ->
  feedbacks s' = feedbacks s /\ appointments s' = appointments s /\
  users s' = users s /\ nextId s' = nextId s.
Proof.
  intros H. apply AggregateFacts.saveRating_inv in H.
  destruct H as [_ ->]. repeat split.
Qed.

Lemma Submit_feedbacks st user body :
  feedbacks (snd (SubmitFeedback user body st)) = feedbacks st \/
  exists a,
    Appointment.findById (appointments st) (FeedbackBody.appointmentId body)
    = Some a /\
    Appointment.status a = completed /\
    Appointment.patientId a = User._id user /\
    Feedback.insert (feedbacks st) (submitted st user body a)
    = Some (feedbacks (snd (SubmitFeedback user body st))).
Proof.
  unfold SubmitFeedback. cbv zeta.
  destruct (authorize Role.patient user); simpl; [|auto].
  destruct (ratingInRange _); simpl; [|auto].
  destruct (Appointment.findById _ _) as [a|] eqn:Hf; [|auto].
  fold (submitted st user body a).
  destruct (Appointment.patientId a =? User._id user) eqn:Hp; simpl; [|auto].
  destruct (Appointment.status a) eqn:Hs; simpl; auto.
  destruct (Feedback.findOne _ _); [auto|].
  destruct (Feedback.valid _); simpl; [|auto].
  destruct (Feedback.insert _ _) as [l|] eqn:Hi; [|auto].
  right. exists a. apply Z.eqb_eq in Hp. repeat split; auto.
  rewrite Hi. f_equal.
  destruct (Doctor.findOne _ _); [|reflexivity].
  destruct (saveRating _ _) as [s|] eqn:Hsv; [|reflexivity].
  apply saveRating_frame in Hsv. destruct Hsv as [Hsv _]. simpl.
  now rewrite Hsv.
Qed.

Lemma Update_feedbacks st user id r c :
  feedbacks (snd (UpdateFeedback user id r c st)) = feedbacks st \/
  exists f f',
    Feedback.findById (feedbacks st) id = Some f /\
    Feedback.patientId f = User._id user /\
    Feedback._id f' = Feedback._id f /\
    Feedback.appointmentId f' = Feedback.appointmentId f /\
    Feedback.patientId f' = Feedback.patientId f /\
    Feedback.doctorId f' = Feedback.doctorId f /\
    feedbacks (snd (UpdateFeedback user id r c st))
    = Feedback.save (feedbacks st) f'.
Proof.
  unfold UpdateFeedback. cbv zeta.
  destruct (authorize Role.patient user); simpl; [|auto].
  destruct (negb _); [auto|].
  destruct (Feedback.findById _ _) as [f|] eqn:Hf; [|auto].
  destruct (Feedback.patientId f =? User._id user) eqn:Hp; simpl; [|auto].
  destruct (negb _); [auto|].
  right. exists f.
  exists {| Feedback._id := Feedback._id f;
            Feedback.appointmentId := Feedback.appointmentId f;
            Feedback.patientId := Feedback.patientId f;
            Feedback.doctorId := Feedback.doctorId f;
            Feedback.rating :=
              match r with Some x => x | None => Feedback.rating f end;
            Feedback.comment :=
              match c with
              | Some x => Some (trim x)
              | None => Feedback.comment f
              end |}.
  apply Z.eqb_eq in Hp.
  split; [reflexivity|]. split; [exact Hp|].
  repeat break_match; simpl;
    try match goal with H : saveRating _ _ = Some _ |- _ =>
      apply saveRating_frame in H; destruct H as [-> _] end;
    repeat split.
Qed.

Lemma Delete_feedbacks st user id :
  feedbacks (snd (DeleteFeedback user id st)) = feedbacks st \/
  exists f,
    Feedback.findById (feedbacks st) id = Some f /\
    Feedback.patientId f = User._id user /\
    feedbacks (snd (DeleteFeedback user id st))
    = Feedback.delete (feedbacks st) id.
Proof.
  unfold DeleteFeedback. cbv zeta.
  destruct (authorize Role.patient user); simpl; [|auto].
  destruct (Feedback.findById _ _) as [f|] eqn:Hf; [|auto].
  destruct (Feedback.patientId f =? User._id user) eqn:Hp; simpl; [|auto].
  apply Z.eqb_eq in Hp.
  repeat break_match; simpl; auto; right; exists f;
    try match goal with H : saveRating _ _ = Some _ |- _ =>
      apply saveRating_frame in H; destruct H as [-> _] end;
    auto.
Qed.

Lemma Feedback_insert_inv l f l' :
  Feedback.insert l f = Some l' ->
  l' = l ++ [f] /\
  ~ In (Feedback.appointmentId f) (map Feedback.appointmentId l).
Proof.
  unfold Feedback.insert. destruct (existsb _ l) eqn:E; [discriminate|].
  intros [= <-]. split; [reflexivity|].
  intros Hin. apply in_map_iff in Hin. destruct Hin as [g [Hg Hin]].
  assert (existsb
            (fun g => Feedback.appointmentId g =? Feedback.appointmentId f)
            l = true) as Ht
    by (apply existsb_exists; exists g; split;
        [assumption | now apply Z.eqb_eq]).
  congruence.
Qed.

Lemma Feedback_save_map {B} (k : Feedback.t -> B) l f f' :
  Feedback.findById l (Feedback._id f') = Some f ->
  k f' = k f ->
  map k (Feedback.save l f') = map k l.
Proof.
  unfold Feedback.findById.
  induction l as [|x l IH]; simpl; [discriminate|].
  destruct (Feedback._id x =? Feedback._id f') eqn:E; simpl.
  - intros [= ->] ->. reflexivity.
  - intros H Hk. now rewrite IH.
Qed.

Lemma Feedback_delete_incl l id f :
  In f (Feedback.delete l id) -> In f l.
Proof.
  induction l as [|x l IH]; simpl; [auto|].
  destruct (Feedback._id x =? id); simpl; tauto.
Qed.

Lemma Feedback_delete_NoDup {B} (k : Feedback.t -> B) l id :
  NoDup (map k l) -> NoDup (map k (Feedback.delete l id)).
Proof.
  induction l as [|x l IH]; simpl; [auto|].
  intros H. inversion H as [|y ys Hnotin Hnd]; subst.
  destruct (Feedback._id x =? id); simpl; [assumption|].
  constructor; [|auto].
  intros Hin. apply Hnotin. apply in_map_iff in Hin.
  destruct Hin as [z [Hz Hin]]. apply Feedback_delete_incl in Hin.
  apply in_map_iff. eauto.
Qed.

Lemma Feedback_findById_id l id f :
  Feedback.findById l id = Some f -> Feedback._id f = id.
Proof.
  intros H; apply find_In in H; destruct H as [_ H]; now apply Z.eqb_eq.
Qed.

Lemma step_one_feedback st r :
  NoDup (map Feedback.appointmentId (feedbacks st)) ->
  NoDup (map Feedback.appointmentId (feedbacks (step st r))).
Proof.
  intros H. destruct r as [now u b|u id c|u id n p|d date|u b|u id r c|u id];
    simpl.
  - destruct (BookAppointment now u b st) as [r st'] eqn:E; cbn [snd].
    destruct (Book_inv _ _ _ _ _ _ E)
      as [[_ ->] | (d & _ & _ & _ & _ & _ & -> & _)]; assumption.
  - destruct (CancelAppointment u id c st) as [r st'] eqn:E; cbn [snd].
    destruct (Cancel_inv _ _ _ _ _ _ E) as [[_ ->] | (a & _ & _ & _ & _ & ->)];
      assumption.
  - destruct (CompleteAppointment u id n p st) as [r st'] eqn:E; cbn [snd].
    destruct (Complete_inv _ _ _ _ _ _ _ E)
      as [[_ ->] | (a & _ & _ & _ & _ & ->)]; assumption.
  - now rewrite Resolve_pure.
  - destruct (Submit_feedbacks st u b) as [-> | (a & _ & _ & _ & Hi)];
      [assumption|].
    apply Feedback_insert_inv in Hi. destruct Hi as [-> Hn].
    rewrite map_app. simpl.
    apply NoDup_app; [assumption | repeat constructor; simpl; tauto |].
    intros k Hk [<- | []]. contradiction.
  - destruct (Update_feedbacks st u id r c)
      as [-> | (f & f' & Hf & _ & Hid & Hap & _ & _ & ->)]; [assumption|].
    rewrite (Feedback_save_map _ _ f); [assumption | | exact Hap].
    rewrite Hid, (Feedback_findById_id _ _ _ Hf). exact Hf.
  - destruct (Delete_feedbacks st u id) as [-> | (f & _ & _ & ->)];
      [assumption|].
    now apply Feedback_delete_NoDup.
Qed.

(** X8. In every state reached by any requests, administrative ones
    included, no two stored feedback documents are for the same
    appointment. *)
Theorem one_feedback_per_appointment
    (check : Store -> User.t -> option (Z * string)) (st : Store) :
  ReachableAny check st ->
  forall ap,
    (List.length
       (filter (fun f => Z.eqb (Feedback.appointmentId f) ap) (feedbacks st))
     <= 1)%nat.
Proof.
  intros H ap.
  assert (NoDup (map Feedback.appointmentId (feedbacks st))) as Hnd.
  { revert st H. apply ReachableAny_inv.
    - intros st (_ & Hf & _). rewrite Hf. constructor.
    - intros st r. apply step_one_feedback.
    - intros st r Hnd. now rewrite Admin_feedbacks. }
  clear H. induction (feedbacks st) as [|x l IH]; simpl; [lia|].
  inversion Hnd as [|k ks Hnotin Hnd']; subst.
  destruct (Z.eqb (Feedback.appointmentId x) ap) eqn:E; [|auto].
  apply Z.eqb_eq in E.
  assert (filter (fun f => Z.eqb (Feedback.appointmentId f) ap) l = []) as ->;
    [|simpl; lia].
  destruct (filter _ l) as [|y r] eqn:F; [reflexivity|].
  exfalso. apply Hnotin.
  assert (In y (filter (fun f => Z.eqb (Feedback.appointmentId f) ap) l)) as Hy
    by (rewrite F; now left).
  apply filter_In in Hy. destruct Hy as [Hy Hk].
  apply Z.eqb_eq in Hk. rewrite E, <- Hk. now apply in_map.
Qed.

Lemma one_feedback_per_appointment_witness :
  let st :=
    runAny approvedOnly Clinic.store
      (map Core Clinic.visits ++
       [Core (Submit Clinic.alice (Clinic.rate 100 4));
        Core (Submit Clinic.alice (Clinic.rate 100 5));
        Core (Update Clinic.alice 104 (Some 2) (Some "fine"));
        Core (Submit Clinic.alice (Clinic.rate 101 3))]) in
  map (fun f => (Feedback.appointmentId f, Feedback.rating f)) (feedbacks st)
  = [(100, 2); (101, 3)] /\
  (List.length
     (filter (fun f => Z.eqb (Feedback.appointmentId f) 100%Z) (feedbacks st))
   <= 1)%nat.
Proof.
  intros st. split; [vm_compute; reflexivity|].
  apply (one_feedback_per_appointment approvedOnly st).
  apply ReachableAny_run, ReachableAny_initial, Clinic_store_initial.
Defined.

Lemma save_In_other l a' x b :
  Appointment.findById l (Appointment._id a') = Some x ->
  In b l -> b <> x -> In b (Appointment.save l a').
Proof.
  unfold Appointment.findById.
  induction l as [|y l IH]; simpl; [discriminate|].
  destruct (Appointment._id y =? Appointment._id a') eqn:E; simpl.
  - intros [= ->] [-> | Hin] Hne; [contradiction | now right].
  - intros Hf [-> | Hin] Hne; [now left | right; now apply IH].
Qed.

Lemma Feedback_save_Forall (P : Feedback.t -> Prop) l f :
  Forall P l -> P f -> Forall P (Feedback.save l f).
Proof.
  intros Hl Hf. induction Hl as [|x l Hx Hl IH]; simpl; [constructor|].
  destruct (Feedback._id x =? Feedback._id f); constructor; auto.
Qed.

Lemma grounded_weaken st st' f :
  (forall a, In a (appointments st) -> Appointment.status a = completed ->
     In a (appointments st')) ->
  grounded st f -> grounded st' f.
Proof.
  intros H (a & Hin & Hrest). exists a. split; [|exact Hrest].
  apply H; tauto.
Qed.

Lemma release_keeps_completed st id a a' :
  Appointment.findById (appointments st) id = Some a ->
  Appointment._id a' = Appointment._id a ->
  Appointment.status a <> completed ->
  forall b, In b (appointments st) -> Appointment.status b = completed ->
    In b (Appointment.save (appointments st) a').
Proof.
  intros Hf Hid Hs b Hin Hb.
  apply (save_In_other _ _ a); [|assumption|congruence].
  now rewrite Hid, (LedgerFacts.findById_id _ _ _ Hf).
Qed.

Lemma step_grounded st r :
  Forall (grounded st) (feedbacks st) ->
  Forall (grounded (step st r)) (feedbacks (step st r)).
Proof.
  intros H. destruct r as [now u b|u id c|u id n p|d date|u b|u id r c|u id];
    simpl.
  - destruct (BookAppointment now u b st) as [r st'] eqn:E; cbn [snd].
    destruct (Book_inv _ _ _ _ _ _ E)
      as [[_ ->] | (d & _ & _ & Ha & _ & _ & -> & _)]; [assumption|].
    eapply Forall_impl; [|exact H]. intros f. apply grounded_weaken.
    intros a Hin _. rewrite Ha. apply in_or_app. now left.
  - destruct (CancelAppointment u id c st) as [r st'] eqn:E; cbn [snd].
    destruct (Cancel_inv _ _ _ _ _ _ E)
      as [[_ ->] | (a & Hf & _ & Hact & _ & ->)]; [assumption|].
    eapply Forall_impl; [|exact H]. intros f. apply grounded_weaken.
    apply (release_keeps_completed st id a); [assumption | reflexivity |].
    intros Hs. unfold Appointment.active in Hact. now rewrite Hs in Hact.
  - destruct (CompleteAppointment u id n p st) as [r st'] eqn:E; cbn [snd].
    destruct (Complete_inv _ _ _ _ _ _ _ E)
      as [[_ ->] | (a & Hf & _ & Hs & _ & ->)]; [assumption|].
    eapply Forall_impl; [|exact H]. intros f. apply grounded_weaken.
    apply (release_keeps_completed st id a); [assumption | reflexivity |].
    congruence.
  - now rewrite Resolve_pure.
  - assert (forall f, grounded st f ->
                      grounded (snd (SubmitFeedback u b st)) f) as Hw
      by (intros f; apply grounded_weaken; intros a Hin _;
          now rewrite Submit_appointments).
    destruct (Submit_feedbacks st u b) as [-> | (a & Hf & Hs & Hp & Hi)].
    + eapply Forall_impl; [exact Hw | exact H].
    + apply Feedback_insert_inv in Hi. destruct Hi as [-> _].
      apply Forall_app. split; [eapply Forall_impl; [exact Hw | exact H]|].
      repeat constructor. apply Hw. exists a.
      pose proof (find_In _ _ _ Hf) as [Hin _].
      pose proof (LedgerFacts.findById_id _ _ _ Hf) as Hid.
      repeat split; auto.
  - assert (forall f, grounded st f ->
                      grounded (snd (UpdateFeedback u id r c st)) f) as Hw
      by (intros f; apply grounded_weaken; intros a Hin _;
          now rewrite Update_appointments).
    destruct (Update_feedbacks st u id r c)
      as [-> | (f & f' & Hf & _ & _ & Hap & Hpa & Hdo & ->)].
    + eapply Forall_impl; [exact Hw | exact H].
    + apply Feedback_save_Forall;
        [eapply Forall_impl; [exact Hw | exact H]|].
      apply Hw. pose proof (find_In _ _ _ Hf) as [Hin _].
      rewrite Forall_forall in H. destruct (H f Hin) as (a & Ha).
      exists a. now rewrite Hap, Hpa, Hdo.
  - assert (forall f, grounded st f ->
                      grounded (snd (DeleteFeedback u id st)) f) as Hw
      by (intros f; apply grounded_weaken; intros a Hin _;
          now rewrite Delete_appointments).
    destruct (Delete_feedbacks st u id) as [-> | (f & _ & _ & ->)].
    + eapply Forall_impl; [exact Hw | exact H].
    + apply Forall_forall. intros g Hg. apply Hw.
      rewrite Forall_forall in H. apply H.
      now apply Feedback_delete_incl in Hg.
Qed.

(** X9. As long as no account is deleted, every stored feedback belongs to
    a completed appointment in the ledger that has the feedback's
    appointment identifier, patient and doctor. *)
Theorem feedback_is_grounded (st : Store) :
  Reachable st ->
  forall f, In f (feedbacks st) ->
    exists a,
      In a (appointments st) /\
      Appointment._id a = Feedback.appointmentId f /\
      Appointment.status a = completed /\
      Appointment.patientId a = Feedback.patientId f /\
      Appointment.doctorId a = Feedback.doctorId f.
Proof.
  intros H. apply Forall_forall.
  induction H as [st (_ & Hf & _) | st r _ IH].
  - rewrite Hf. constructor.
  - now apply step_grounded.
Qed.

Lemma feedback_is_grounded_witness :
  let st :=
    run Clinic.store
      (Clinic.visits ++
       [Submit Clinic.alice (Clinic.rate 101 4);
        Cancel Clinic.root 101 None;
        Submit Clinic.bob (Clinic.rate 100 5)]) in
  map Feedback.appointmentId (feedbacks st) = [101] /\
  forall f, In f (feedbacks st) ->
    exists a,
      In a (appointments st) /\
      Appointment._id a = Feedback.appointmentId f /\
      Appointment.status a = completed /\
      Appointment.patientId a = Feedback.patientId f /\
      Appointment.doctorId a = Feedback.doctorId f.
Proof.
  intros st. split; [vm_compute; reflexivity|].
  apply (feedback_is_grounded st), Clinic_run_reachable.
Defined.

(** ** What feedback requests do to the doctor profiles *)


Lemma saveRating_write st s s' doctor x n k :
  doctors s = doctors st ->
  Doctor.findOne (doctors st) k = Some doctor ->
  saveRating s (set_rating doctor x n) = Some s' ->
  ratingWrite st s' k.
Proof.
  intros Hs Hd H. apply AggregateFacts.saveRating_inv in H.
  destruct H as [_ ->]. right. exists doctor, x, n. simpl. now rewrite Hs.
Qed.

Lemma Submit_write st user body :
  forall a,
    Appointment.findById (appointments st) (FeedbackBody.appointmentId body)
    = Some a ->
    ratingWrite st (snd (SubmitFeedback user body st))
      (Appointment.doctorId a).
Proof.
  intros a Hf. unfold SubmitFeedback. rewrite Hf. cbv zeta.
  destruct (authorize Role.patient user); simpl; [|left; reflexivity].
  destruct (ratingInRange _); simpl; [|left; reflexivity].
  destruct (Appointment.patientId a =? User._id user); simpl;
    [|left; reflexivity].
  destruct (Status_eqb _ _); simpl; [|left; reflexivity].
  destruct (Feedback.findOne _ _); [left; reflexivity|].
  destruct (Feedback.valid _); simpl; [|left; reflexivity].
  destruct (Feedback.insert _ _) as [l|]; [|left; reflexivity].
  cbn [doctors fresh with_feedbacks].
  destruct (Doctor.findOne (doctors st) (Appointment.doctorId a)) as [d|]
    eqn:Hd; [|left; reflexivity].
  destruct (saveRating _ _) as [s|] eqn:Hs; [|left; reflexivity].
  eapply saveRating_write; [| exact Hd | exact Hs]; reflexivity.
Qed.

Lemma Update_write st user id r c :
  forall f,
    Feedback.findById (feedbacks st) id = Some f ->
    ratingWrite st (snd (UpdateFeedback user id r c st))
      (Feedback.doctorId f) /\
    (r = None \/ r = Some (Feedback.rating f) ->
     doctors (snd (UpdateFeedback user id r c st)) = doctors st).
Proof.
  intros f Hf. unfold UpdateFeedback. rewrite Hf. cbv zeta.
  destruct (authorize Role.patient user); simpl;
    [|split; [left|]; reflexivity].
  destruct (negb _); [split; [left|]; reflexivity|].
  destruct (Feedback.patientId f =? User._id user); simpl;
    [|split; [left|]; reflexivity].
  destruct (negb _); [split; [left|]; reflexivity|].
  destruct r as [x|]; [|split; [left|]; reflexivity].
  destruct (x =? Feedback.rating f) eqn:E; [split; [left|]; reflexivity|].
  apply Z.eqb_neq in E.
  assert (Some x = None \/ Some x = Some (Feedback.rating f) -> False) as Hno
    by (intros [H | H]; congruence).
  cbn [Feedback.doctorId Feedback.rating with_feedbacks doctors].
  destruct (Doctor.findOne (doctors st) (Feedback.doctorId f)) as [d|] eqn:Hd;
    [|split; [left; reflexivity | intros H; now apply Hno in H]].
  destruct (0 <? Doctor.totalRatings d);
    [|split; [left; reflexivity | intros H; now apply Hno in H]].
  destruct (saveRating _ _) as [s|] eqn:Hs;
    [|split; [left; reflexivity | intros H; now apply Hno in H]].
  split; [|intros H; now apply Hno in H].
  eapply saveRating_write; [| exact Hd | exact Hs]; reflexivity.
Qed.

Lemma Delete_write st user id :
  forall f,
    Feedback.findById (feedbacks st) id = Some f ->
    ratingWrite st (snd (DeleteFeedback user id st)) (Feedback.doctorId f).
Proof.
  intros f Hf. unfold DeleteFeedback. rewrite Hf. cbv zeta.
  destruct (authorize Role.patient user); simpl; [|left; reflexivity].
  destruct (Feedback.patientId f =? User._id user); simpl;
    [|left; reflexivity].
  destruct (Doctor.findOne (doctors st) (Feedback.doctorId f)) as [d|] eqn:Hd;
    [|left; reflexivity].
  unfold RemoveRating.
  destruct (1 <? Doctor.totalRatings d).
  - destruct (saveRating _ _) as [s|] eqn:Hs; [|left; reflexivity].
    assert (ratingWrite st s (Feedback.doctorId f)) as Hw
      by (eapply saveRating_write; [| exact Hd | exact Hs]; reflexivity).
    destruct Hw as [H | (d0 & x & n & H1 & H2)];
      [left | right; exists d0, x, n]; simpl; auto.
  - destruct (Doctor.totalRatings d =? 1); [|left; reflexivity].
    destruct (saveRating _ _) as [s|] eqn:Hs; [|left; reflexivity].
    assert (ratingWrite st s (Feedback.doctorId f)) as Hw
      by (eapply saveRating_write; [| exact Hd | exact Hs]; reflexivity).
    destruct Hw as [H | (d0 & x & n & H1 & H2)];
      [left | right; exists d0, x, n]; simpl; auto.
Qed.

Lemma ratingWrite_frame st st' k :
  ratingWrite st st' k -> sameProfilesBut st st' k.
Proof.
  intros H. unfold sameProfilesBut.
  destruct H as [-> | (d & x & n & Hd & ->)]; intros u;
    [split; reflexivity|].
  pose proof (Doctor_findOne_userId _ _ _ Hd) as Hid.
  destruct (Z.eq_dec u k) as [-> | Hne].
  - split; [congruence|]. rewrite Hd. rewrite <- Hid at 1.
    change (Doctor.userId d) with (Doctor.userId (set_rating d x n)) at 1.
    rewrite (Doctor_findOne_replace _ _ d); [reflexivity|].
    simpl. now rewrite Hid.
  - assert (Doctor.findOne (Doctor.replace (doctors st) (set_rating d x n)) u
            = Doctor.findOne (doctors st) u) as ->
      by (apply Doctor_findOne_replace_other; simpl; lia).
    split; reflexivity.
Qed.

(** X10. A feedback submission for an appointment, and an update or a
    deletion of a feedback, never change the profile of a doctor other than
    the doctor of that appointment or feedback, and of that doctor's profile
    they change neither the availability nor the total of appointments. *)
Theorem feedback_requests_touch_one_aggregate (st : Store) (user : User.t) :
  (forall body a,
     Appointment.findById (appointments st) (FeedbackBody.appointmentId body)
     = Some a ->
     sameProfilesBut st (snd (SubmitFeedback user body st))
       (Appointment.doctorId a)) /\
  (forall id r c f,
     Feedback.findById (feedbacks st) id = Some f ->
     sameProfilesBut st (snd (UpdateFeedback user id r c st))
       (Feedback.doctorId f)) /\
  (forall id f,
     Feedback.findById (feedbacks st) id = Some f ->
     sameProfilesBut st (snd (DeleteFeedback user id st))
       (Feedback.doctorId f)).
Proof.
  split; [intros body a Hf; now apply ratingWrite_frame, Submit_write|].
  split; [intros id r c f Hf; now apply ratingWrite_frame, Update_write|].
  intros id f Hf. now apply ratingWrite_frame, Delete_write.
Qed.

Lemma feedback_requests_touch_one_aggregate_witness :
  let st := run Clinic.store Clinic.visits in
  let st' := snd (SubmitFeedback Clinic.alice (Clinic.rate 100 4) st) in
  Clinic.aggregate st' = Some (4%float, 1) /\
  Doctor.findOne (doctors st') 4 = Doctor.findOne (doctors st) 4 /\
  option_map Doctor.availability (Doctor.findOne (doctors st') 2)
  = Some Clinic.whoSlots.
Proof.
  intros st st'. split; [vm_compute; reflexivity|].
  destruct (feedback_requests_touch_one_aggregate st Clinic.alice)
    as (H & _).
  let o := eval vm_compute in (Appointment.findById (appointments st) 100) in
  match o with
  | Some ?a =>
      assert (Appointment.findById (appointments st) 100 = Some a) as Hf
        by (vm_compute; reflexivity);
      specialize (H (Clinic.rate 100 4) a Hf)
  end.
  split; [apply (H 4); vm_compute; discriminate | vm_compute; reflexivity].
Defined.

Lemma replace_same_field {B} (g : Doctor.t -> B) l d d' u :
  Doctor.findOne l (Doctor.userId d') = Some d ->
  g d' = g d ->
  option_map g (Doctor.findOne (Doctor.replace l d') u)
  = option_map g (Doctor.findOne l u).
Proof.
  intros Hd Hg. destruct (Z.eq_dec u (Doctor.userId d')) as [-> | Hne].
  - rewrite (Doctor_findOne_replace _ _ d Hd), Hd. simpl. now rewrite Hg.
  - now rewrite Doctor_findOne_replace_other.
Qed.

Lemma Update_count st user id r c :
  doctors (snd (UpdateFeedback user id r c st)) = doctors st \/
  exists d x,
    Doctor.findOne (doctors st) (Doctor.userId d) = Some d /\
    doctors (snd (UpdateFeedback user id r c st))
    = Doctor.replace (doctors st) (set_rating d x (Doctor.totalRatings d)).
Proof.
  handler UpdateFeedback; try (now left);
  match goal with
  | H : saveRating _ _ = Some _, F : Doctor.findOne _ _ = Some ?d |- _ =>
      apply AggregateFacts.saveRating_inv in H; destruct H as [_ ->];
      simpl in F |- *; right; exists d; eexists; split; [|reflexivity];
      now rewrite (Doctor_findOne_userId _ _ _ F)
  end.
Qed.

(** X11. Updating a feedback never changes the rating count of any doctor;
    and when the request carries no rating, or the rating the feedback
    already has, it writes no doctor profile at all. *)
Theorem update_keeps_count (st : Store) (user : User.t) (id : ObjectId)
    (r : option Z) (c : option string) :
  let st' := snd (UpdateFeedback user id r c st) in
  (forall u,
     option_map Doctor.totalRatings (Doctor.findOne (doctors st') u)
     = option_map Doctor.totalRatings (Doctor.findOne (doctors st) u)) /\
  (forall f,
     Feedback.findById (feedbacks st) id = Some f ->
     r = None \/ r = Some (Feedback.rating f) ->
     doctors st' = doctors st).
Proof.
  intros st'. split.
  - intros u. subst st'.
    destruct (Update_count st user id r c) as [-> | (d & x & Hd & ->)];
      [reflexivity|].
    now apply (replace_same_field _ _ d).
  - intros f Hf. now apply Update_write.
Qed.

Lemma update_keeps_count_witness :
  let st :=
    run Clinic.store
      (Clinic.visits ++
       [Submit Clinic.alice (Clinic.rate 100 4);
        Submit Clinic.alice (Clinic.rate 101 2)]) in
  Clinic.aggregate st = Some (3%float, 2) /\
  Clinic.aggregate (snd (UpdateFeedback Clinic.alice 104 (Some 5) None st))
  = Some (3.5%float, 2) /\
  doctors (snd (UpdateFeedback Clinic.alice 104 (Some 4) (Some "ok") st))
  = doctors st.
Proof.
  intros st. split; [vm_compute; reflexivity|].
  split; [vm_compute; reflexivity|].
  destruct (update_keeps_count st Clinic.alice 104 (Some 4) (Some "ok"))
    as [_ H].
  let o := eval vm_compute in (Feedback.findById (feedbacks st) 104) in
  match o with
  | Some ?f =>
      assert (Feedback.findById (feedbacks st) 104 = Some f) as Hf
        by (vm_compute; reflexivity);
      apply (H f Hf)
  end.
  right. reflexivity.
Defined.

Lemma Feedback_save_filter (p : Feedback.t -> bool) l f f' :
  Feedback.findById l (Feedback._id f') = Some f ->
  p f = false -> p f' = false ->
  filter p (Feedback.save l f') = filter p l.
Proof.
  unfold Feedback.findById. intros Hf Hp Hp'.
  induction l as [|x l IH]; simpl in *; [reflexivity|].
  destruct (Feedback._id x =? Feedback._id f').
  - injection Hf as ->. simpl. now rewrite Hp, Hp'.
  - simpl. now rewrite IH.
Qed.

Lemma Feedback_delete_filter (p : Feedback.t -> bool) l id f :
  Feedback.findById l id = Some f ->
  p f = false ->
  filter p (Feedback.delete l id) = filter p l.
Proof.
  unfold Feedback.findById. intros Hf Hp.
  induction l as [|x l IH]; simpl in *; [reflexivity|].
  destruct (Feedback._id x =? id).
  - injection Hf as ->. now rewrite Hp.
  - simpl. now rewrite IH.
Qed.

(** X12. A feedback request of a patient, be it a submission, an update or a
    deletion, and whatever it answers, leaves the feedback documents written
    by every other patient exactly as they were, in their stored order. *)
Theorem feedback_of_others_untouched (st : Store) (user : User.t) :
  (forall body,
     notBy (User._id user) (feedbacks (snd (SubmitFeedback user body st)))
     = notBy (User._id user) (feedbacks st)) /\
  (forall id r c,
     notBy (User._id user) (feedbacks (snd (UpdateFeedback user id r c st)))
     = notBy (User._id user) (feedbacks st)) /\
  (forall id,
     notBy (User._id user) (feedbacks (snd (DeleteFeedback user id st)))
     = notBy (User._id user) (feedbacks st)).
Proof.
  unfold notBy. split; [|split].
  - intros body.
    destruct (Submit_feedbacks st user body)
      as [-> | (a & _ & _ & Hp & Hi)]; [reflexivity|].
    apply Feedback_insert_inv in Hi. destruct Hi as [-> _].
    rewrite filter_app. simpl. unfold submitted at 1. simpl.
    rewrite Z.eqb_refl. simpl. apply app_nil_r.
  - intros id r c.
    destruct (Update_feedbacks st user id r c)
      as [-> | (f & f' & Hf & Hp & Hid & _ & Hp' & _ & ->)]; [reflexivity|].
    apply Feedback_save_filter with (f := f).
    + rewrite Hid, (Feedback_findById_id _ _ _ Hf). exact Hf.
    + rewrite Hp, Z.eqb_refl. reflexivity.
    + rewrite Hp', Hp, Z.eqb_refl. reflexivity.
  - intros id.
    destruct (Delete_feedbacks st user id)
      as [-> | (f & Hf & Hp & ->)]; [reflexivity|].
    apply Feedback_delete_filter with (f := f); [exact Hf|].
    rewrite Hp, Z.eqb_refl. reflexivity.
Qed.

Lemma Appointment_save_filter (p : Appointment.t -> bool) l a a' :
  Appointment.findById l (Appointment._id a') = Some a ->
  p a = false -> p a' = false ->
  filter p (Appointment.save l a') = filter p l.
Proof.
  unfold Appointment.findById. intros Hf Hp Hp'.
  induction l as [|x l IH]; simpl in *; [reflexivity|].
  destruct (Appointment._id x =? Appointment._id a').
  - injection Hf as ->. simpl. now rewrite Hp, Hp'.
  - simpl. now rewrite IH.
Qed.

Lemma cancelAccess_party user a st :
  cancelAccess user a st = Allowed ->
  Role.eqb (User.role user) Role.admin = false ->
  Appointment.patientId a = User._id user \/
  Appointment.doctorId a = User._id user.
Proof.
  unfold cancelAccess. intros H Hr. rewrite Hr in H.
  destruct (User.findById (users st) (Appointment.patientId a))
    as [p|] eqn:Hp; [|discriminate].
  apply User_findById_id in Hp.
  destruct (User._id p =? User._id user) eqn:E.
  - apply Z.eqb_eq in E. left. congruence.
  - destruct (User.findById (users st) (Appointment.doctorId a))
      as [d|] eqn:Hd; [|discriminate].
    apply User_findById_id in Hd.
    destruct (User._id d =? User._id user) eqn:E'; [|discriminate].
    apply Z.eqb_eq in E'. right. congruence.
Qed.

(** X13. A booking or a complete request of an account leaves every
    appointment in which that account is neither the patient nor the doctor
    exactly as it was, and so does a cancel request of an account that is
    not an administrator. *)
Theorem appointments_of_others_untouched (st : Store) (user : User.t) :
  (forall now body,
     without (User._id user)
       (appointments (snd (BookAppointment now user body st)))
     = without (User._id user) (appointments st)) /\
  (forall id n p,
     without (User._id user)
       (appointments (snd (CompleteAppointment user id n p st)))
     = without (User._id user) (appointments st)) /\
  (forall id reason,
     Role.eqb (User.role user) Role.admin = false ->
     without (User._id user)
       (appointments (snd (CancelAppointment user id reason st)))
     = without (User._id user) (appointments st)).
Proof.
  unfold without. split; [|split].
  - intros now body.
    destruct (BookAppointment now user body st) as [r st'] eqn:E.
    cbn [snd]. apply Book_inv in E.
    destruct E as [[_ ->] | (d & _ & _ & -> & _)]; [reflexivity|].
    rewrite filter_app. simpl. rewrite Z.eqb_refl. simpl.
    apply app_nil_r.
  - intros id n p.
    destruct (CompleteAppointment user id n p st) as [r st'] eqn:E.
    cbn [snd]. apply Complete_inv in E.
    destruct E as [[_ ->] | (a & Hf & Hd & _ & _ & ->)]; [reflexivity|].
    cbn [appointments with_appointments].
    apply Appointment_save_filter with (a := a).
    + cbn. rewrite (LedgerFacts.findById_id _ _ _ Hf). exact Hf.
    + rewrite Hd, Z.eqb_refl, orb_true_r. reflexivity.
    + cbn. rewrite Hd, Z.eqb_refl, orb_true_r. reflexivity.
  - intros id reason Hr.
    destruct (CancelAppointment user id reason st) as [r st'] eqn:E.
    cbn [snd]. apply Cancel_inv in E.
    destruct E as [[_ ->] | (a & Hf & Ha & _ & _ & ->)]; [reflexivity|].
    cbn [appointments with_appointments].
    assert ((Appointment.patientId a =? User._id user)
            || (Appointment.doctorId a =? User._id user) = true)%bool as Hin.
    { destruct (cancelAccess_party _ _ _ Ha Hr) as [-> | ->];
        rewrite Z.eqb_refl; [reflexivity | apply orb_true_r]. }
    apply Appointment_save_filter with (a := a).
    + cbn. rewrite (LedgerFacts.findById_id _ _ _ Hf). exact Hf.
    + now rewrite Hin.
    + cbn. now rewrite Hin.
Qed.

Lemma appointments_of_others_untouched_witness :
  let st := run Clinic.store Clinic.visits in
  let st' := snd (CancelAppointment Clinic.bob 100 None st) in
  without (User._id Clinic.bob) (appointments st')
  = without (User._id Clinic.bob) (appointments st).
Proof.
  intros st st'.
  destruct (appointments_of_others_untouched st Clinic.bob) as (_ & _ & H).
  apply (H 100 None). reflexivity.
Defined.

Lemma insertSorted_Permutation {A} (leb : A -> A -> bool) doc docs :
  Permutation (insertSorted leb doc docs) (doc :: docs).
Proof.
  induction docs as [|d docs IH]; simpl; [apply Permutation_refl|].
  destruct (leb doc d); [apply Permutation_refl|].
  eapply perm_trans; [apply perm_skip, IH | apply perm_swap].
Qed.

Lemma sortDocs_Permutation {A} (leb : A -> A -> bool) docs :
  Permutation (sortDocs leb docs) docs.
Proof.
  induction docs as [|d docs IH]; simpl; [constructor|].
  eapply perm_trans; [apply insertSorted_Permutation|].
  now apply perm_skip.
Qed.

Section SortDocs.

Context {A : Type} (leb : A -> A -> bool) (R : A -> A -> Prop).
Hypothesis leb_true : forall a b, leb a b = true -> R a b.
Hypothesis leb_false : forall a b, leb a b = false -> R b a.

Lemma insertSorted_HdRel d doc docs :
  HdRel R d docs -> R d doc -> HdRel R d (insertSorted leb doc docs).
Proof.
  intros Hd Hr. destruct docs as [|e docs]; simpl; [now constructor|].
  destruct (leb doc e); constructor; [exact Hr|].
  now inversion Hd.
Qed.

Lemma insertSorted_Sorted doc docs :
  Sorted R docs -> Sorted R (insertSorted leb doc docs).
Proof.
  induction docs as [|d docs IH]; simpl; intros Hs.
  - repeat constructor.
  - destruct (leb doc d) eqn:E.
    + constructor; [exact Hs|]. constructor. now apply leb_true.
    + inversion Hs as [|? ? Hs' Hd]; subst.
      constructor; [now apply IH|].
      apply insertSorted_HdRel; [exact Hd | now apply leb_false].
Qed.

Lemma sortDocs_Sorted docs : Sorted R (sortDocs leb docs).
Proof.
  induction docs as [|d docs IH]; simpl; [constructor|].
  now apply insertSorted_Sorted.
Qed.

End SortDocs.

Lemma withDoctorDetails_Some st l l' :
  withDoctorDetails st l = Some l' ->
  map fst l' = l /\
  Forall
    (fun p =>
       snd p = Doctor.findOne (doctors st) (Appointment.doctorId (fst p))) l'.
Proof.
  revert l'. induction l as [|a l IH]; simpl; intros l'.
  - intros [= <-]. split; constructor.
  - destruct (User.findById _ _); [|discriminate].
    destruct (withDoctorDetails st l) as [rest|]; [|discriminate].
    intros [= <-]. destruct (IH rest eq_refl) as [Hm Hf].
    simpl. split; [now rewrite Hm | now constructor].
Qed.

Lemma withDoctorDetails_None st l :
  withDoctorDetails st l = None ->
  exists a,
    In a l /\ User.findById (users st) (Appointment.doctorId a) = None.
Proof.
  induction l as [|a l IH]; simpl; [discriminate|].
  destruct (User.findById _ _) eqn:E; [|exists a; auto].
  destruct (withDoctorDetails st l); [discriminate|].
  intros _. destruct (IH eq_refl) as (b & Hin & Hb). exists b. auto.
Qed.


Lemma String_leb_trans a b c :
  String.leb a b = true -> String.leb b c = true -> String.leb a c = true.
Proof.
  unfold String.leb.
  change String.compare with OrdersEx.String_as_OT.compare.
  destruct (OrdersEx.String_as_OT.compare_spec a b) as [Hab | Hab | _];
    [now rewrite Hab | | discriminate].
  destruct (OrdersEx.String_as_OT.compare_spec b c) as [Hbc | Hbc | _];
    [rewrite <- Hbc | | discriminate]; intros _ _.
  - now rewrite Hab.
  - assert (OrdersEx.String_as_OT.lt a c) as H
      by (eapply OrdersEx.String_as_OT.lt_strorder; eauto).
    now rewrite H.
Qed.

Lemma dateThenStart_true a b :
  dateThenStart a b = true -> byDateThenStart a b.
Proof.
  unfold dateThenStart, byDateThenStart.
  destruct (_ =? _) eqn:E; [apply Z.eqb_eq in E | lia]. auto.
Qed.

Lemma dateThenStart_false a b :
  dateThenStart a b = false -> byDateThenStart b a.
Proof.
  unfold dateThenStart, byDateThenStart.
  destruct (_ =? _) eqn:E; [apply Z.eqb_eq in E | apply Z.eqb_neq in E].
  - intros H. right. split; [auto|].
    destruct (String.leb_total
                (TimeSlot.startTime (Appointment.timeSlot a))
                (TimeSlot.startTime (Appointment.timeSlot b))); congruence.
  - lia.
Qed.

Lemma byDateThenStart_trans a b c :
  byDateThenStart a b -> byDateThenStart b c -> byDateThenStart a c.
Proof.
  unfold byDateThenStart.
  intros [H | [H H']] [K | [K K']]; try (left; lia).
  right. split; [lia|]. eapply String_leb_trans; eauto.
Qed.


Lemma cancelAccess_inv user a st :
  match cancelAccess user a st with
  | Allowed =>
      User.role user = Role.admin \/
      Appointment.patientId a = User._id user \/
      Appointment.doctorId a = User._id user
  | Denied =>
      User.role user <> Role.admin /\
      Appointment.patientId a <> User._id user /\
      Appointment.doctorId a <> User._id user
  | Thrown =>
      User.role user <> Role.admin /\
      (User.findById (users st) (Appointment.patientId a) = None \/
       User.findById (users st) (Appointment.doctorId a) = None)
  end.
Proof.
  unfold cancelAccess.
  destruct (User.role user) eqn:Hr; simpl; auto;
    (destruct (User.findById (users st) (Appointment.patientId a))
       as [p|] eqn:Hp; [|split; [discriminate | auto]]);
    apply User_findById_id in Hp;
    (destruct (User._id p =? User._id user) eqn:E;
       [apply Z.eqb_eq in E; right; left; congruence|]);
    apply Z.eqb_neq in E;
    (destruct (User.findById (users st) (Appointment.doctorId a))
       as [d|] eqn:Hd; [|split; [discriminate | auto]]);
    apply User_findById_id in Hd;
    (destruct (User._id d =? User._id user) eqn:E';
       [apply Z.eqb_eq in E'; right; right; congruence|]);
    apply Z.eqb_neq in E'; repeat split; congruence.
Qed.


Section AvailabilityFacts.

Variable check : Store -> User.t -> option (Z * string).

Lemma UpdateAvailability_inv user av st :
  snd (UpdateAvailability check user av st) = st \/
  exists raw doctor slots,
    av = Some raw /\
    Doctor.findOne (doctors st) (User._id user) = Some doctor /\
    castSlots raw = Some slots /\
    UpdateAvailability check user av st
    = (Json 200 (set_availability doctor slots),
       with_doctors st
         (Doctor.replace (doctors st) (set_availability doctor slots))).
Proof.
  unfold UpdateAvailability.
  destruct (negb _); [now left|].
  destruct (check st user) as [[code message]|]; [now left|].
  destruct av as [raw|]; [|now left].
  destruct (Doctor.findOne _ _) as [doctor|] eqn:Hd; [|now left].
  destruct (castSlots raw) as [slots|] eqn:Hc; [|now left].
  right. exists raw, doctor, slots. auto.
Qed.

(** X17. An availability update, whatever it answers, changes no account,
    no appointment, no feedback and no profile of another doctor, and of the
    requesting doctor's profile it changes neither the rating aggregate nor
    the total of appointments: appointments booked at a slot that the new
    list no longer offers stay in the ledger as they are. *)
Theorem availability_update_frame (st : Store) (user : User.t)
    (av : option (list RawSlot.t)) :
  let st' := snd (UpdateAvailability check user av st) in
  users st' = users st /\ appointments st' = appointments st /\
  feedbacks st' = feedbacks st /\ nextId st' = nextId st /\
  forall u,
    (u <> User._id user ->
     Doctor.findOne (doctors st') u = Doctor.findOne (doctors st) u) /\
    option_map standing (Doctor.findOne (doctors st') u)
    = option_map standing (Doctor.findOne (doctors st) u).
Proof.
  cbv zeta.
  destruct (UpdateAvailability_inv user av st)
    as [-> | (raw & d & slots & _ & Hd & _ & ->)];
    [repeat split; reflexivity|].
  cbn [snd users appointments feedbacks nextId doctors with_doctors].
  repeat split; try reflexivity.
  - intros Hu. apply Doctor_findOne_replace_other. cbn.
    rewrite (Doctor_findOne_userId _ _ _ Hd). exact Hu.
  - apply (replace_same_field _ _ d); [|reflexivity].
    cbn. now rewrite (Doctor_findOne_userId _ _ _ Hd).
Qed.

Lemma castSlots_Some raw slots :
  castSlots raw = Some slots ->
  Forall2 (fun r e => castSlot r = Some e) raw slots.
Proof.
  revert slots. induction raw as [|r raw IH]; simpl; intros slots.
  - intros [= <-]. constructor.
  - destruct (castSlot r) as [e|] eqn:He; [|discriminate].
    destruct (castSlots raw) as [es|]; [|discriminate].
    intros [= <-]. constructor; auto.
Qed.

Lemma castSlots_None raw :
  castSlots raw = None -> Exists (fun r => castSlot r = None) raw.
Proof.
  induction raw as [|r raw IH]; simpl; [discriminate|].
  destruct (castSlot r) as [e|] eqn:He; [|intros _; now left].
  destruct (castSlots raw) as [es|]; [discriminate|].
  intros _. right. auto.
Qed.


Lemma Day_round_trip d : Day_ofString (Day_toString d) = Some d.
Proof. destruct d; reflexivity. Qed.

Lemma castSlots_toRawSlot l :
  Forall wellFormed l -> castSlots (map toRawSlot l) = Some l.
Proof.
  induction 1 as [|e l [Hs He] _ IH]; simpl; [reflexivity|].
  rewrite IH. unfold castSlot, toRawSlot. cbn.
  rewrite Day_round_trip.
  apply String.eqb_neq in Hs, He. rewrite Hs, He. simpl.
  now destruct e.
Qed.

(** X19. When a doctor sends back the stored availability as the profile
    renders it, and the stored entries have start and end times, the update
    is accepted and every doctor profile, the requesting doctor's included,
    is afterwards what it was. *)
Theorem availability_round_trip (st : Store) (user : User.t)
    (doctor : Doctor.t) :
  authorize Role.doctor user = true ->
  check st user = None ->
  Doctor.findOne (doctors st) (User._id user) = Some doctor ->
  Forall wellFormed (Doctor.availability doctor) ->
  let request := Some (map toRawSlot (Doctor.availability doctor)) in
  fst (UpdateAvailability check user request st) = Json 200 doctor /\
  forall u,
    Doctor.findOne (doctors (snd (UpdateAvailability check user request st)))
      u
    = Doctor.findOne (doctors st) u.
Proof.
  intros Ha Hc Hd Hw. cbv zeta. unfold UpdateAvailability.
  rewrite Ha, Hc, Hd, (castSlots_toRawSlot _ Hw). simpl.
  assert (set_availability doctor (Doctor.availability doctor) = doctor)
    as -> by now destruct doctor.
  split; [reflexivity|]. intros u.
  pose proof (Doctor_findOne_userId _ _ _ Hd) as Hid.
  destruct (Z.eq_dec u (Doctor.userId doctor)) as [-> | Hne].
  - rewrite (Doctor_findOne_replace _ doctor doctor); congruence.
  - now apply Doctor_findOne_replace_other.
Qed.

End AvailabilityFacts.


Lemma availability_round_trip_witness :
  let st := run Clinic.store Clinic.visits in
  Doctor.findOne
    (doctors
       (snd (UpdateAvailability approvedOnly Clinic.drWho
               (Some (map toRawSlot Clinic.whoSlots)) st))) 2
  = Doctor.findOne (doctors st) 2.
Proof.
  intros st.
  let o := eval vm_compute in (Doctor.findOne (doctors st) 2) in
  match o with
  | Some ?d =>
      destruct (availability_round_trip approvedOnly st Clinic.drWho d)
        as [_ H];
      [reflexivity | reflexivity | vm_compute; reflexivity
      | repeat constructor; discriminate | exact (H 2) ]
  end.
Defined.

Lemma DeleteUser_inv admin uid st :
  succeeded (fst (DeleteUser admin uid st)) = true ->
  exists u,
    User.findById (users st) uid = Some u /\
    User.role u <> Role.admin /\
    feedbacks (snd (DeleteUser admin uid st)) = feedbacks st /\
    (forall a,
       In a (appointments (snd (DeleteUser admin uid st))) <->
       In a (appointments st) /\
       ~ partyOf u (Appointment.patientId a) (Appointment.doctorId a)) /\
    (doctors (snd (DeleteUser admin uid st)) = doctors st \/
     doctors (snd (DeleteUser admin uid st))
     = deleteDoctor (doctors st) uid).
Proof.
  unfold DeleteUser, partyOf.
  destruct (negb _); [discriminate|].
  destruct (User.findById (users st) uid) as [u|] eqn:Hu; [|discriminate].
  pose proof (User_findById_id _ _ _ Hu) as Hid.
  destruct (User.role u) eqn:Hr; [| |discriminate]; intros _;
    exists u; rewrite Hr; cbn [snd feedbacks appointments doctors];
    (split; [reflexivity|]); (split; [discriminate|]);
    (split; [reflexivity|]);
    (split; [|try rewrite Hid; auto]);
    intros a; rewrite filter_In, negb_true_iff, Z.eqb_neq; tauto.
Qed.

Lemma deleteDoctor_findOne l uid k :
  k <> uid ->
  Doctor.findOne (deleteDoctor l uid) k = Doctor.findOne l k.
Proof.
  intros Hk. unfold Doctor.findOne.
  induction l as [|x l IH]; simpl; [reflexivity|].
  destruct (Doctor.userId x =? uid) eqn:E; simpl.
  - apply Z.eqb_eq in E.
    assert ((Doctor.userId x =? k) = false) as ->
      by (apply Z.eqb_neq; congruence).
    reflexivity.
  - now rewrite IH.
Qed.

(** X20. When the deletion of an account succeeds, the account was stored
    and is not an administrator; the appointments that remain are exactly
    those in which the account did not take part in its role (as the patient
    for a patient, as the doctor for a doctor); the profile of every other
    doctor, rating aggregate included, and every feedback document are left
    as they were. *)
Theorem DeleteUser_cascade (st : Store) (admin : User.t) (uid : ObjectId) :
  succeeded (fst (DeleteUser admin uid st)) = true ->
  let st' := snd (DeleteUser admin uid st) in
  exists u,
    User.findById (users st) uid = Some u /\
    User.role u <> Role.admin /\
    (forall a,
       In a (appointments st') <->
       In a (appointments st) /\
       ~ partyOf u (Appointment.patientId a) (Appointment.doctorId a)) /\
    (forall k,
       k <> uid ->
       Doctor.findOne (doctors st') k = Doctor.findOne (doctors st) k) /\
    feedbacks st' = feedbacks st.
Proof.
  intros Hs. cbv zeta.
  destruct (DeleteUser_inv admin uid st Hs)
    as (u & Hu & Hr & Hf & Ha & Hd).
  exists u. split; [exact Hu|]. split; [exact Hr|].
  split; [exact Ha|]. split; [|exact Hf].
  intros k Hk. destruct Hd as [-> | ->]; [reflexivity|].
  now apply deleteDoctor_findOne.
Qed.

Lemma DeleteUser_cascade_witness :
  let st :=
    run Clinic.store
      (Clinic.visits ++ [Submit Clinic.alice (Clinic.rate 100 4)]) in
  let st' := snd (DeleteUser Clinic.root 1 st) in
  Doctor.findOne (doctors st') 2 = Doctor.findOne (doctors st) 2 /\
  feedbacks st' = feedbacks st.
Proof.
  intros st st'.
  destruct (DeleteUser_cascade st Clinic.root 1)
    as (u & _ & _ & _ & Hd & Hf); [vm_compute; reflexivity|].
  split; [apply Hd; discriminate | exact Hf].
Defined.

(** X21. Deleting an account leaves behind the feedback in which the account
    took part in its role (written by a deleted patient, given to a deleted
    doctor): every such feedback is still stored afterwards, and the ledger
    then holds no appointment with the feedback's patient and doctor any
    more, of whatever status or identifier. *)
Theorem deleted_account_feedback_dangles (st : Store) (admin : User.t)
    (uid : ObjectId) (u : User.t) (f : Feedback.t) :
  succeeded (fst (DeleteUser admin uid st)) = true ->
  User.findById (users st) uid = Some u ->
  In f (feedbacks st) ->
  partyOf u (Feedback.patientId f) (Feedback.doctorId f) ->
  let st' := snd (DeleteUser admin uid st) in
  In f (feedbacks st') /\
  (forall a,
     In a (appointments st') ->
     Appointment.patientId a = Feedback.patientId f ->
     Appointment.doctorId a = Feedback.doctorId f ->
     False) /\
  ~ grounded st' f.
Proof.
  intros Hs Hu Hin Hp. cbv zeta.
  destruct (DeleteUser_inv admin uid st Hs)
    as (u' & Hu' & _ & Hf & Ha & _).
  assert (u' = u) as -> by congruence.
  assert (forall a,
            In a (appointments (snd (DeleteUser admin uid st))) ->
            Appointment.patientId a = Feedback.patientId f ->
            Appointment.doctorId a = Feedback.doctorId f ->
            False) as Hnone.
  { intros a Hain Hpat Hdoc. apply Ha in Hain. destruct Hain as [_ Hn].
    apply Hn. now rewrite Hpat, Hdoc. }
  split; [now rewrite Hf|]. split; [exact Hnone|].
  intros (a & Hain & _ & _ & Hpat & Hdoc). exact (Hnone a Hain Hpat Hdoc).
Qed.

Lemma deleted_account_feedback_dangles_witness :
  let st :=
    run Clinic.store
      (Clinic.visits ++ [Submit Clinic.alice (Clinic.rate 100 4)]) in
  let st' := snd (DeleteUser Clinic.root 1 st) in
  List.length (appointments st) = 4%nat /\
  exists f,
    In f (feedbacks st') /\ Feedback.patientId f = 1 /\
    Forall (fun a => Appointment.patientId a <> Feedback.patientId f)
      (appointments st') /\
    ~ grounded st' f.
Proof.
  intros st st'. split; [vm_compute; reflexivity|].
  let o := eval vm_compute in (feedbacks st) in
  match o with
  | ?f :: _ =>
      exists f;
      destruct (deleted_account_feedback_dangles st Clinic.root 1
                  Clinic.alice f) as (H1 & H2 & H3);
      [ vm_compute; reflexivity | vm_compute; reflexivity
      | vm_compute; left; reflexivity | vm_compute; reflexivity | ];
      split; [exact H1|]; split; [reflexivity|]; split; [|exact H3]
  end.
  vm_compute. constructor.
Defined.

Lemma saveUser_findById l u u' k :
  User.findById l (User._id u') = Some u ->
  User.findById (saveUser l u') k
  = if k =? User._id u' then Some u' else User.findById l k.
Proof.
  unfold User.findById.
  induction l as [|x l IH]; simpl; [discriminate|].
  destruct (User._id x =? User._id u') eqn:E; simpl.
  - intros _. apply Z.eqb_eq in E. rewrite E, (Z.eqb_sym k).
    now destruct (User._id u' =? k).
  - intros H. rewrite (IH H).
    destruct (User._id x =? k) eqn:Ex; [|reflexivity].
    apply Z.eqb_eq in Ex. subst k. now rewrite E.
Qed.

Lemma Approve_inv admin uid st :
  succeeded (fst (ApproveDoctor admin uid st)) = true ->
  exists u,
    User.findById (users st) uid = Some u /\
    User.role u = Role.doctor /\ User.isApproved u = false /\
    snd (ApproveDoctor admin uid st)
    = with_users st (saveUser (users st) (set_approved u true)).
Proof.
  unfold ApproveDoctor.
  destruct (negb _); [discriminate|].
  destruct (User.findById (users st) uid) as [u|] eqn:Hu; [|discriminate].
  destruct (User.role u) eqn:Hr; simpl; try discriminate.
  destruct (User.isApproved u) eqn:Ha; [discriminate|].
  intros _. exists u. auto.
Qed.

(** X22. When the approval of a doctor succeeds, the account was a stored
    doctor account that was not approved, and until then no booking with
    that doctor could succeed.  Afterwards no booking with that doctor is
    refused for want of approval, a second approval is refused with 400, and
    the profiles, the appointments and the feedback are as before. *)
Theorem approval_opens_booking (st : Store) (admin : User.t)
    (uid : ObjectId) :
  succeeded (fst (ApproveDoctor admin uid st)) = true ->
  let st' := snd (ApproveDoctor admin uid st) in
  (forall now user body,
     BookBody.doctorId body = uid ->
     succeeded (fst (BookAppointment now user body st)) = false) /\
  (forall now user body,
     BookBody.doctorId body = uid ->
     errorOf (fst (BookAppointment now user body st'))
     <> Some DoctorUnavailableError) /\
  ApproveDoctor admin uid st' = (Fail 400 "Doctor is already approved", st') /\
  doctors st' = doctors st /\ appointments st' = appointments st /\
  feedbacks st' = feedbacks st.
Proof.
  intros Hs. cbv zeta.
  destruct (Approve_inv admin uid st Hs) as (u & Hu & Hr & Ha & ->).
  pose proof (User_findById_id _ _ _ Hu) as Hid.
  assert (forall k,
            User.findById (saveUser (users st) (set_approved u true)) k
            = if k =? uid then Some (set_approved u true)
              else User.findById (users st) k) as Hnew.
  { intros k. rewrite (saveUser_findById _ u); [now rewrite <- Hid|].
    cbn. now rewrite Hid. }
  split; [|split; [|split; [|repeat split]]].
  - intros now user body <-. unfold BookAppointment. cbv zeta.
    repeat break_match; try reflexivity;
      match goal with
      | D : Doctor.findOne _ _ = Some ?d,
        F : User.findById _ (Doctor.userId ?d) = Some ?acc |- _ =>
          rewrite (Doctor_findOne_userId _ _ _ D) in F;
          assert (acc = u) by congruence; subst acc
      end;
      rewrite Ha in *; discriminate.
  - intros now user body <-. unfold BookAppointment. cbv zeta.
    cbn [doctors users with_users appointments nextId].
    repeat break_match; try (cbn; discriminate).
    match goal with
    | D : Doctor.findOne _ _ = Some ?d,
      F : User.findById _ (Doctor.userId ?d) = Some ?acc |- _ =>
        rewrite (Doctor_findOne_userId _ _ _ D), Hnew, Z.eqb_refl in F;
        injection F as <-
    end.
    discriminate.
  - unfold ApproveDoctor.
    destruct (negb (authorize Role.admin admin)) eqn:Hadm.
    + unfold ApproveDoctor in Hs. rewrite Hadm in Hs. discriminate.
    + cbn [users with_users]. rewrite Hnew, Z.eqb_refl. cbn.
      now rewrite Hr.
Qed.

Lemma approval_opens_booking_witness :
  let st' := snd (ApproveDoctor Clinic.root 4 Clinic.store) in
  ApproveDoctor Clinic.root 4 st'
  = (Fail 400 "Doctor is already approved", st').
Proof.
  intros st'.
  destruct (approval_opens_booking Clinic.store Clinic.root 4)
    as (_ & _ & H & _); [vm_compute; reflexivity | exact H].
Defined.

(** X24. The statistics count every stored appointment under exactly one
    status: the four status counts add up to the total, which is the size of
    the ledger; and the three account counts never count an account twice,
    an administrator or a deactivated account. *)
Theorem GetStats_partition (st : Store) (admin : User.t) :
  snd (GetStats admin st) = st /\
  match fst (GetStats admin st) with
  | Json code s =>
      code = 200 /\
      (Stats.pendingAppointments s + Stats.confirmedAppointments s
       + Stats.completedAppointments s + Stats.cancelledAppointments s
       = Stats.totalAppointments s)%nat /\
      Stats.totalAppointments s = List.length (appointments st) /\
      (Stats.totalPatients s + Stats.totalDoctors s + Stats.pendingDoctors s
       = List.length
           (filter
              (fun u =>
                 (User.isActive u
                  && negb (Role.eqb (User.role u) Role.admin))%bool)
              (users st)))%nat
  | Fail code _ => code = 403 /\ User.role admin <> Role.admin
  | ValidationErrors => False
  end.
Proof.
  unfold GetStats, authorize, countDocuments. cbv zeta.
  destruct (User.role admin) eqn:Hr; simpl;
    try (split; [reflexivity|]; split; [reflexivity | discriminate]).
  split; [reflexivity|]. split; [reflexivity|].
  split; [|split].
  - induction (appointments st) as [|a l IH]; simpl; [reflexivity|].
    destruct (Appointment.status a); simpl; lia.
  - induction (appointments st) as [|a l IH]; simpl; [reflexivity|].
    now rewrite IH.
  - induction (users st) as [|u l IH]; simpl; [reflexivity|].
    destruct (User.role u), (User.isApproved u), (User.isActive u);
      simpl; lia.
Qed.

Lemma cancelAccess_same user a st1 st2 :
  (forall k,
     option_map readOf (User.findById (users st1) k)
     = option_map readOf (User.findById (users st2) k)) ->
  cancelAccess user a st1 = cancelAccess user a st2.
Proof.
  intros H. unfold cancelAccess.
  destruct (Role.eqb _ _); [reflexivity|].
  pose proof (H (Appointment.patientId a)) as Hp.
  pose proof (H (Appointment.doctorId a)) as Hd.
  destruct (User.findById (users st1) (Appointment.patientId a)) as [p1|],
    (User.findById (users st2) (Appointment.patientId a)) as [p2|];
    simpl in Hp; try discriminate; [|reflexivity].
  injection Hp as Hp _. rewrite Hp.
  destruct (_ =? _); [reflexivity|].
  destruct (User.findById (users st1) (Appointment.doctorId a)) as [d1|],
    (User.findById (users st2) (Appointment.doctorId a)) as [d2|];
    simpl in Hd; try discriminate; [|reflexivity].
  injection Hd as Hd _. now rewrite Hd.
Qed.

Section SameToHandlers.

Variables st1 st2 : Store.
Hypothesis same : sameToHandlers st1 st2.

Lemma Book_same now user body :
  fst (BookAppointment now user body st1)
  = fst (BookAppointment now user body st2).
Proof.
  destruct same as (Hd & Ha & _ & Hn & Hk).
  unfold BookAppointment. cbv zeta. rewrite Hd, Ha, Hn.
  destruct (negb _); [reflexivity|].
  destruct (_ || _)%bool; [reflexivity|].
  destruct (Doctor.findOne _ _) as [d|]; [|reflexivity].
  specialize (Hk (Doctor.userId d)).
  destruct (User.findById (users st1) _) as [a1|],
    (User.findById (users st2) _) as [a2|];
    simpl in Hk; try discriminate; [|reflexivity].
  injection Hk as _ Hk. rewrite Hk.
  repeat break_match; reflexivity.
Qed.

Lemma Cancel_same user id reason :
  fst (CancelAppointment user id reason st1)
  = fst (CancelAppointment user id reason st2).
Proof.
  destruct same as (_ & Ha & _ & _ & Hk).
  unfold CancelAppointment. rewrite Ha.
  destruct (Appointment.findById _ _) as [a|]; [|reflexivity].
  rewrite (cancelAccess_same user a st1 st2 Hk).
  repeat break_match; reflexivity.
Qed.

Lemma Complete_same user id n p :
  fst (CompleteAppointment user id n p st1)
  = fst (CompleteAppointment user id n p st2).
Proof.
  destruct same as (_ & Ha & _).
  unfold CompleteAppointment. rewrite Ha.
  repeat break_match; reflexivity.
Qed.

Lemma Resolve_same d date :
  fst (ResolveSlots d date st1) = fst (ResolveSlots d date st2).
Proof.
  destruct same as (Hd & Ha & _).
  unfold ResolveSlots, ResolveSlotsIn. rewrite Hd, Ha.
  repeat break_match; reflexivity.
Qed.

Lemma Submit_same user body :
  fst (SubmitFeedback user body st1) = fst (SubmitFeedback user body st2).
Proof.
  destruct same as (Hd & Ha & Hf & Hn & _).
  unfold SubmitFeedback, saveRating. cbv zeta.
  cbn [doctors feedbacks appointments nextId with_feedbacks fresh].
  rewrite Hd, Ha, Hf, Hn.
  repeat break_match; try reflexivity;
    repeat match goal with
           | H : (if ?c then Some _ else None) = _ |- _ => destruct c
           end;
    discriminate.
Qed.

Lemma Update_same user id r c :
  fst (UpdateFeedback user id r c st1) = fst (UpdateFeedback user id r c st2).
Proof.
  destruct same as (Hd & _ & Hf & _).
  unfold UpdateFeedback, saveRating. cbv zeta.
  cbn [doctors feedbacks appointments nextId with_feedbacks fresh].
  rewrite Hd, Hf.
  repeat break_match; try reflexivity;
    repeat match goal with
           | H : (if ?c then Some _ else None) = _ |- _ => destruct c
           end;
    discriminate.
Qed.

Lemma Delete_same user id :
  fst (DeleteFeedback user id st1) = fst (DeleteFeedback user id st2).
Proof.
  destruct same as (Hd & _ & Hf & _).
  unfold DeleteFeedback, saveRating. cbv zeta.
  cbn [doctors feedbacks appointments nextId with_feedbacks fresh].
  rewrite Hd, Hf.
  repeat break_match; try reflexivity;
    repeat match goal with
           | H : (if ?c then Some _ else None) = _ |- _ => destruct c
           end;
    discriminate.
Qed.

End SameToHandlers.

Lemma set_active_same st u b :
  User.findById (users st) (User._id u) = Some u ->
  sameToHandlers (with_users st (saveUser (users st) (set_active u b))) st.
Proof.
  intros Hu. repeat split. intros k. cbn [users with_users].
  rewrite (saveUser_findById _ u) by exact Hu. cbn [User._id set_active].
  destruct (k =? User._id u) eqn:E; [|reflexivity].
  apply Z.eqb_eq in E. subst k. now rewrite Hu.
Qed.

Lemma activity_same admin uid st (b : bool) :
  sameToHandlers
    (snd (if b then ActivateUser admin uid st
          else DeactivateUser admin uid st)) st.
Proof.
  assert (sameToHandlers st st) as Hrefl by (repeat split).
  destruct b; [unfold ActivateUser | unfold DeactivateUser];
    (destruct (negb _); [exact Hrefl|]);
    (destruct (User.findById (users st) uid) as [u|] eqn:Hu;
       [|exact Hrefl]);
    rewrite <- (User_findById_id _ _ _ Hu) in Hu;
    [|destruct (Role.eqb _ _); [exact Hrefl|]];
    now apply set_active_same.
Qed.


Module RetryFacts.

Import Retry.

Lemma backoff_S delay k :
  backoff delay (S k) = delay :: backoff (delay * 2) k.
Proof.
  unfold backoff. simpl. f_equal; [lia|].
  rewrite <- seq_shift, map_map. apply map_ext. intros i.
  rewrite Nat2Z.inj_succ, Z.pow_succ_r by lia. lia.
Qed.

Lemma loop_spec {A} (apiCall : nat -> Outcome A) (maxRetries : Z) :
  forall fuel attempt delay done slept,
    1 <= attempt <= maxRetries ->
    maxRetries - attempt < Z.of_nat fuel ->
    exists k,
      calls (loop fuel apiCall maxRetries attempt delay done slept)
      = S (done + k) /\
      Z.of_nat k <= maxRetries - attempt /\
      waits (loop fuel apiCall maxRetries attempt delay done slept)
      = slept ++ backoff delay k /\
      retried apiCall done k /\
      match result (loop fuel apiCall maxRetries attempt delay done slept)
      with
      | Returned a => apiCall (done + k)%nat = Resolved a
      | Threw e =>
          apiCall (done + k)%nat = Rejected e /\
          (isRetryableError e = false \/ attempt + Z.of_nat k = maxRetries)
      | Undefined => False
      end.
Proof.
  induction fuel as [|fuel IH]; intros attempt delay done slept Ha Hf;
    [lia|].
  simpl. destruct (attempt <=? maxRetries) eqn:Hle;
    [|apply Z.leb_gt in Hle; lia].
  assert (retried apiCall done 0) as Hnone by (intros i Hi; lia).
  destruct (apiCall done) as [a|e] eqn:Hcall.
  - exists O. simpl. rewrite Nat.add_0_r, app_nil_r.
    repeat split; auto; lia.
  - destruct (attempt =? maxRetries) eqn:Hlast; simpl.
    + apply Z.eqb_eq in Hlast. exists O. simpl.
      rewrite Nat.add_0_r, app_nil_r. repeat split; auto; lia.
    + apply Z.eqb_neq in Hlast.
      destruct (isRetryableError e) eqn:Hre; simpl.
      * destruct (IH (attempt + 1) (delay * 2) (S done)
                    (slept ++ [delay])) as (k & Hc & Hk & Hw & Hr & Hres);
          [lia | lia |].
        exists (S k). rewrite Hc, Hw, backoff_S, <- app_assoc.
        replace (done + S k)%nat with (S done + k)%nat by lia.
        repeat split; try reflexivity; try lia.
        -- intros [|i] Hi.
           ++ exists e. now rewrite Nat.add_0_r.
           ++ replace (done + S i)%nat with (S done + i)%nat by lia.
              apply Hr. lia.
        -- destruct (result _) as [a|e'|]; [exact Hres| |exact Hres].
           destruct Hres as [Hcall' Hwhy]. split; [exact Hcall'|].
           destruct Hwhy; [now left | right; lia].
      * exists O. simpl. rewrite Nat.add_0_r, app_nil_r.
        repeat split; auto; lia.
Qed.

End RetryFacts.

(** X25. With no attempt allowed ([maxRetries] below 1) the retry wrapper
    never invokes the call and resolves to undefined.  Otherwise it never
    ends undefined, invokes the call at least once and at most [maxRetries]
    times, and the timeouts it sleeps between the invocations are the delay,
    twice the delay, four times the delay and so on, one less than there are
    invocations. *)
Theorem retry_bounds {A} (apiCall : nat -> Retry.Outcome A)
    (maxRetries delay : Z) :
  let run := Retry.retryApiCall apiCall maxRetries delay in
  (maxRetries < 1 ->
   Retry.result run = Retry.Undefined /\ Retry.calls run = O /\
   Retry.waits run = []) /\
  (1 <= maxRetries ->
   Retry.result run <> Retry.Undefined /\
   (1 <= Retry.calls run)%nat /\
   Z.of_nat (Retry.calls run) <= maxRetries /\
   Retry.waits run = backoff delay (Nat.pred (Retry.calls run))).
Proof.
  cbv zeta. unfold Retry.retryApiCall. split; intros H.
  - simpl. destruct (1 <=? maxRetries) eqn:E;
      [apply Z.leb_le in E; lia | auto].
  - destruct (RetryFacts.loop_spec apiCall maxRetries
                (S (Z.to_nat maxRetries)) 1 delay 0 [])
      as (k & Hc & Hk & Hw & _ & Hres); [lia | lia |].
    split; [intros Hu; now rewrite Hu in Hres|].
    rewrite Hc, Hw. cbn [Nat.pred Nat.add app]. repeat split; lia.
Qed.

Lemma retry_bounds_witness :
  let apiCall (n : nat) : Retry.Outcome Z :=
    Retry.Rejected {| Retry.status := Some 503; Retry.code := None |} in
  let run := Retry.retryApiCall apiCall 3 1000 in
  Retry.result run <> Retry.Undefined /\
  (1 <= Retry.calls run)%nat /\
  Z.of_nat (Retry.calls run) <= 3 /\
  Retry.waits run = backoff 1000 (Nat.pred (Retry.calls run)).
Proof.
  intros apiCall run.
  apply (retry_bounds apiCall 3 1000). lia.
Defined.



(** X27. The bounds of the rating aggregate hold in every state reached by
    any requests, the administrative ones and availability updates
    included: every stored mean lies between 0 and 5, no count is negative,
    and a profile without ratings has mean 0. *)
Theorem aggregate_bounds_any
    (check : Store -> User.t -> option (Z * string)) (st : Store) :
  ReachableAny check st ->
  forall d, In d (doctors st) ->
    (PrimFloat.leb 0 (Doctor.rating d) = true /\
     PrimFloat.leb (Doctor.rating d) 5 = true) /\
    0 <= Doctor.totalRatings d /\
    (Doctor.totalRatings d = 0 -> Doctor.rating d = 0%float).
Proof.
  intros H.
  assert (Forall Aggregate.ok (doctors st)) as Hok.
  { revert st H. apply ReachableAny_inv.
    - apply AggregateFacts.initial_ok.
    - intros st r. apply AggregateFacts.step_ok.
    - intros st r. apply Admin_ok. }
  intros d Hin. rewrite Forall_forall in Hok.
  destruct (Hok d Hin) as (Hv & Hc & Hz).
  unfold Doctor.validRating in Hv. apply andb_true_iff in Hv.
  repeat split; tauto.
Qed.

Lemma aggregate_bounds_any_witness :
  let st :=
    runAny approvedOnly Clinic.store
      (map Core Clinic.visits ++
       [Core (Submit Clinic.alice (Clinic.rate 100 4));
        Admin (Remove Clinic.root 1);
        Admin (Approve Clinic.root 4)]) in
  ReachableAny approvedOnly st /\
  map Feedback.rating (feedbacks st) = [4] /\ appointments st = [] /\
  forall d, In d (doctors st) ->
    (PrimFloat.leb 0 (Doctor.rating d) = true /\
     PrimFloat.leb (Doctor.rating d) 5 = true) /\
    0 <= Doctor.totalRatings d /\
    (Doctor.totalRatings d = 0 -> Doctor.rating d = 0%float).
Proof.
  intros st.
  assert (ReachableAny approvedOnly st) as H
    by apply ReachableAny_run, ReachableAny_initial, Clinic_store_initial.
  split; [exact H|].
  split; [vm_compute; reflexivity|].
  split; [vm_compute; reflexivity|].
  exact (aggregate_bounds_any approvedOnly st H).
Defined.

Lemma Delete_succeeded st user id :
  succeeded (fst (DeleteFeedback user id st)) = true ->
  feedbacks (snd (DeleteFeedback user id st))
  = Feedback.delete (feedbacks st) id /\
  appointments (snd (DeleteFeedback user id st)) = appointments st.
Proof.
  unfold DeleteFeedback. cbv zeta.
  repeat break_match; simpl; try discriminate; intros _;
    try match goal with
        | H : saveRating _ _ = Some _ |- _ =>
            apply saveRating_frame in H; destruct H as (-> & -> & _)
        end;
    split; reflexivity.
Qed.

Lemma Feedback_delete_frees l id f :
  NoDup (map Feedback.appointmentId l) ->
  Feedback.findById l id = Some f ->
  Feedback.findOne (Feedback.delete l id) (Feedback.appointmentId f) = None.
Proof.
  unfold Feedback.findById, Feedback.findOne.
  induction l as [|x l IH]; simpl; [discriminate|].
  intros Hnd Hf. apply NoDup_cons_iff in Hnd. destruct Hnd as [Hx Hnd].
  destruct (Feedback._id x =? id).
  - injection Hf as <-.
    destruct (find (fun g => Feedback.appointmentId g
                             =? Feedback.appointmentId x) l)
      as [g|] eqn:Hg; [|reflexivity].
    apply find_some in Hg. destruct Hg as [Hin Hg].
    apply Z.eqb_eq in Hg. exfalso. apply Hx. rewrite <- Hg.
    now apply in_map.
  - simpl.
    destruct (Feedback.appointmentId x =? Feedback.appointmentId f) eqn:E;
      [|now apply IH].
    apply Z.eqb_eq in E. apply find_some in Hf. destruct Hf as [Hin _].
    exfalso. apply Hx. rewrite E. now apply in_map.
Qed.

Lemma ReachableAny_one_feedback
    (check : Store -> User.t -> option (Z * string)) (st : Store) :
  ReachableAny check st ->
  NoDup (map Feedback.appointmentId (feedbacks st)).
Proof.
  revert st. apply ReachableAny_inv.
  - intros st (_ & He & _). rewrite He. constructor.
  - intros st r. apply step_one_feedback.
  - intros st r Hnd. now rewrite Admin_feedbacks.
Qed.

(** X28. In every state reached by any requests, once the deletion of a
    feedback has succeeded no feedback is stored for its appointment any
    more, and a new submission for that appointment is not refused as a
    duplicate. *)
Theorem feedback_can_be_resubmitted
    (check : Store -> User.t -> option (Z * string)) (st : Store)
    (user : User.t) (id : ObjectId) (f : Feedback.t) :
  ReachableAny check st ->
  Feedback.findById (feedbacks st) id = Some f ->
  succeeded (fst (DeleteFeedback user id st)) = true ->
  let st' := snd (DeleteFeedback user id st) in
  Feedback.findOne (feedbacks st') (Feedback.appointmentId f) = None /\
  forall author body,
    FeedbackBody.appointmentId body = Feedback.appointmentId f ->
    errorOf (fst (SubmitFeedback author body st'))
    <> Some DuplicateFeedbackError.
Proof.
  intros H Hf Hs. cbv zeta.
  apply ReachableAny_one_feedback in H.
  destruct (Delete_succeeded st user id Hs) as [Hfb _].
  assert (Feedback.findOne (feedbacks (snd (DeleteFeedback user id st)))
            (Feedback.appointmentId f) = None) as Hnone
    by (rewrite Hfb; now apply Feedback_delete_frees).
  split; [exact Hnone|].
  intros author body Hb. rewrite <- Hb in Hnone.
  generalize dependent (snd (DeleteFeedback user id st)).
  intros st' _ Hnone.
  unfold SubmitFeedback, Feedback.insert. cbv zeta. rewrite Hnone.
  cbn [Feedback.appointmentId].
  fold (Feedback.findOne (feedbacks st') (FeedbackBody.appointmentId body)).
  rewrite (find_none_existsb _ _ Hnone).
  repeat break_match; cbn; discriminate.
Qed.

Lemma feedback_can_be_resubmitted_witness :
  let st :=
    run Clinic.store
      (Clinic.visits ++ [Submit Clinic.alice (Clinic.rate 100 4)]) in
  let st' := snd (DeleteFeedback Clinic.alice 104 st) in
  errorOf (fst (SubmitFeedback Clinic.alice (Clinic.rate 100 5) st'))
  <> Some DuplicateFeedbackError.
Proof.
  intros st st'.
  let o := eval vm_compute in (Feedback.findById (feedbacks st) 104) in
  match o with
  | Some ?f =>
      destruct (feedback_can_be_resubmitted approvedOnly st Clinic.alice
                  104 f) as [_ H];
      [ apply Reachable_any, Clinic_run_reachable
      | vm_compute; reflexivity | vm_compute; reflexivity
      | apply H; reflexivity ]
  end.
Defined.

Lemma Book_reads_userId st1 st2 now user body :
  users st1 = users st2 -> appointments st1 = appointments st2 ->
  nextId st1 = nextId st2 ->
  (forall k,
     option_map Doctor.userId (Doctor.findOne (doctors st1) k)
     = option_map Doctor.userId (Doctor.findOne (doctors st2) k)) ->
  fst (BookAppointment now user body st1)
  = fst (BookAppointment now user body st2).
Proof.
  intros Hu Ha Hn Hk. unfold BookAppointment. cbv zeta.
  rewrite Hu, Ha, Hn.
  destruct (negb _); [reflexivity|].
  destruct (_ || _)%bool; [reflexivity|].
  specialize (Hk (BookBody.doctorId body)).
  destruct (Doctor.findOne (doctors st1) _) as [d1|],
    (Doctor.findOne (doctors st2) _) as [d2|];
    simpl in Hk; try discriminate; [|reflexivity].
  injection Hk as Hk. rewrite Hk.
  repeat break_match; reflexivity.
Qed.

(** X29. A booking is never checked against the weekly availability: after
    any availability update, of the booked doctor or of another, every
    booking request is answered as it would have been before, also for a
    slot that the doctor no longer offers. *)
Theorem booking_ignores_availability
    (check : Store -> User.t -> option (Z * string)) (st : Store)
    (doctor : User.t) (av : option (list RawSlot.t))
    (now : Date) (user : User.t) (body : BookBody.t) :
  fst (BookAppointment now user body
         (snd (UpdateAvailability check doctor av st)))
  = fst (BookAppointment now user body st).
Proof.
  destruct (UpdateAvailability_inv check doctor av st)
    as [-> | (raw & d & slots & _ & Hd & _ & ->)]; [reflexivity|].
  cbn [snd]. apply Book_reads_userId; try reflexivity.
  intros k. cbn [doctors with_doctors].
  apply (replace_same_field Doctor.userId _ d); [|reflexivity].
  cbn. now rewrite (Doctor_findOne_userId _ _ _ Hd).
Qed.
